(** * A shallow embedding of the task queue: jobs, leases, retries, dead
      letters, the Redis rate gate and the submission route.

    Sources embedded here:
    - the migration (tables [jobs] and [dlq], their defaults and unique
      indexes);
    - [services/jobService.ts] ([JobService], in its two copies);
    - [services/workerService.ts] ([WorkerService]);
    - [services/rateLimiter.ts] ([RateLimiter]);
    - [api/routes.ts] (the [POST /api/v1/jobs] handler).

    Timestamps are milliseconds since the epoch, as [Z].  Every reading of
    the clock ([new Date()], [Date.now()], [CURRENT_TIMESTAMP]) and every
    generated identifier ([uuidv4()], [Math.random()]) is an explicit
    argument, so each function below is a pure function of the store and
    of what the environment handed to the call. *)

From Stdlib Require Import ZArith Lia List Bool String.
From Stdlib Require QArith.
From stdpp Require Import base option list gmap strings pretty.

#[local] Set Warnings "-register-all".
Local Open Scope Z_scope.

(** ** JSON values and JavaScript truthiness *)

Module Json.

(** A JSON value, as [express.json()] hands it to the handler and as a
    JSONB column holds it: a number is its value (a rational; every number
    a body can carry is one), an object is the finite map from its keys to
    their values, with no order among the keys. *)
Inductive t : Type :=
| JNull
| JBool (b : bool)
| JNum (q : QArith_base.Q)
| JStr (s : string)
| JArr (items : list t)
| JObject (members : gmap string t).

(** The object written with the given fields; of two fields with the same
    key the later one counts, as in [JSON.parse]. *)
Definition JObj (fields : list (string * t)) : t :=
  JObject (list_to_map (reverse fields)).

(** [!!v] for a JSON value: [null], [false], a number equal to zero and
    the empty string are falsy; arrays and objects (also empty ones) are
    truthy. *)
Definition truthy (v : t) : bool :=
  match v with
  | JNull => false
  | JBool b => b
  | JNum q => negb (QArith_base.Qnum q =? 0)
  | JStr s => negb (String.eqb s EmptyString)
  | JArr _ => true
  | JObject _ => true
  end.

(** A body field that may be absent ([undefined] is falsy). *)
Definition truthy_field (f : option t) : bool :=
  match f with
  | None => false
  | Some v => truthy v
  end.

(** A field whose interface type is [string]: [undefined] and the empty string are
    falsy. *)
Definition truthy_string (f : option string) : bool :=
  match f with
  | None => false
  | Some s => negb (String.eqb s EmptyString)
  end.

End Json.

(** ** The durable store: the two tables of the migration *)

Inductive JobStatus : Type := pending | running | completed | failed.

Definition JobStatus_eqb (a b : JobStatus) : bool :=
  match a, b with
  | pending, pending | running, running
  | completed, completed | failed, failed => true
  | _, _ => false
  end.

(** The labels of the enum, which are also the keys of [jobs_by_status]. *)
Definition status_name (s : JobStatus) : string :=
  match s with
  | pending => "pending"
  | running => "running"
  | completed => "completed"
  | failed => "failed"
  end.

Definition all_statuses : list JobStatus := [pending; running; completed; failed].

Module Job.
(** A row of [jobs]; the fields carry the Prisma client's names. *)
Record t : Type := mk {
  id : string;
  tenantId : string;
  status : JobStatus;
  payload : Json.t;
  idempotencyKey : option string;
  retryCount : Z;
  maxRetries : Z;
  leaseExpiresAt : option Z;
  workerId : option string;
  createdAt : Z;
  startedAt : option Z;
  completedAt : option Z;
  errorMessage : option string;
  traceId : string
}.
End Job.

Module DLQ.
(** A row of [dlq]. *)
Record t : Type := mk {
  id : string;
  jobId : string;
  payload : Json.t;
  finalError : string;
  failedAt : Z;
  traceId : string
}.
End DLQ.

Record Db : Type := mkDb {
  jobs : list Job.t;
  dlq : list DLQ.t
}.

Definition empty_db : Db := {| jobs := []; dlq := [] |}.

(** ** The Prisma calls the services make *)

Module Prisma.

Inductive Error : Type :=
| UniqueConstraintViolation
| ForeignKeyViolation
| RecordNotFound.

(** The text carried by a thrown client error (its [message]). *)
Definition message (e : Error) : string :=
  match e with
  | UniqueConstraintViolation => "Unique constraint failed"
  | ForeignKeyViolation => "Foreign key constraint failed"
  | RecordNotFound => "Record to update not found"
  end.

Inductive Result (A : Type) : Type :=
| Ok (a : A)
| Throw (e : Error).
Arguments Ok {A} a.
Arguments Throw {A} e.

(** [job.findUnique({ where: { id } })] *)
Definition findUnique_id (jid : string) (rows : list Job.t) : option Job.t :=
  find (fun j => String.eqb (Job.id j) jid) rows.

Definition has_key (k : string) (j : Job.t) : bool :=
  match Job.idempotencyKey j with
  | Some k' => String.eqb k' k
  | None => false
  end.

(** [job.findUnique({ where: { idempotencyKey } })] *)
Definition findUnique_key (k : string) (rows : list Job.t) : option Job.t :=
  find (has_key k) rows.

(** [job.count({ where })] *)
Definition count (where_ : Job.t -> bool) (rows : list Job.t) : nat :=
  length (List.filter where_ rows).

(** The row with the least [createdAt]; among equal ones the first of the
    table (the database leaves the order of ties open). *)
Fixpoint earliest (rows : list Job.t) : option Job.t :=
  match rows with
  | [] => None
  | j :: rest =>
      match earliest rest with
      | None => Some j
      | Some m => if Job.createdAt m <? Job.createdAt j then Some m else Some j
      end
  end.

(** [job.findFirst({ where, orderBy: { createdAt: "asc" } })] *)
Definition findFirst_createdAt_asc (where_ : Job.t -> bool) (rows : list Job.t)
  : option Job.t :=
  earliest (List.filter where_ rows).

(** [job.update({ where: { id }, data })]: the row with that id is
    rewritten by [data]; the call throws when there is none. *)
Fixpoint update_rows (jid : string) (data : Job.t -> Job.t) (rows : list Job.t)
  : option (Job.t * list Job.t) :=
  match rows with
  | [] => None
  | j :: rest =>
      if String.eqb (Job.id j) jid then Some (data j, data j :: rest)
      else match update_rows jid data rest with
           | Some (u, rest') => Some (u, j :: rest')
           | None => None
           end
  end.

Definition job_update (jid : string) (data : Job.t -> Job.t) (db : Db)
  : Result (Job.t * Db) :=
  match update_rows jid data (jobs db) with
  | Some (u, rows') => Ok (u, {| jobs := rows'; dlq := dlq db |})
  | None => Throw RecordNotFound
  end.

(** The row written by [job.create({ data: { tenantId, payload,
    idempotencyKey, traceId, status: "pending" } })].  The remaining
    columns take the defaults of the migration: [retry_count 0],
    [max_retries 3], [created_at CURRENT_TIMESTAMP], the nullable ones
    [NULL].  [new_id] is the generated primary key.  The [payload] column
    is JSONB: it holds the JSON value, not its text. *)
Definition new_job (new_id : string) (now : Z)
    (tenantId : string) (payload : Json.t) (idempotencyKey : option string)
    (traceId : string) : Job.t :=
  {| Job.id := new_id;
     Job.tenantId := tenantId;
     Job.status := pending;
     Job.payload := payload;
     Job.idempotencyKey := idempotencyKey;
     Job.retryCount := 0;
     Job.maxRetries := 3;
     Job.leaseExpiresAt := None;
     Job.workerId := None;
     Job.createdAt := now;
     Job.startedAt := None;
     Job.completedAt := None;
     Job.errorMessage := None;
     Job.traceId := traceId |}.

(** [job.create]: the primary key and the unique index on
    [idempotency_key] reject duplicates. *)
Definition job_create (new_id : string) (now : Z)
    (tenantId : string) (payload : Json.t) (idempotencyKey : option string)
    (traceId : string) (db : Db) : Result (Job.t * Db) :=
  let row := new_job new_id now tenantId payload idempotencyKey traceId in
  if existsb (fun j => String.eqb (Job.id j) new_id) (jobs db)
  then Throw UniqueConstraintViolation
  else if match idempotencyKey with
          | Some k => existsb (has_key k) (jobs db)
          | None => false
          end
  then Throw UniqueConstraintViolation
  else Ok (row, {| jobs := jobs db ++ [row]; dlq := dlq db |}).

(** [dLQ.create({ data: { jobId, payload, finalError, traceId } })]:
    [failed_at] defaults to [CURRENT_TIMESTAMP]; [dlq_job_id_key] makes
    [job_id] unique and [dlq_job_id_fkey] wants the job to exist. *)
Definition dlq_create (new_id : string) (now : Z)
    (jobId : string) (payload : Json.t) (finalError : string)
    (traceId : string) (db : Db) : Result (DLQ.t * Db) :=
  let row := {| DLQ.id := new_id;
                DLQ.jobId := jobId;
                DLQ.payload := payload;
                DLQ.finalError := finalError;
                DLQ.failedAt := now;
                DLQ.traceId := traceId |} in
  if existsb (fun e => String.eqb (DLQ.id e) new_id) (dlq db)
  then Throw UniqueConstraintViolation
  else if existsb (fun e => String.eqb (DLQ.jobId e) jobId) (dlq db)
  then Throw UniqueConstraintViolation
  else if negb (existsb (fun j => String.eqb (Job.id j) jobId) (jobs db))
  then Throw ForeignKeyViolation
  else Ok (row, {| jobs := jobs db; dlq := dlq db ++ [row] |}).

(** [job.groupBy({ by: ["status"], where, _count })]: one row per status
    that occurs, with its count. *)
Definition groupBy_status (where_ : Job.t -> bool) (rows : list Job.t)
  : list (JobStatus * nat) :=
  List.filter (fun r => negb (Nat.eqb (snd r) 0))
    (map (fun s => (s, count (fun j => where_ j && JobStatus_eqb (Job.status j) s) rows))
         all_statuses).

(** [dLQ.count()] *)
Definition dlq_count_all (db : Db) : nat := length (dlq db).

(** [dLQ.count({ where: { job: { tenantId } } })]: the entries whose
    parent job belongs to the tenant. *)
Definition dlq_count_tenant (tenantId : string) (db : Db) : nat :=
  length (List.filter (fun e =>
                    match findUnique_id (DLQ.jobId e) (jobs db) with
                    | Some j => String.eqb (Job.tenantId j) tenantId
                    | None => false
                    end) (dlq db)).

End Prisma.

(** ** [JobService] (services/jobService.ts) *)

Record Metrics : Type := mkMetrics {
  jobs_total : nat;
  jobs_by_status : gmap string nat;
  dlq_size : nat
}.

Module JobService.

(** [submitJob(tenantId, payload, idempotencyKey?)].  [traceId] is the
    [uuidv4()] drawn on entry, [new_id] the key the insert generates and
    [now] the database's [CURRENT_TIMESTAMP].  The [catch] logs and throws
    the error again. *)
Definition submitJob (traceId new_id : string) (now : Z)
    (tenantId : string) (payload : Json.t) (idempotencyKey : option string)
    (db : Db) : Prisma.Result (Job.t * Db) :=
  let existing :=
    match idempotencyKey with
    | Some k =>
        if Json.truthy_string idempotencyKey
        then Prisma.findUnique_key k (jobs db)
        else None
    | None => None
    end in
  match existing with
  | Some job => Prisma.Ok (job, db)
  | None => Prisma.job_create new_id now tenantId payload idempotencyKey traceId db
  end.

(** [getJobStatus(jobId)] *)
Definition getJobStatus (jobId : string) (db : Db) : option Job.t :=
  Prisma.findUnique_id jobId (jobs db).

(** [getRunningJobCount(tenantId)] *)
Definition getRunningJobCount (tenantId : string) (db : Db) : nat :=
  Prisma.count
    (fun j => String.eqb (Job.tenantId j) tenantId
              && JobStatus_eqb (Job.status j) running)
    (jobs db).

(** [const whereJob = tenantId ? { tenantId } : {}] *)
Definition whereJob (tenantId : option string) : Job.t -> bool :=
  match tenantId with
  | Some t =>
      if Json.truthy_string tenantId
      then fun j => String.eqb (Job.tenantId j) t
      else fun _ => true
  | None => fun _ => true
  end.

(** [getMetrics(tenantId?)]: the four buckets start at 0 and the rows of
    the group-by overwrite theirs. *)
Definition getMetrics (tenantId : option string) (db : Db) : Metrics :=
  let total := Prisma.count (whereJob tenantId) (jobs db) in
  let byStatus := Prisma.groupBy_status (whereJob tenantId) (jobs db) in
  let dlqCount :=
    match tenantId with
    | Some t =>
        if Json.truthy_string tenantId
        then Prisma.dlq_count_tenant t db
        else Prisma.dlq_count_all db
    | None => Prisma.dlq_count_all db
    end in
  let jobsByStatus : gmap string nat :=
    fold_left (fun acc row => <[status_name (fst row) := snd row]> acc)
      byStatus
      (<["pending" := 0%nat]> (<["running" := 0%nat]>
        (<["completed" := 0%nat]> (<["failed" := 0%nat]> ∅)))) in
  {| jobs_total := total; jobs_by_status := jobsByStatus; dlq_size := dlqCount |}.

End JobService.

(** ** The second copy of [JobService], the one that follows
       [WorkerService] in services/workerService.ts.  [submitJob],
       [getJobStatus] and [getRunningJobCount] are the same text as above;
       [getMetrics] differs. *)

Module JobService2.

(** What a promise settles to. *)
Inductive Settled (A : Type) : Type :=
| Fulfilled (a : A)
| Rejected (reason : string).
Arguments Fulfilled {A} a.
Arguments Rejected {A} reason.

(** [const where = tenantId ? { tenantId } : {}] *)
Definition where_ (tenantId : option string) : Job.t -> bool :=
  match tenantId with
  | Some t =>
      if Json.truthy_string tenantId
      then fun j => String.eqb (Job.tenantId j) t
      else fun _ => true
  | None => fun _ => true
  end.

(** [job.aggregate({ where })] as the fourth query of [getMetrics] makes
    it: none of [_count], [_avg], [_sum], [_min], [_max] is selected, and
    the client rejects such a call. *)
Definition aggregate_without_selection : Settled unit :=
  Rejected "aggregate needs at least one selection".

(** [getMetrics(tenantId?)]: [Promise.all] rejects as soon as one of its
    four queries does, so the [return] after it (a [dLQ.count()] without a
    filter and a [reduce] that starts from the empty object) is reached
    only if the aggregate resolves. *)
Definition getMetrics (tenantId : option string) (db : Db) : Settled Metrics :=
  let total := Prisma.count (where_ tenantId) (jobs db) in
  let byStatus := Prisma.groupBy_status (where_ tenantId) (jobs db) in
  let dlqCount := Prisma.dlq_count_all db in
  match aggregate_without_selection with
  | Rejected reason => Rejected reason
  | Fulfilled _ =>
      Fulfilled
        {| jobs_total := total;
           jobs_by_status :=
             fold_left (fun acc item => <[status_name (fst item) := snd item]> acc)
               byStatus (∅ : gmap string nat);
           dlq_size := dlqCount |}
  end.

End JobService2.

(** ** [WorkerService] (services/workerService.ts) *)

(** How the job handler ended: it returned, or it threw an error with
    this message. *)
Inductive WorkResult : Type :=
| Returned
| Raised (message : string).

Module WorkerService.

(** The three clock readings of one [acquireLease]: [new Date()] inside
    the query, [Date.now()] for the lease and [new Date()] for
    [startedAt]. *)
Record LeaseClock : Type := mkLeaseClock {
  at_query : Z;
  at_lease : Z;
  at_start : Z
}.

(** [leaseExpiresAt: { lt: now }]; a [NULL] column matches no comparison. *)
Definition lease_lt (now : Z) (j : Job.t) : bool :=
  match Job.leaseExpiresAt j with
  | Some t => t <? now
  | None => false
  end.

(** The [where] of the lease query:
    [OR: [{status: "pending"}, {status: "running", leaseExpiresAt: {lt: now}}]] *)
Definition claimable (now : Z) (j : Job.t) : bool :=
  JobStatus_eqb (Job.status j) pending
  || (JobStatus_eqb (Job.status j) running && lease_lt now j).

(** The [data] of the lease update. *)
Definition lease_data (workerId : string) (leaseExpiresAt : Z)
    (availableJob : Job.t) (at_start : Z) (j : Job.t) : Job.t :=
  {| Job.id := Job.id j;
     Job.tenantId := Job.tenantId j;
     Job.status := running;
     Job.payload := Job.payload j;
     Job.idempotencyKey := Job.idempotencyKey j;
     Job.retryCount := Job.retryCount j;
     Job.maxRetries := Job.maxRetries j;
     Job.leaseExpiresAt := Some leaseExpiresAt;
     Job.workerId := Some workerId;
     Job.createdAt := Job.createdAt j;
     Job.startedAt :=
       if JobStatus_eqb (Job.status availableJob) pending
       then Some at_start
       else Job.startedAt availableJob;
     Job.completedAt := Job.completedAt j;
     Job.errorMessage := Job.errorMessage j;
     Job.traceId := Job.traceId j |}.

(** [acquireLease()]: one transaction; an error inside it rolls the
    transaction back and the [catch] returns [null]. *)
Definition acquireLease (workerId : string) (clk : LeaseClock) (db : Db)
  : option Job.t * Db :=
  match Prisma.findFirst_createdAt_asc (claimable (at_query clk)) (jobs db) with
  | None => (None, db)
  | Some availableJob =>
      let leaseExpiresAt := at_lease clk + 5 * 60 * 1000 in
      match Prisma.job_update (Job.id availableJob)
              (lease_data workerId leaseExpiresAt availableJob (at_start clk)) db with
      | Prisma.Ok (updatedJob, db') => (Some updatedJob, db')
      | Prisma.Throw _ => (None, db)
      end
  end.

(** The [data] of the acknowledgement update. *)
Definition ack_data (now : Z) (j : Job.t) : Job.t :=
  {| Job.id := Job.id j;
     Job.tenantId := Job.tenantId j;
     Job.status := completed;
     Job.payload := Job.payload j;
     Job.idempotencyKey := Job.idempotencyKey j;
     Job.retryCount := Job.retryCount j;
     Job.maxRetries := Job.maxRetries j;
     Job.leaseExpiresAt := Job.leaseExpiresAt j;
     Job.workerId := Job.workerId j;
     Job.createdAt := Job.createdAt j;
     Job.startedAt := Job.startedAt j;
     Job.completedAt := Some now;
     Job.errorMessage := Job.errorMessage j;
     Job.traceId := Job.traceId j |}.

(** [acknowledgeJob(jobId)]; the [findUnique] after the update only feeds
    the log line. *)
Definition acknowledgeJob (jobId : string) (now : Z) (db : Db) : Prisma.Result Db :=
  match Prisma.job_update jobId (ack_data now) db with
  | Prisma.Ok (_, db') => Prisma.Ok db'
  | Prisma.Throw e => Prisma.Throw e
  end.

(** [Math.min(30000 * Math.pow(2, job.retryCount), 600000)] *)
Definition backoffMs (retryCount : Z) : Z :=
  Z.min (30000 * 2 ^ retryCount) 600000.

(** The [data] of the retry update; [job] is the object the worker holds. *)
Definition retry_data (job : Job.t) (message : string) (now : Z) (j : Job.t) : Job.t :=
  {| Job.id := Job.id j;
     Job.tenantId := Job.tenantId j;
     Job.status := pending;
     Job.payload := Job.payload j;
     Job.idempotencyKey := Job.idempotencyKey j;
     Job.retryCount := Job.retryCount job + 1;
     Job.maxRetries := Job.maxRetries j;
     Job.leaseExpiresAt := None;
     Job.workerId := None;
     Job.createdAt := now + backoffMs (Job.retryCount job);
     Job.startedAt := Job.startedAt j;
     Job.completedAt := Job.completedAt j;
     Job.errorMessage := Some message;
     Job.traceId := Job.traceId j |}.

(** The [data] of the update inside the dead-letter transaction. *)
Definition failed_data (message : string) (j : Job.t) : Job.t :=
  {| Job.id := Job.id j;
     Job.tenantId := Job.tenantId j;
     Job.status := failed;
     Job.payload := Job.payload j;
     Job.idempotencyKey := Job.idempotencyKey j;
     Job.retryCount := Job.retryCount j;
     Job.maxRetries := Job.maxRetries j;
     Job.leaseExpiresAt := Job.leaseExpiresAt j;
     Job.workerId := Job.workerId j;
     Job.createdAt := Job.createdAt j;
     Job.startedAt := Job.startedAt j;
     Job.completedAt := Job.completedAt j;
     Job.errorMessage := Some message;
     Job.traceId := Job.traceId j |}.

(** What one [processJob] reads from its environment: the clock at the
    acknowledgement, at the retry and at the dead-letter insert, and the
    key generated for the dead-letter row. *)
Record ProcessEnv : Type := mkProcessEnv {
  ack_now : Z;
  retry_now : Z;
  dlq_now : Z;
  dlq_id : string
}.

(** [moveToDeadLetterQueue(job, error)]: [$transaction([create, update])];
    when either statement throws nothing is committed.  ([Prisma.JsonNull]
    is how the client writes a JSON [null], so the payload is passed on as
    it is.) *)
Definition moveToDeadLetterQueue (job : Job.t) (message : string)
    (env : ProcessEnv) (db : Db) : Prisma.Result Db :=
  match Prisma.dlq_create (dlq_id env) (dlq_now env)
          (Job.id job) (Job.payload job) message (Job.traceId job) db with
  | Prisma.Throw e => Prisma.Throw e
  | Prisma.Ok (_, db1) =>
      match Prisma.job_update (Job.id job) (failed_data message) db1 with
      | Prisma.Ok (_, db2) => Prisma.Ok db2
      | Prisma.Throw e => Prisma.Throw e
      end
  end.

(** [retryJob(job, error)] *)
Definition retryJob (job : Job.t) (message : string)
    (env : ProcessEnv) (db : Db) : Prisma.Result Db :=
  if Job.maxRetries job <=? Job.retryCount job
  then moveToDeadLetterQueue job message env db
  else
    match Prisma.job_update (Job.id job)
            (retry_data job message (retry_now env)) db with
    | Prisma.Ok (_, db') => Prisma.Ok db'
    | Prisma.Throw e => Prisma.Throw e
    end.

(** [processJob(job)]: the acknowledgement sits inside the [try], so an
    error it throws is handled by the same [catch] as a handler error. *)
Definition processJob (job : Job.t) (work : WorkResult)
    (env : ProcessEnv) (db : Db) : Prisma.Result Db :=
  match work with
  | Raised message => retryJob job message env db
  | Returned =>
      match acknowledgeJob (Job.id job) (ack_now env) db with
      | Prisma.Ok db' => Prisma.Ok db'
      | Prisma.Throw e => retryJob job (Prisma.message e) env db
      end
  end.

End WorkerService.

(** ** The keyed store: Redis sorted sets with a time to live *)

Module Redis.

(** A sorted-set key: its members with their scores, and the instant at
    which the key expires when a time to live is set. *)
Record ZKey : Type := mkZKey {
  members : gmap string Z;
  expireAt : option Z
}.

Inductive Cmd : Type := ZREMRANGEBYSCORE | ZCARD | ZADD | EXPIRE.

(** A key whose time to live has run out (the clock is past its deadline)
    is gone when it is next looked at. *)
Definition live (now : Z) (key : string) (s : gmap string ZKey) : gmap string ZKey :=
  match s !! key with
  | Some zk =>
      match expireAt zk with
      | Some t => if t <? now then delete key s else s
      | None => s
      end
  | None => s
  end.

Definition in_range (lo hi : Z) (score : Z) : bool :=
  (lo <=? score) && (score <=? hi).

(** [ZREMRANGEBYSCORE key lo hi]: both bounds are inclusive; a sorted set
    left empty is removed with its key. *)
Definition zRemRangeByScore (now : Z) (key : string) (lo hi : Z)
    (s : gmap string ZKey) : gmap string ZKey :=
  let s := live now key s in
  match s !! key with
  | None => s
  | Some zk =>
      let kept := filter (fun kv => negb (in_range lo hi (snd kv))) (members zk) in
      if bool_decide (kept = ∅) then delete key s
      else <[key := {| members := kept; expireAt := expireAt zk |}]> s
  end.

(** [ZCARD key] *)
Definition zCard (now : Z) (key : string) (s : gmap string ZKey) : Z :=
  match live now key s !! key with
  | Some zk => Z.of_nat (size (members zk))
  | None => 0
  end.

(** [ZADD key score value]: a new member is added, a known one gets the
    new score; a key that did not exist is created without a time to
    live. *)
Definition zAdd (now : Z) (key : string) (score : Z) (value : string)
    (s : gmap string ZKey) : gmap string ZKey :=
  let s := live now key s in
  match s !! key with
  | Some zk =>
      <[key := {| members := <[value := score]> (members zk);
                  expireAt := expireAt zk |}]> s
  | None =>
      <[key := {| members := {[ value := score ]}; expireAt := None |}]> s
  end.

(** [EXPIRE key seconds] *)
Definition expire (now : Z) (key : string) (seconds : Z)
    (s : gmap string ZKey) : gmap string ZKey :=
  let s := live now key s in
  match s !! key with
  | Some zk =>
      <[key := {| members := members zk;
                  expireAt := Some (now + seconds * 1000) |}]> s
  | None => s
  end.

(** Client calls thread the store and may throw. *)
Definition M (A : Type) : Type := gmap string ZKey -> option A * gmap string ZKey.

Definition ret {A : Type} (a : A) : M A := fun s => (Some a, s).

Definition bind {A B : Type} (m : M A) (k : A -> M B) : M B :=
  fun s =>
    match m s with
    | (Some a, s') => k a s'
    | (None, s') => (None, s')
    end.

(** [try { m } catch { return dflt }] *)
Definition try_or {A : Type} (m : M A) (dflt : A) (s : gmap string ZKey)
  : A * gmap string ZKey :=
  match m s with
  | (Some a, s') => (a, s')
  | (None, s') => (dflt, s')
  end.

(** One call through the client: when the command fails ([fault]), the
    call throws and the store is as before. *)
Definition call {A : Type} (fault : Cmd -> bool) (c : Cmd)
    (run : gmap string ZKey -> A * gmap string ZKey) : M A :=
  fun s => if fault c then (None, s) else let (a, s') := run s in (Some a, s').

End Redis.

Notation "'let!' x ':=' m 'in' k" := (Redis.bind m (fun x => k))
  (at level 10, x pattern, m at level 100, k at level 200).

(** ** [RateLimiter] (services/rateLimiter.ts) *)

Module RateLimiter.

(** [`rate:${tenantId}`] *)
Definition rate_key (tenantId : string) : string := "rate:" +:+ tenantId.

(** [`${now}-${Math.random()}`], [rnd] being the digits of the random
    number. *)
Definition entry_value (now : Z) (rnd : string) : string :=
  pretty now +:+ "-" +:+ rnd.

(** The [try] block of [checkRateLimit]: [Some true] allows, [Some false]
    denies, [None] is an error thrown by the client.  [now] is
    [Date.now()], which is also taken as the time at which the store runs
    the commands. *)
Definition checkRateLimit_try (fault : Redis.Cmd -> bool) (now : Z) (rnd : string)
    (tenantId : string) : Redis.M bool :=
  let key := rate_key tenantId in
  let windowMs := 60000 in
  let! _ := Redis.call fault Redis.ZREMRANGEBYSCORE
              (fun s => (tt, Redis.zRemRangeByScore now key 0 (now - windowMs) s)) in
  let! count := Redis.call fault Redis.ZCARD
                  (fun s => (Redis.zCard now key s, s)) in
  if 10 <=? count then Redis.ret false
  else
    let! _ := Redis.call fault Redis.ZADD
                (fun s => (tt, Redis.zAdd now key now (entry_value now rnd) s)) in
    let! _ := Redis.call fault Redis.EXPIRE
                (fun s => (tt, Redis.expire now key 60 s)) in
    Redis.ret true.

(** [checkRateLimit(tenantId)]: the [catch] logs the error and returns
    [true]. *)
Definition checkRateLimit (fault : Redis.Cmd -> bool) (now : Z) (rnd : string)
    (tenantId : string) : gmap string Redis.ZKey -> bool * gmap string Redis.ZKey :=
  Redis.try_or (checkRateLimit_try fault now rnd tenantId) true.

(** [checkConcurrentLimit(tenantId, runningCount)] *)
Definition checkConcurrentLimit (tenantId : string) (runningCount : nat) : bool :=
  let limit := 5%nat in
  if (limit <=? runningCount)%nat then false else true.

End RateLimiter.

(** ** The submission route (api/routes.ts) *)

Module Routes.

(** The body of [POST /api/v1/jobs] of a client that sends the two
    identifiers as strings or leaves them out; the payload is any JSON
    value.  [RawBody] and [post_jobs_raw] below take any body. *)
Record Body : Type := mkBody {
  tenantId : option string;
  payload : option Json.t;
  idempotencyKey : option string
}.

Inductive Response : Type :=
| Created (jobId : string) (status : JobStatus) (traceId : string)
| BadRequest (error : string)
| TooManyRequests (error message : string)
| InternalServerError (error : string).

Definition status_code (r : Response) : Z :=
  match r with
  | Created _ _ _ => 201
  | BadRequest _ => 400
  | TooManyRequests _ _ => 429
  | InternalServerError _ => 500
  end.

(** What the two stores hold. *)
Record World : Type := mkWorld {
  db : Db;
  redis : gmap string Redis.ZKey
}.

(** What one request reads from its environment. *)
Record RequestEnv : Type := mkRequestEnv {
  redis_fault : Redis.Cmd -> bool;
  rate_now : Z;
  rate_rnd : string;
  trace_id : string;
  new_id : string;
  db_now : Z
}.

(** The handler after the guard, for a tenant [t] and a payload [p]. *)
Definition admit_and_submit (t : string) (p : Json.t) (key : option string)
    (env : RequestEnv) (w : World) : Response * World :=
  let (rateLimitOk, redis') :=
    RateLimiter.checkRateLimit (redis_fault env) (rate_now env) (rate_rnd env)
      t (redis w) in
  if negb rateLimitOk
  then (TooManyRequests "Rate limit exceeded" "Maximum 10 jobs per minute allowed",
        {| db := db w; redis := redis' |})
  else
    let runningCount := JobService.getRunningJobCount t (db w) in
    let concurrentOk := RateLimiter.checkConcurrentLimit t runningCount in
    if negb concurrentOk
    then (TooManyRequests "Concurrent job limit exceeded"
                          "Maximum 5 concurrent jobs allowed",
          {| db := db w; redis := redis' |})
    else
      match JobService.submitJob (trace_id env) (new_id env) (db_now env)
              t p key (db w) with
      | Prisma.Ok (job, db') =>
          (Created (Job.id job) (Job.status job) (Job.traceId job),
           {| db := db'; redis := redis' |})
      | Prisma.Throw _ =>
          (InternalServerError "Internal server error",
           {| db := db w; redis := redis' |})
      end.

(** [router.post("/jobs", ...)] *)
Definition post_jobs (body : Body) (env : RequestEnv) (w : World)
  : Response * World :=
  if negb (Json.truthy_string (tenantId body))
     || negb (Json.truthy_field (payload body))
  then (BadRequest "tenantId and payload are required", w)
  else
    match tenantId body, payload body with
    | Some t, Some p => admit_and_submit t p (idempotencyKey body) env w
    | _, _ => (BadRequest "tenantId and payload are required", w)
    end.

(** The body as the handler receives it: [req.body] is untyped, so each
    of the three fields is absent or any JSON value. *)
Record RawBody : Type := mkRawBody {
  raw_tenantId : option Json.t;
  raw_payload : option Json.t;
  raw_idempotencyKey : option Json.t
}.

(** What the Prisma client makes of the [idempotencyKey] it is handed:
    the column is an optional string, so an absent key or [null] is no
    key, a string is a key, and any other value is refused by the client
    (the call throws). *)
Definition key_argument (k : option Json.t) : option (option string) :=
  match k with
  | None => Some None
  | Some Json.JNull => Some None
  | Some (Json.JStr s) => Some (Some s)
  | Some _ => None
  end.

(** The row [submitJob] finds for the key it is given: the lookup runs
    for a truthy key, and it is only looked at here for a string. *)
Definition existing_of (k : option Json.t) (d : Db) : option Job.t :=
  match k with
  | Some (Json.JStr s) =>
      if negb (String.eqb s EmptyString) then Prisma.findUnique_key s (jobs d)
      else None
  | _ => None
  end.

(** The handler after the guard when [tenantId] or [idempotencyKey] is
    not a string.  The rate gate runs on the key built from [key_tenant].
    [running] is the count of [getRunningJobCount], or [None] when the
    client refuses its [tenantId] argument and the call throws.
    [existing] is the row the lookup by idempotency key returns; without
    one, [submitJob] throws (in the lookup or in the insert, whose data
    must be strings), and the [catch] answers 500.  The job table is not
    written. *)
Definition admit_and_throw (key_tenant : string) (running : option nat)
    (existing : option Job.t) (env : RequestEnv) (w : World) : Response * World :=
  let (rateLimitOk, redis') :=
    RateLimiter.checkRateLimit (redis_fault env) (rate_now env) (rate_rnd env)
      key_tenant (redis w) in
  if negb rateLimitOk
  then (TooManyRequests "Rate limit exceeded" "Maximum 10 jobs per minute allowed",
        {| db := db w; redis := redis' |})
  else
    match running with
    | Some runningCount =>
        if negb (RateLimiter.checkConcurrentLimit key_tenant runningCount)
        then (TooManyRequests "Concurrent job limit exceeded"
                              "Maximum 5 concurrent jobs allowed",
              {| db := db w; redis := redis' |})
        else
          match existing with
          | Some job =>
              (Created (Job.id job) (Job.status job) (Job.traceId job),
               {| db := db w; redis := redis' |})
          | None =>
              (InternalServerError "Internal server error",
               {| db := db w; redis := redis' |})
          end
    | None => (InternalServerError "Internal server error",
               {| db := db w; redis := redis' |})
    end.

(** [router.post("/jobs", ...)] on the untyped body.  [to_string] is
    JavaScript's string conversion, which the template literal of the
    rate key applies to a [tenantId] that is not a string.
    [string_filter] is the client's reading of an object where a query
    takes a string or a condition on one (such as [{equals: ...}]):
    the condition, or [None] when the client refuses the object.  Any
    other value that is not a string is refused. *)
Definition post_jobs_raw (to_string : Json.t -> string)
    (string_filter : gmap string Json.t -> option (string -> bool))
    (body : RawBody) (env : RequestEnv) (w : World) : Response * World :=
  if negb (Json.truthy_field (raw_tenantId body))
     || negb (Json.truthy_field (raw_payload body))
  then (BadRequest "tenantId and payload are required", w)
  else
    match raw_tenantId body, raw_payload body with
    | Some (Json.JStr t), Some p =>
        match key_argument (raw_idempotencyKey body) with
        | Some key => admit_and_submit t p key env w
        | None =>
            admit_and_throw t (Some (JobService.getRunningJobCount t (db w))) None
              env w
        end
    | Some (Json.JObject m), Some p =>
        match string_filter m with
        | Some f =>
            admit_and_throw (to_string (Json.JObject m))
              (Some (Prisma.count
                       (fun j => f (Job.tenantId j)
                                 && JobStatus_eqb (Job.status j) running)
                       (jobs (db w))))
              (existing_of (raw_idempotencyKey body) (db w)) env w
        | None => admit_and_throw (to_string (Json.JObject m)) None None env w
        end
    | Some v, Some p => admit_and_throw (to_string v) None None env w
    | _, _ => (BadRequest "tenantId and payload are required", w)
    end.

End Routes.

(** ** The running system: requests and workers interleaved *)

Module Runtime.

(** The two stores, and for every worker that is inside [processJob] the
    job object [acquireLease] returned to it. *)
Record State : Type := mkState {
  world : Routes.World;
  held : gmap string Job.t
}.

Definition init : State :=
  {| world := {| Routes.db := empty_db; Routes.redis := ∅ |}; held := ∅ |}.

Inductive Event : Type :=
| Post (body : Routes.Body) (env : Routes.RequestEnv)
| Poll (workerId : string) (clk : WorkerService.LeaseClock)
| Finish (workerId : string) (work : WorkResult) (env : WorkerService.ProcessEnv).

Definition with_db (s : State) (d : Db) : Routes.World :=
  {| Routes.db := d; Routes.redis := Routes.redis (world s) |}.

(** One atomic step.  [Poll] is an iteration of the worker loop of an idle
    worker; [Finish] is the end of the handler of a busy one, followed by
    its acknowledgement, retry or dead-lettering (an error thrown there
    is caught by the loop, which goes on to the next iteration). *)
Definition step (e : Event) (s : State) : State :=
  match e with
  | Post body env =>
      {| world := snd (Routes.post_jobs body env (world s)); held := held s |}
  | Poll w clk =>
      match held s !! w with
      | Some _ => s
      | None =>
          match WorkerService.acquireLease w clk (Routes.db (world s)) with
          | (Some job, d) => {| world := with_db s d; held := <[w := job]> (held s) |}
          | (None, _) => s
          end
      end
  | Finish w work env =>
      match held s !! w with
      | None => s
      | Some job =>
          match WorkerService.processJob job work env (Routes.db (world s)) with
          | Prisma.Ok d => {| world := with_db s d; held := delete w (held s) |}
          | Prisma.Throw _ => {| world := world s; held := delete w (held s) |}
          end
      end
  end.

Definition run (events : list Event) (s : State) : State :=
  fold_left (fun s e => step e s) events s.

Inductive reachable : State -> Prop :=
| reachable_init : reachable init
| reachable_step e s : reachable s -> reachable (step e s).

End Runtime.


(** ** The queries of [JobService] not used by the worker *)

Module JobQueries.





End JobQueries.

(** ** The dashboard's own metrics (dashboard/socketServer.ts) *)

Module Dashboard.

Record StatusCounts : Type := mkStatusCounts {
  pending_count : nat;
  running_count : nat;
  completed_count : nat;
  failed_count : nat
}.

(** [jobCounts.find((j) => j.status === label)?._count || 0] *)
Definition count_or_zero (st : JobStatus) (jobCounts : list (JobStatus * nat)) : nat :=
  match find (fun r => JobStatus_eqb (fst r) st) jobCounts with
  | Some r => if Nat.eqb (snd r) 0 then 0%nat else snd r
  | None => 0%nat
  end.

(** [getMetrics(tenantId)]: the group-by is always filtered by the tenant. *)
Definition getMetrics (tenantId : string) (db : Db) : StatusCounts :=
  let jobCounts :=
    Prisma.groupBy_status (fun j => String.eqb (Job.tenantId j) tenantId) (jobs db) in
  {| pending_count := count_or_zero pending jobCounts;
     running_count := count_or_zero running jobCounts;
     completed_count := count_or_zero completed jobCounts;
     failed_count := count_or_zero failed jobCounts |}.

End Dashboard.

(** ** The read routes (api/routes.ts) *)

Module ReadRoutes.

(** The body of a 200 answer of [GET /api/v1/jobs/:jobId]. *)
Record JobView : Type := mkJobView {
  jobId : string;
  status : JobStatus;
  traceId : string;
  createdAt : Z;
  startedAt : option Z;
  completedAt : option Z;
  retryCount : Z;
  errorMessage : option string
}.

Inductive JobResponse : Type :=
| Found (view : JobView)
| NotFound (error : string).

Definition job_status_code (r : JobResponse) : Z :=
  match r with
  | Found _ => 200
  | NotFound _ => 404
  end.

(** [router.get("/jobs/:jobId", ...)]; a route parameter is a string, so
    the [typeof] guard does not fire. *)
Definition get_job (jobId : string) (db : Db) : JobResponse :=
  match JobService.getJobStatus jobId db with
  | None => NotFound "Job not found"
  | Some job =>
      Found {| jobId := Job.id job;
               status := Job.status job;
               traceId := Job.traceId job;
               createdAt := Job.createdAt job;
               startedAt := Job.startedAt job;
               completedAt := Job.completedAt job;
               retryCount := Job.retryCount job;
               errorMessage := Job.errorMessage job |}
  end.

End ReadRoutes.
(** ** Properties of rows and stores used in the statements *)

(** The primary key of [jobs]: no two rows share an id. *)
Definition pkey_ok (db : Db) : Prop := NoDup (Job.id <$> jobs db).

(** A job some worker may lease at [now]: it is pending, or it is running
    on a lease that ran out before [now]. *)
Definition eligible (now : Z) (j : Job.t) : Prop :=
  Job.status j = pending
  \/ (Job.status j = running
      /\ exists t, Job.leaseExpiresAt j = Some t /\ t < now).

(** [u] is [j] after a change that leaves the listed columns alone. *)
Definition same_identity (j u : Job.t) : Prop :=
  Job.id u = Job.id j
  /\ Job.tenantId u = Job.tenantId j
  /\ Job.payload u = Job.payload j
  /\ Job.idempotencyKey u = Job.idempotencyKey j
  /\ Job.maxRetries u = Job.maxRetries j
  /\ Job.traceId u = Job.traceId j.

(** [rows'] is [rows] with the one row [j] replaced by [u]. *)
Definition replaced (rows : list Job.t) (j u : Job.t) (rows' : list Job.t) : Prop :=
  exists l1 l2, rows = l1 ++ j :: l2 /\ rows' = l1 ++ u :: l2.

(** The entries of a tenant's rate window that a call at [now] leaves in
    place: those of the live key whose score is not in [0, now - 60000]. *)
Definition window_after (now : Z) (tenantId : string) (s : gmap string Redis.ZKey)
  : gmap string Z :=
  match Redis.live now (RateLimiter.rate_key tenantId) s
          !! RateLimiter.rate_key tenantId with
  | Some zk =>
      filter (fun kv => negb (Redis.in_range 0 (now - 60000) (snd kv)))
        (Redis.members zk)
  | None => ∅
  end.

(** The entries of a tenant's rate window that are not older than the
    window, [now - 60000 <= score], as the specification words the
    eviction. *)
Definition not_older_than_window (now : Z) (tenantId : string)
    (s : gmap string Redis.ZKey) : gmap string Z :=
  match s !! RateLimiter.rate_key tenantId with
  | Some zk => filter (fun kv => now - 60000 <=? snd kv) (Redis.members zk)
  | None => ∅
  end.

(** The dead-letter row written for [job] and an error [message]. *)
Definition dead_letter_of (job : Job.t) (message : string)
    (env : WorkerService.ProcessEnv) : DLQ.t :=
  {| DLQ.id := WorkerService.dlq_id env;
     DLQ.jobId := Job.id job;
     DLQ.payload := Job.payload job;
     DLQ.finalError := message;
     DLQ.failedAt := WorkerService.dlq_now env;
     DLQ.traceId := Job.traceId job |}.

(** The three ways a [processJob] that does not throw changes the store:
    it rewrites the row [r] whose id is that of the job the worker holds. *)
Inductive outcome (job : Job.t) (env : WorkerService.ProcessEnv) (db db' : Db)
  : WorkResult -> Prop :=
| acknowledged r :
    r ∈ jobs db -> Job.id r = Job.id job ->
    replaced (jobs db) r (WorkerService.ack_data (WorkerService.ack_now env) r) (jobs db') ->
    dlq db' = dlq db ->
    outcome job env db db' Returned
| retried message r :
    Job.retryCount job < Job.maxRetries job ->
    r ∈ jobs db -> Job.id r = Job.id job ->
    replaced (jobs db) r
      (WorkerService.retry_data job message (WorkerService.retry_now env) r) (jobs db') ->
    dlq db' = dlq db ->
    outcome job env db db' (Raised message)
| dead_lettered message r :
    Job.maxRetries job <= Job.retryCount job ->
    r ∈ jobs db -> Job.id r = Job.id job ->
    replaced (jobs db) r (WorkerService.failed_data message r) (jobs db') ->
    dlq db' = dlq db ++ [dead_letter_of job message env] ->
    (forall e, e ∈ dlq db -> DLQ.jobId e <> Job.id job) ->
    outcome job env db db' (Raised message).

(** The rows of [db] all have a successor of the same identity in [db']. *)
Definition rows_kept (db db' : Db) : Prop :=
  forall r, r ∈ jobs db -> exists r', r' ∈ jobs db' /\ same_identity r r'.

(** What holds of every state the system reaches. *)
Record invariant (s : Runtime.State) : Prop := mkInvariant {
  inv_pkey : pkey_ok (Routes.db (Runtime.world s));
  inv_retry : forall j, j ∈ jobs (Routes.db (Runtime.world s)) ->
                0 <= Job.retryCount j <= Job.maxRetries j;
  inv_held : forall w job, Runtime.held s !! w = Some job ->
               0 <= Job.retryCount job <= Job.maxRetries job
               /\ exists r, r ∈ jobs (Routes.db (Runtime.world s))
                            /\ same_identity r job;
  inv_dlq : forall e, e ∈ dlq (Routes.db (Runtime.world s)) ->
              exists r, r ∈ jobs (Routes.db (Runtime.world s))
                        /\ Job.id r = DLQ.jobId e
                        /\ Job.traceId r = DLQ.traceId e
                        /\ Job.payload r = DLQ.payload e
}.

(** ** Concrete scenarios *)

Module Scenario.

Definition no_fault : Redis.Cmd -> bool := fun _ => false.

(** A request of tenant A with idempotency key K. *)
Definition body_K : Routes.Body :=
  {| Routes.tenantId := Some "A";
     Routes.payload := Some (Json.JObj [("task", Json.JStr "x")]);
     Routes.idempotencyKey := Some "K" |}.

Definition request_env (now : Z) (rnd trace id : string) : Routes.RequestEnv :=
  {| Routes.redis_fault := no_fault;
     Routes.rate_now := now;
     Routes.rate_rnd := rnd;
     Routes.trace_id := trace;
     Routes.new_id := id;
     Routes.db_now := now |}.

(** The first submission, at time 1000. *)
Definition first_post : Runtime.Event :=
  Runtime.Post body_K (request_env 1000 "0.11" "trace-1" "job-1").

Definition submitted : Runtime.State := Runtime.run [first_post] Runtime.init.

(** The same request again, at time 1500. *)
Definition second_env : Routes.RequestEnv := request_env 1500 "0.22" "trace-2" "job-2".

Definition clock (now : Z) : WorkerService.LeaseClock :=
  {| WorkerService.at_query := now;
     WorkerService.at_lease := now;
     WorkerService.at_start := now |}.

Definition process_env (now : Z) (id : string) : WorkerService.ProcessEnv :=
  {| WorkerService.ack_now := now;
     WorkerService.retry_now := now;
     WorkerService.dlq_now := now;
     WorkerService.dlq_id := id |}.

(** A lease by worker-1 at time [t] whose handler throws at [t + 3000]. *)
Definition failed_attempt (t : Z) (msg : string) : list Runtime.Event :=
  [Runtime.Poll "worker-1" (clock t);
   Runtime.Finish "worker-1" (Raised msg) (process_env (t + 3000) "dlq-1")].

(** Submit, lease at 2000, the handler returns at 5000. *)
Definition completed_run : Runtime.State :=
  Runtime.run
    [first_post;
     Runtime.Poll "worker-1" (clock 2000);
     Runtime.Finish "worker-1" Returned (process_env 5000 "dlq-1")]
    Runtime.init.

(** Submit, then four attempts that all throw. *)
Definition exhausted_run : Runtime.State :=
  Runtime.run
    (first_post :: failed_attempt 2000 "e1" ++ failed_attempt 6000 "e2"
       ++ failed_attempt 10000 "e3" ++ failed_attempt 14000 "e4")
    Runtime.init.

(** Submit, lease at 2000 (the worker now holds the job). *)
Definition leased : Runtime.State :=
  Runtime.run [first_post; Runtime.Poll "worker-1" (clock 2000)] Runtime.init.

(** Submit, lease at 2000, the handler throws at 5000: the retry. *)
Definition retried : Runtime.State :=
  Runtime.run (first_post :: failed_attempt 2000 "e1") Runtime.init.

(** After the retry, worker-1 leases the job again at 6000. *)
Definition leased_again : Runtime.State :=
  Runtime.run [Runtime.Poll "worker-1" (clock 6000)] retried.

(** Three failed attempts; worker-1 leases the job a fourth time at 14000
    and is slow; at 400000, the lease having run out, worker-2 takes the
    job over and its handler throws at 403000.  *)
Definition dead_lettered_by_second : Runtime.State :=
  Runtime.run
    (first_post :: failed_attempt 2000 "e1" ++ failed_attempt 6000 "e2"
       ++ failed_attempt 10000 "e3"
       ++ [Runtime.Poll "worker-1" (clock 14000);
           Runtime.Poll "worker-2" (clock 400000);
           Runtime.Finish "worker-2" (Raised "e4") (process_env 403000 "dlq-1")])
    Runtime.init.

(** Then the handler of worker-1 returns at last, at 404000. *)
Definition late_acknowledgement : Runtime.State :=
  Runtime.run
    [Runtime.Finish "worker-1" Returned (process_env 404000 "dlq-2")]
    dead_lettered_by_second.

(** Ten admitted submissions of tenant A: one at time 40000, nine at
    time 50000. *)
Definition nine_rnds : list string :=
  ["0.1"; "0.2"; "0.3"; "0.4"; "0.5"; "0.6"; "0.7"; "0.8"; "0.9"].

Definition full_window : gmap string Redis.ZKey :=
  fold_left (fun s rnd => snd (RateLimiter.checkRateLimit no_fault 50000 rnd "A" s))
    nine_rnds
    (snd (RateLimiter.checkRateLimit no_fault 40000 "0.0" "A" ∅)).

(** Jobs of two tenants: A has one pending job, B one dead-lettered. *)
Definition job_of (id tenant : string) (st : JobStatus) : Job.t :=
  {| Job.id := id;
     Job.tenantId := tenant;
     Job.status := st;
     Job.payload := Json.JObj [];
     Job.idempotencyKey := None;
     Job.retryCount := match st with failed => 3 | _ => 0 end;
     Job.maxRetries := 3;
     Job.leaseExpiresAt := None;
     Job.workerId := None;
     Job.createdAt := 1000;
     Job.startedAt := None;
     Job.completedAt := None;
     Job.errorMessage := None;
     Job.traceId := "trace-" +:+ id |}.

Definition two_tenants : Db :=
  {| jobs := [job_of "a1" "A" pending; job_of "b1" "B" failed];
     dlq := [{| DLQ.id := "d1";
                DLQ.jobId := "b1";
                DLQ.payload := Json.JObj [];
                DLQ.finalError := "e4";
                DLQ.failedAt := 9000;
                DLQ.traceId := "trace-b1" |}] |}.

(** Ten submissions of tenant A: the one with key K at 40000, nine
    without a key at 50000. *)
Definition body_plain : Routes.Body :=
  {| Routes.tenantId := Some "A";
     Routes.payload := Some (Json.JObj [("task", Json.JStr "y")]);
     Routes.idempotencyKey := None |}.

Definition busy_tenant : Runtime.State :=
  Runtime.run
    (Runtime.Post body_K (request_env 40000 "0.0" "trace-1" "job-1")
     :: map (fun n => Runtime.Post body_plain
                        (request_env 50000 ("0." +:+ n) ("trace-" +:+ n) ("job-" +:+ n)))
          ["2"; "3"; "4"; "5"; "6"; "7"; "8"; "9"; "10"])
    Runtime.init.

(** A request whose payload is the JSON value [false]. *)
Definition body_false : Routes.Body :=
  {| Routes.tenantId := Some "A";
     Routes.payload := Some (Json.JBool false);
     Routes.idempotencyKey := None |}.

(** The job object worker-1 holds in [leased]. *)
Definition leased_job : Job.t :=
  {| Job.id := "job-1";
     Job.tenantId := "A";
     Job.status := running;
     Job.payload := Json.JObj [("task", Json.JStr "x")];
     Job.idempotencyKey := Some "K";
     Job.retryCount := 0;
     Job.maxRetries := 3;
     Job.leaseExpiresAt := Some 302000;
     Job.workerId := Some "worker-1";
     Job.createdAt := 1000;
     Job.startedAt := Some 2000;
     Job.completedAt := None;
     Job.errorMessage := None;
     Job.traceId := "trace-1" |}.

End Scenario.

(** ** Further properties of stores *)

(** The unique index on [idempotency_key]: the keys that are present are
    pairwise different. *)
Definition ukey_ok (db : Db) : Prop := NoDup (omap Job.idempotencyKey (jobs db)).

(** The unique index on [dlq.job_id]. *)
Definition dlq_ok (db : Db) : Prop := NoDup (DLQ.jobId <$> dlq db).

(** How the lease columns and the timestamps go with the status of a row. *)
Definition status_ok (db : Db) (j : Job.t) : Prop :=
  match Job.status j with
  | pending => Job.workerId j = None /\ Job.leaseExpiresAt j = None
  | running =>
      is_Some (Job.workerId j) /\ is_Some (Job.leaseExpiresAt j)
      /\ is_Some (Job.startedAt j)
  | completed => is_Some (Job.completedAt j)
  | failed =>
      is_Some (Job.errorMessage j)
      /\ exists e, e ∈ dlq db /\ DLQ.jobId e = Job.id j
  end.

(** A sorted set of the keyed store holds between 1 and 10 entries. *)
Definition window_bounded (s : gmap string Redis.ZKey) : Prop :=
  forall key zk, s !! key = Some zk ->
    (1 <= size (Redis.members zk) <= 10)%nat.

(** What else holds of every state the system reaches. *)
Record invariant2 (s : Runtime.State) : Prop := mkInvariant2 {
  inv2_ukey : ukey_ok (Routes.db (Runtime.world s));
  inv2_dlq : dlq_ok (Routes.db (Runtime.world s));
  inv2_status : forall j, j ∈ jobs (Routes.db (Runtime.world s)) ->
                  status_ok (Routes.db (Runtime.world s)) j;
  inv2_window : window_bounded (Routes.redis (Runtime.world s))
}.

(** [b] is [a] followed by more. *)
Definition extends {A : Type} (a b : list A) : Prop := exists more, b = a ++ more.



(** The untyped body that carries the strings of a typed one. *)
Definition raw_of (body : Routes.Body) : Routes.RawBody :=
  {| Routes.raw_tenantId := Json.JStr <$> Routes.tenantId body;
     Routes.raw_payload := Routes.payload body;
     Routes.raw_idempotencyKey := Json.JStr <$> Routes.idempotencyKey body |}.

(** ** More concrete scenarios *)

Module Scenario2.

(** Five jobs of tenant A submitted at 1000 and leased by five workers at
    2000. *)
Definition five_running : Runtime.State :=
  Runtime.run
    (map (fun n => Runtime.Post Scenario.body_plain
                     (Scenario.request_env 1000 ("0." +:+ n) ("trace-" +:+ n)
                        ("job-" +:+ n)))
       ["1"; "2"; "3"; "4"; "5"]
     ++ map (fun n => Runtime.Poll ("worker-" +:+ n) (Scenario.clock 2000))
          ["1"; "2"; "3"; "4"; "5"])
    Runtime.init.

(** A sixth request of tenant A at 3000. *)
Definition sixth_env : Routes.RequestEnv :=
  Scenario.request_env 3000 "0.6" "trace-6" "job-6".

(** The keyed store is down: every command fails. *)
Definition redis_down : Redis.Cmd -> bool := fun _ => true.

Definition down_env : Routes.RequestEnv :=
  {| Routes.redis_fault := redis_down;
     Routes.rate_now := 60000;
     Routes.rate_rnd := "0.5";
     Routes.trace_id := "trace-11";
     Routes.new_id := "job-11";
     Routes.db_now := 60000 |}.

(** A request that carries the empty string as idempotency key. *)
Definition body_empty_key : Routes.Body :=
  {| Routes.tenantId := Some "A";
     Routes.payload := Some (Json.JObj [("task", Json.JStr "z")]);
     Routes.idempotencyKey := Some EmptyString |}.

Definition empty_key_stored : Runtime.State :=
  Runtime.run
    [Runtime.Post body_empty_key (Scenario.request_env 1000 "0.1" "trace-1" "job-1")]
    Runtime.init.



(** Two jobs submitted (at 1000 and at 1500); worker-1 leases the first
    at 2000. *)
Definition second_waiting : Runtime.State :=
  Runtime.run
    [Scenario.first_post;
     Runtime.Post Scenario.body_plain Scenario.second_env;
     Runtime.Poll "worker-1" (Scenario.clock 2000)]
    Runtime.init.

(** The second job, still pending. *)
Definition second_job : Job.t :=
  Prisma.new_job "job-2" 1500 "A" (Json.JObj [("task", Json.JStr "y")]) None "trace-2".




(** A body whose tenant is an object the client reads as a condition,
    with the idempotency key of the job of [Scenario.submitted]. *)
Definition raw_object_tenant : Routes.RawBody :=
  {| Routes.raw_tenantId := Some (Json.JObj [("equals", Json.JStr "A")]);
     Routes.raw_payload := Some (Json.JObj [("task", Json.JStr "x")]);
     Routes.raw_idempotencyKey := Some (Json.JStr "K") |}.

(** The client's reading of an object as a condition on a string: here
    only [{equals: s}] is read, as equality with [s]. *)
Definition string_filter (m : gmap string Json.t) : option (string -> bool) :=
  match map_to_list m with
  | [(k, Json.JStr s)] =>
      if String.eqb k "equals" then Some (fun x => String.eqb x s) else None
  | _ => None
  end.

(** JavaScript's string conversion on the values the bodies above carry
    as tenant: strings, integers, booleans, [null] and objects. *)
Definition to_string (v : Json.t) : string :=
  match v with
  | Json.JStr s => s
  | Json.JNum q =>
      if Pos.eqb (QArith_base.Qden q) 1 then pretty (QArith_base.Qnum q)
      else "NaN"
  | Json.JBool true => "true"
  | Json.JBool false => "false"
  | Json.JNull => "null"
  | Json.JArr _ => EmptyString
  | Json.JObject _ => "[object Object]"
  end.

(** Worker-1 leases the job at 2000 and is slow.  At 400000, the lease
    having run out, worker-2 takes the job over; its handler throws at
    403000 (first retry); worker-2 leases the job again at 404000 and its
    handler throws at 407000 (second retry). *)
Definition twice_retried_by_second : Runtime.State :=
  Runtime.run
    [Scenario.first_post;
     Runtime.Poll "worker-1" (Scenario.clock 2000);
     Runtime.Poll "worker-2" (Scenario.clock 400000);
     Runtime.Finish "worker-2" (Raised "e1") (Scenario.process_env 403000 "dlq-1");
     Runtime.Poll "worker-2" (Scenario.clock 404000);
     Runtime.Finish "worker-2" (Raised "e2") (Scenario.process_env 407000 "dlq-1")]
    Runtime.init.

(** Then the handler of worker-1 throws at last, at 408000. *)
Definition late_retry : Runtime.State :=
  Runtime.run
    [Runtime.Finish "worker-1" (Raised "late") (Scenario.process_env 408000 "dlq-1")]
    twice_retried_by_second.

(** Two failed attempts; worker-1 leases the job a third time at 10000
    and is slow; at 400000 worker-2 takes the job over and its handler
    throws at 403000 (third retry: the row now has [retry_count 3]). *)
Definition third_retry_by_second : Runtime.State :=
  Runtime.run
    (Scenario.first_post :: Scenario.failed_attempt 2000 "e1"
       ++ Scenario.failed_attempt 6000 "e2"
       ++ [Runtime.Poll "worker-1" (Scenario.clock 10000);
           Runtime.Poll "worker-2" (Scenario.clock 400000);
           Runtime.Finish "worker-2" (Raised "e3")
             (Scenario.process_env 403000 "dlq-1")])
    Runtime.init.

(** Then the handler of worker-1 throws at 404000: the fourth failure. *)
Definition fourth_failure_of_first : Runtime.State :=
  Runtime.run
    [Runtime.Finish "worker-1" (Raised "e4") (Scenario.process_env 404000 "dlq-1")]
    third_retry_by_second.

(** After [twice_retried_by_second] worker-2 leases the job a third time
    and fails (the row has [retry_count 3]), and leases it a fourth time
    at 412000; the handler of worker-1 throws at 413000, and the handler
    of worker-2 at 414000. *)
Definition dead_lettered_after_late_retry : Runtime.State :=
  Runtime.run
    [Runtime.Poll "worker-2" (Scenario.clock 408000);
     Runtime.Finish "worker-2" (Raised "e3") (Scenario.process_env 411000 "dlq-1");
     Runtime.Poll "worker-2" (Scenario.clock 412000);
     Runtime.Finish "worker-1" (Raised "late") (Scenario.process_env 413000 "dlq-1");
     Runtime.Finish "worker-2" (Raised "e4") (Scenario.process_env 414000 "dlq-1")]
    twice_retried_by_second.

(** Worker-1 leases the job at 2000 and is slow; worker-2 takes the job
    over at 400000, with a lease until 700000. *)
Definition taken_over : Runtime.State :=
  Runtime.run
    [Scenario.first_post;
     Runtime.Poll "worker-1" (Scenario.clock 2000);
     Runtime.Poll "worker-2" (Scenario.clock 400000)]
    Runtime.init.

(** Then the handler of worker-1 throws at 401000, and worker-3 polls at
    402000. *)
Definition leased_during_lease : Runtime.State :=
  Runtime.run
    [Runtime.Finish "worker-1" (Raised "late") (Scenario.process_env 401000 "dlq-1");
     Runtime.Poll "worker-3" (Scenario.clock 402000)]
    taken_over.

(** Nine admitted submissions of tenant A at 50000. *)
Definition nine_entries : gmap string Redis.ZKey :=
  fold_left (fun s rnd => snd (RateLimiter.checkRateLimit Scenario.no_fault 50000 rnd "A" s))
    Scenario.nine_rnds ∅.

(** Two calls of [checkRateLimit] for tenant A, one at 51000 and one at
    51001, whose commands reach the store in turn: both evictions, then
    both counts, then both insertions and both [EXPIRE]. *)
Definition both_evicted : gmap string Redis.ZKey :=
  Redis.zRemRangeByScore 51001 (RateLimiter.rate_key "A") 0 (51001 - 60000)
    (Redis.zRemRangeByScore 51000 (RateLimiter.rate_key "A") 0 (51000 - 60000)
       nine_entries).

Definition both_added : gmap string Redis.ZKey :=
  Redis.expire 51001 (RateLimiter.rate_key "A") 60
    (Redis.expire 51000 (RateLimiter.rate_key "A") 60
       (Redis.zAdd 51001 (RateLimiter.rate_key "A") 51001
          (RateLimiter.entry_value 51001 "0.b")
          (Redis.zAdd 51000 (RateLimiter.rate_key "A") 51000
             (RateLimiter.entry_value 51000 "0.a") both_evicted))).

(** Three failed attempts, then worker-1 leases the job a fourth time at
    14000. *)
Definition fourth_lease : Runtime.State :=
  Runtime.run
    (Scenario.first_post :: Scenario.failed_attempt 2000 "e1"
       ++ Scenario.failed_attempt 6000 "e2" ++ Scenario.failed_attempt 10000 "e3"
       ++ [Runtime.Poll "worker-1" (Scenario.clock 14000)])
    Runtime.init.

(** The job object worker-1 holds in [fourth_lease]. *)
Definition fourth_job : Job.t :=
  {| Job.id := "job-1";
     Job.tenantId := "A";
     Job.status := running;
     Job.payload := Json.JObj [("task", Json.JStr "x")];
     Job.idempotencyKey := Some "K";
     Job.retryCount := 3;
     Job.maxRetries := 3;
     Job.leaseExpiresAt := Some 314000;
     Job.workerId := Some "worker-1";
     Job.createdAt := 133000;
     Job.startedAt := Some 14000;
     Job.completedAt := None;
     Job.errorMessage := Some "e3";
     Job.traceId := "trace-1" |}.

End Scenario2.

(** * Lemmas on the Prisma calls *)

Lemma JobStatus_eqb_eq a b : JobStatus_eqb a b = true <-> a = b.
Proof. destruct a, b; simpl; split; congruence. Qed.

Lemma earliest_nil rows : Prisma.earliest rows = None -> rows = [].
Proof.
  destruct rows as [|j rest]; [reflexivity|]. simpl.
  destruct (Prisma.earliest rest) as [m|]; [|discriminate].
  destruct (Job.createdAt m <? Job.createdAt j); discriminate.
Qed.

Lemma earliest_least rows m :
  Prisma.earliest rows = Some m ->
  m ∈ rows /\ forall j, j ∈ rows -> Job.createdAt m <= Job.createdAt j.
Proof.
  revert m. induction rows as [|j rest IH]; intros m; simpl; [discriminate|].
  destruct (Prisma.earliest rest) as [m'|] eqn:E.
  - destruct (IH m' eq_refl) as [Hin Hle].
    destruct (Z.ltb_spec (Job.createdAt m') (Job.createdAt j)); intros [= <-].
    + split; [by right|]. intros x [->|Hx]%elem_of_cons; [lia|by apply Hle].
    + split; [by left|]. intros x [->|Hx]%elem_of_cons; [lia|].
      specialize (Hle x Hx). lia.
  - intros [= <-]. apply earliest_nil in E as ->.
    split; [by left|]. intros x [->|Hx]%elem_of_cons; [lia|]. by apply elem_of_nil in Hx.
Qed.

Lemma update_rows_Some jid data rows u rows' :
  Prisma.update_rows jid data rows = Some (u, rows') ->
  exists l1 r l2,
    rows = l1 ++ r :: l2 /\ Job.id r = jid
    /\ Forall (fun x => Job.id x <> jid) l1
    /\ u = data r /\ rows' = l1 ++ data r :: l2.
Proof.
  revert u rows'. induction rows as [|j rest IH]; intros u rows'; simpl; [discriminate|].
  destruct (String.eqb_spec (Job.id j) jid) as [Heq|Hne].
  - intros [= <- <-]. by exists [], j, rest.
  - destruct (Prisma.update_rows jid data rest) as [[u0 rest']|]; [|discriminate].
    intros [= <- <-].
    destruct (IH u0 rest' eq_refl) as (l1 & r & l2 & -> & Hid & Hl1 & -> & ->).
    exists (j :: l1), r, l2. repeat split; try done. by constructor.
Qed.

Lemma update_rows_None jid data rows :
  Prisma.update_rows jid data rows = None ->
  Forall (fun x => Job.id x <> jid) rows.
Proof.
  induction rows as [|j rest IH]; simpl; [constructor|].
  destruct (String.eqb_spec (Job.id j) jid) as [Heq|Hne]; [discriminate|].
  destruct (Prisma.update_rows jid data rest) as [[u0 rest']|]; [discriminate|].
  intros _. constructor; [done|by apply IH].
Qed.

Lemma pkey_unique rows a b :
  NoDup (Job.id <$> rows) -> a ∈ rows -> b ∈ rows -> Job.id a = Job.id b -> a = b.
Proof.
  induction rows as [|j rest IH]; intros Hnd Ha Hb Hid.
  - by apply elem_of_nil in Ha.
  - rewrite fmap_cons in Hnd. apply NoDup_cons in Hnd as [Hj Hnd].
    apply elem_of_cons in Ha as [->|Ha]; apply elem_of_cons in Hb as [->|Hb].
    + done.
    + exfalso. apply Hj. rewrite Hid. by apply list_elem_of_fmap_2.
    + exfalso. apply Hj. rewrite <- Hid. by apply list_elem_of_fmap_2.
    + by apply IH.
Qed.

(** Under the primary key, updating by the id of a row of the table
    rewrites that row. *)
Lemma update_rows_at jid data rows j :
  NoDup (Job.id <$> rows) -> j ∈ rows -> Job.id j = jid ->
  exists l1 l2,
    rows = l1 ++ j :: l2
    /\ Prisma.update_rows jid data rows = Some (data j, l1 ++ data j :: l2).
Proof.
  intros Hnd Hin Hid.
  destruct (Prisma.update_rows jid data rows) as [[u rows']|] eqn:E.
  - destruct (update_rows_Some _ _ _ _ _ E) as (l1 & r & l2 & Hrows & Hr & _ & -> & ->).
    assert (r = j) as ->.
    { apply (pkey_unique rows); [done| |done|congruence].
      rewrite Hrows. apply elem_of_app. right. by left. }
    by exists l1, l2.
  - apply update_rows_None in E. rewrite Forall_forall in E.
    exfalso. by apply (E j).
Qed.

Lemma claimable_eligible now j :
  WorkerService.claimable now j = true <-> eligible now j.
Proof.
  unfold WorkerService.claimable, WorkerService.lease_lt, eligible.
  rewrite orb_true_iff, andb_true_iff, !JobStatus_eqb_eq. split.
  - intros [H|[H1 H2]]; [by left|right]. split; [done|].
    destruct (Job.leaseExpiresAt j) as [t|]; [|discriminate].
    exists t. split; [done|]. by apply Z.ltb_lt.
  - intros [H|[H1 (t & Ht & Hlt)]]; [by left|right]. split; [done|].
    rewrite Ht. by apply Z.ltb_lt.
Qed.

Lemma elem_of_List_filter {A : Type} (f : A -> bool) (l : list A) (x : A) :
  x ∈ List.filter f l <-> x ∈ l /\ f x = true.
Proof. rewrite !list_elem_of_In. apply filter_In. Qed.

Lemma List_filter_nil {A : Type} (f : A -> bool) (l : list A) :
  List.filter f l = [] -> forall x, x ∈ l -> f x = false.
Proof.
  intros Hnil x Hx. destruct (f x) eqn:E; [|done].
  assert (x ∈ List.filter f l) as Hin by by apply elem_of_List_filter.
  rewrite Hnil in Hin. by apply elem_of_nil in Hin.
Qed.

(** * Lease acquisition *)

(** The two results of [acquireLease]: nothing is claimable and the store
    is as before, or the earliest claimable row [j] is rewritten by the
    lease update and returned. *)
Lemma acquireLease_cases (w : string) (clk : WorkerService.LeaseClock) (db : Db) :
  pkey_ok db ->
  match WorkerService.acquireLease w clk db with
  | (None, db') =>
      db' = db
      /\ forall j, j ∈ jobs db -> ~ eligible (WorkerService.at_query clk) j
  | (Some u, db') =>
      exists j,
        j ∈ jobs db
        /\ eligible (WorkerService.at_query clk) j
        /\ (forall j', j' ∈ jobs db -> eligible (WorkerService.at_query clk) j' ->
                       Job.createdAt j <= Job.createdAt j')
        /\ u = WorkerService.lease_data w (WorkerService.at_lease clk + 300000)
                 j (WorkerService.at_start clk) j
        /\ replaced (jobs db) j u (jobs db')
        /\ dlq db' = dlq db
  end.
Proof.
  intros Hpk.
  unfold WorkerService.acquireLease, Prisma.findFirst_createdAt_asc.
  destruct (Prisma.earliest _) as [a|] eqn:E.
  - apply earliest_least in E as [Hin Hmin].
    apply elem_of_List_filter in Hin as [Hin Hcl].
    unfold Prisma.job_update.
    destruct (update_rows_at (Job.id a)
                (WorkerService.lease_data w (WorkerService.at_lease clk + 5 * 60 * 1000)
                   a (WorkerService.at_start clk))
                (jobs db) a Hpk Hin eq_refl) as (l1 & l2 & Hrows & ->).
    exists a. split; [done|]. split; [by apply claimable_eligible|].
    split.
    { intros j' Hj' He. apply Hmin, elem_of_List_filter.
      split; [done|by apply claimable_eligible]. }
    simpl. repeat split; try done.
    by exists l1, l2.
  - apply earliest_nil in E. split; [done|].
    intros j Hj He%claimable_eligible.
    by rewrite (List_filter_nil _ _ E j Hj) in He.
Qed.

Lemma lease_data_identity w t a ts j :
  same_identity j (WorkerService.lease_data w t a ts j).
Proof. by repeat split. Qed.

(** C2.  [acquireLease] returns no job exactly when no job is eligible
    (pending, or running on a lease that ran out before the query's
    clock reading); otherwise it claims an eligible job with the least
    [created_at] among the eligible ones, and rewrites that one row to
    [running], held by the acquiring worker, with a lease of five minutes
    from the clock reading, leaving [retry_count] and [created_at] as they
    were.  Eligibility does not look at [created_at], so a job whose
    [created_at] lies in the future is claimed like any other. *)
Theorem acquireLease_claims_earliest_eligible
    (w : string) (clk : WorkerService.LeaseClock) (db : Db) (Hpk : pkey_ok db) :
  match WorkerService.acquireLease w clk db with
  | (None, db') =>
      db' = db
      /\ forall j, j ∈ jobs db -> ~ eligible (WorkerService.at_query clk) j
  | (Some u, db') =>
      exists j,
        j ∈ jobs db
        /\ eligible (WorkerService.at_query clk) j
        /\ (forall j', j' ∈ jobs db -> eligible (WorkerService.at_query clk) j' ->
                       Job.createdAt j <= Job.createdAt j')
        /\ Job.status u = running
        /\ Job.workerId u = Some w
        /\ Job.leaseExpiresAt u = Some (WorkerService.at_lease clk + 300000)
        /\ Job.retryCount u = Job.retryCount j
        /\ Job.createdAt u = Job.createdAt j
        /\ Job.completedAt u = Job.completedAt j
        /\ Job.errorMessage u = Job.errorMessage j
        /\ same_identity j u
        /\ replaced (jobs db) j u (jobs db')
        /\ dlq db' = dlq db
  end.
Proof.
  pose proof (acquireLease_cases w clk db Hpk) as H.
  destruct (WorkerService.acquireLease w clk db) as [[u|] db']; [|done].
  destruct H as (j & Hin & Hel & Hmin & -> & Hrep & Hdlq).
  exists j. repeat split; done.
Qed.

Lemma acquireLease_claims_earliest_eligible_witness :
  match WorkerService.acquireLease "worker-1" (Scenario.clock 6000)
          (Routes.db (Runtime.world Scenario.retried)) with
  | (None, db') =>
      db' = Routes.db (Runtime.world Scenario.retried)
      /\ forall j, j ∈ jobs (Routes.db (Runtime.world Scenario.retried)) ->
                   ~ eligible (WorkerService.at_query (Scenario.clock 6000)) j
  | (Some u, db') =>
      exists j,
        j ∈ jobs (Routes.db (Runtime.world Scenario.retried))
        /\ eligible (WorkerService.at_query (Scenario.clock 6000)) j
        /\ (forall j', j' ∈ jobs (Routes.db (Runtime.world Scenario.retried)) ->
                       eligible (WorkerService.at_query (Scenario.clock 6000)) j' ->
                       Job.createdAt j <= Job.createdAt j')
        /\ Job.status u = running
        /\ Job.workerId u = Some "worker-1"
        /\ Job.leaseExpiresAt u
           = Some (WorkerService.at_lease (Scenario.clock 6000) + 300000)
        /\ Job.retryCount u = Job.retryCount j
        /\ Job.createdAt u = Job.createdAt j
        /\ Job.completedAt u = Job.completedAt j
        /\ Job.errorMessage u = Job.errorMessage j
        /\ same_identity j u
        /\ replaced (jobs (Routes.db (Runtime.world Scenario.retried))) j u (jobs db')
        /\ dlq db' = dlq (Routes.db (Runtime.world Scenario.retried))
  end.
Proof.
  apply (acquireLease_claims_earliest_eligible "worker-1" (Scenario.clock 6000)
           (Routes.db (Runtime.world Scenario.retried))).
  unfold pkey_ok. vm_compute. apply NoDup_singleton.
Defined.

(** The job retried at 5000 carries [created_at = 35000]; a poll at 6000
    leases it all the same. *)
Example retried_job_is_leased_before_its_created_at :
  exists j u db',
    jobs (Routes.db (Runtime.world Scenario.retried)) = [j]
    /\ Job.createdAt j = 35000
    /\ WorkerService.acquireLease "worker-1" (Scenario.clock 6000)
         (Routes.db (Runtime.world Scenario.retried)) = (Some u, db')
    /\ Job.id u = Job.id j /\ Job.status u = running.
Proof. vm_compute. eexists _, _, _. repeat split. Qed.

(** * How the operations change the tables *)

Lemma same_identity_refl j : same_identity j j.
Proof. by repeat split. Qed.

Lemma same_identity_trans a b c :
  same_identity a b -> same_identity b c -> same_identity a c.
Proof.
  intros (?&?&?&?&?&?) (?&?&?&?&?&?). repeat split; congruence.
Qed.

Lemma same_identity_sym a b : same_identity a b -> same_identity b a.
Proof. intros (?&?&?&?&?&?). repeat split; congruence. Qed.

Lemma replaced_mem rows j u rows' :
  replaced rows j u rows' -> j ∈ rows /\ u ∈ rows'.
Proof.
  intros (l1 & l2 & -> & ->). split; apply elem_of_app; right; by left.
Qed.

Lemma replaced_ids rows j u rows' :
  replaced rows j u rows' -> Job.id u = Job.id j ->
  Job.id <$> rows' = Job.id <$> rows.
Proof.
  intros (l1 & l2 & -> & ->) Hid. rewrite !fmap_app, !fmap_cons. by rewrite Hid.
Qed.

Lemma replaced_backward rows j u rows' r' :
  replaced rows j u rows' -> r' ∈ rows' -> r' = u \/ r' ∈ rows.
Proof.
  intros (l1 & l2 & -> & ->) [H|[->|H]%elem_of_cons]%elem_of_app.
  - right. apply elem_of_app. by left.
  - by left.
  - right. apply elem_of_app. right. by right.
Qed.

Lemma replaced_forward rows j u rows' r :
  replaced rows j u rows' -> r ∈ rows -> r = j \/ r ∈ rows'.
Proof.
  intros (l1 & l2 & -> & ->) [H|[->|H]%elem_of_cons]%elem_of_app.
  - right. apply elem_of_app. by left.
  - by left.
  - right. apply elem_of_app. right. by right.
Qed.

(** A replacement that keeps the identity columns keeps, for every old
    row, a row of the same identity. *)
Lemma replaced_keeps_identity rows j u rows' r :
  replaced rows j u rows' -> same_identity j u -> r ∈ rows ->
  exists r', r' ∈ rows' /\ same_identity r r'.
Proof.
  intros Hrep Hid Hr.
  destruct (replaced_forward _ _ _ _ _ Hrep Hr) as [->|Hr'].
  - exists u. split; [by apply (replaced_mem _ _ _ _ Hrep)|done].
  - exists r. split; [done|apply same_identity_refl].
Qed.

Lemma job_update_Ok jid data db u db' :
  Prisma.job_update jid data db = Prisma.Ok (u, db') ->
  exists r, r ∈ jobs db /\ Job.id r = jid /\ u = data r
            /\ replaced (jobs db) r u (jobs db') /\ dlq db' = dlq db.
Proof.
  unfold Prisma.job_update.
  destruct (Prisma.update_rows jid data (jobs db)) as [[u0 rows']|] eqn:E; [|discriminate].
  intros [= <- <-].
  destruct (update_rows_Some _ _ _ _ _ E) as (l1 & r & l2 & Hrows & Hid & _ & -> & ->).
  exists r. repeat split; try done.
  - rewrite Hrows. apply elem_of_app. right. by left.
  - by exists l1, l2.
Qed.

Lemma job_update_Throw jid data db e :
  Prisma.job_update jid data db = Prisma.Throw e ->
  forall r, r ∈ jobs db -> Job.id r <> jid.
Proof.
  unfold Prisma.job_update.
  destruct (Prisma.update_rows jid data (jobs db)) as [[u0 rows']|] eqn:E; [discriminate|].
  intros _. apply update_rows_None in E. by rewrite Forall_forall in E.
Qed.

Lemma existsb_false_forall {A : Type} (f : A -> bool) (l : list A) :
  existsb f l = false -> forall x, x ∈ l -> f x = false.
Proof.
  intros H x Hx. destruct (f x) eqn:E; [|done].
  assert (existsb f l = true) as Ht.
  { apply existsb_exists. exists x. split; [by apply list_elem_of_In|done]. }
  congruence.
Qed.

Lemma existsb_true_exists {A : Type} (f : A -> bool) (l : list A) :
  existsb f l = true -> exists x, x ∈ l /\ f x = true.
Proof.
  intros (x & Hx & Hf)%existsb_exists. exists x. split; [by apply list_elem_of_In|done].
Qed.

Lemma find_some_elem {A : Type} (f : A -> bool) (l : list A) (x : A) :
  find f l = Some x -> x ∈ l /\ f x = true.
Proof. intros [H1 H2]%find_some. split; [by apply list_elem_of_In|done]. Qed.

Lemma has_key_true k j :
  Prisma.has_key k j = true <-> Job.idempotencyKey j = Some k.
Proof.
  unfold Prisma.has_key. destruct (Job.idempotencyKey j) as [k'|].
  - rewrite String.eqb_eq. split; congruence.
  - split; discriminate.
Qed.

Lemma job_create_Ok new_id now t p k tr db job db' :
  Prisma.job_create new_id now t p k tr db = Prisma.Ok (job, db') ->
  job = Prisma.new_job new_id now t p k tr
  /\ jobs db' = jobs db ++ [job] /\ dlq db' = dlq db
  /\ (forall r, r ∈ jobs db -> Job.id r <> new_id).
Proof.
  unfold Prisma.job_create.
  destruct (existsb _ (jobs db)) eqn:E1; [discriminate|].
  destruct (match k with Some _ => _ | None => _ end); [discriminate|].
  intros [= <- <-]. repeat split; try done.
  intros r Hr Hid. apply (existsb_false_forall _ _ E1) in Hr.
  apply String.eqb_neq in Hr. done.
Qed.

Lemma submitJob_Ok tr new_id now t p k db job db' :
  JobService.submitJob tr new_id now t p k db = Prisma.Ok (job, db') ->
  (db' = db /\ job ∈ jobs db)
  \/ (job = Prisma.new_job new_id now t p k tr
      /\ jobs db' = jobs db ++ [job] /\ dlq db' = dlq db
      /\ forall r, r ∈ jobs db -> Job.id r <> new_id).
Proof.
  unfold JobService.submitJob.
  destruct (match k with Some _ => _ | None => _ end) as [existing|] eqn:E.
  - intros [= <- <-]. left. split; [done|].
    destruct k as [k0|]; [|discriminate].
    destruct (Json.truthy_string (Some k0)); [|discriminate].
    by apply find_some_elem in E as [? _].
  - intros H. right. by apply job_create_Ok in H.
Qed.

Lemma dlq_create_Ok new_id now jid p msg tr db e db' :
  Prisma.dlq_create new_id now jid p msg tr db = Prisma.Ok (e, db') ->
  e = {| DLQ.id := new_id; DLQ.jobId := jid; DLQ.payload := p;
         DLQ.finalError := msg; DLQ.failedAt := now; DLQ.traceId := tr |}
  /\ jobs db' = jobs db /\ dlq db' = dlq db ++ [e]
  /\ (forall x, x ∈ dlq db -> DLQ.jobId x <> jid)
  /\ (exists r, r ∈ jobs db /\ Job.id r = jid).
Proof.
  unfold Prisma.dlq_create.
  destruct (existsb _ (dlq db)) eqn:E1; [discriminate|].
  destruct (existsb (fun e0 => String.eqb (DLQ.jobId e0) jid) (dlq db)) eqn:E2; [discriminate|].
  destruct (existsb _ (jobs db)) eqn:E3; [|discriminate].
  simpl. intros [= <- <-]. repeat split; try done.
  - intros x Hx Hid. apply (existsb_false_forall _ _ E2) in Hx.
    by apply String.eqb_neq in Hx.
  - apply existsb_true_exists in E3 as (r & Hr & Hid).
    exists r. split; [done|]. by apply String.eqb_eq.
Qed.

Lemma moveToDeadLetterQueue_Ok job msg env db db' :
  WorkerService.moveToDeadLetterQueue job msg env db = Prisma.Ok db' ->
  exists r, r ∈ jobs db /\ Job.id r = Job.id job
    /\ replaced (jobs db) r (WorkerService.failed_data msg r) (jobs db')
    /\ dlq db' = dlq db ++ [dead_letter_of job msg env]
    /\ (forall e, e ∈ dlq db -> DLQ.jobId e <> Job.id job).
Proof.
  unfold WorkerService.moveToDeadLetterQueue.
  destruct (Prisma.dlq_create _ _ _ _ _ _ db) as [[e db1]|] eqn:E1; [|discriminate].
  destruct (Prisma.job_update _ _ db1) as [[u db2]|] eqn:E2; [|discriminate].
  intros [= <-].
  apply dlq_create_Ok in E1 as (-> & Hjobs & Hdlq & Hfresh & _).
  apply job_update_Ok in E2 as (r & Hr & Hid & -> & Hrep & Hdlq2).
  rewrite Hjobs in Hr, Hrep. exists r. repeat split; try done.
  by rewrite Hdlq2, Hdlq.
Qed.

Lemma retryJob_Ok job msg env db db' :
  WorkerService.retryJob job msg env db = Prisma.Ok db' ->
  outcome job env db db' (Raised msg).
Proof.
  unfold WorkerService.retryJob.
  destruct (Z.leb_spec (Job.maxRetries job) (Job.retryCount job)) as [Hge|Hlt].
  - intros (r & Hr & Hid & Hrep & Hdlq & Hfresh)%moveToDeadLetterQueue_Ok.
    by eapply dead_lettered.
  - destruct (Prisma.job_update _ _ db) as [[u db1]|] eqn:E; [|discriminate].
    intros [= <-]. apply job_update_Ok in E as (r & Hr & Hid & -> & Hrep & Hdlq).
    by eapply retried.
Qed.

(** When the table has no row with the id of the job, [retryJob] throws. *)
Lemma retryJob_absent job msg env db :
  (forall r, r ∈ jobs db -> Job.id r <> Job.id job) ->
  exists e, WorkerService.retryJob job msg env db = Prisma.Throw e.
Proof.
  intros Habs.
  destruct (WorkerService.retryJob job msg env db) as [db'|e] eqn:E; [|by exists e].
  apply retryJob_Ok in E. inversion E as [| ? r ? Hr Hid | ? r ? Hr Hid]; subst;
    by destruct (Habs r Hr).
Qed.

Lemma processJob_Ok job work env db db' :
  WorkerService.processJob job work env db = Prisma.Ok db' ->
  outcome job env db db' work.
Proof.
  unfold WorkerService.processJob, WorkerService.acknowledgeJob.
  destruct work as [|msg]; [|apply retryJob_Ok].
  destruct (Prisma.job_update _ _ db) as [[u db1]|e] eqn:E.
  - intros [= <-]. apply job_update_Ok in E as (r & Hr & Hid & -> & Hrep & Hdlq).
    by eapply acknowledged.
  - intros H. destruct (retryJob_absent job (Prisma.message e) env db) as [e' He'].
    + by eapply job_update_Throw.
    + congruence.
Qed.

(** Whatever [processJob] does to a row, it keeps its identity columns. *)
Lemma outcome_replaced job env db db' work :
  outcome job env db db' work ->
  exists r u, r ∈ jobs db /\ Job.id r = Job.id job
    /\ replaced (jobs db) r u (jobs db') /\ same_identity r u
    /\ Job.startedAt u = Job.startedAt r
    /\ (Job.retryCount u = Job.retryCount r
        \/ (Job.retryCount u = Job.retryCount job + 1
            /\ Job.retryCount job < Job.maxRetries job)).
Proof.
  intros [r Hr Hid Hrep _ | msg r Hlt Hr Hid Hrep _ | msg r Hge Hr Hid Hrep _ _].
  - exists r, (WorkerService.ack_data (WorkerService.ack_now env) r).
    repeat split; try done. by left.
  - exists r, (WorkerService.retry_data job msg (WorkerService.retry_now env) r).
    repeat split; try done. by right.
  - exists r, (WorkerService.failed_data msg r).
    repeat split; try done. by left.
Qed.

(** * The invariant of the running system *)

Lemma post_jobs_db body env w :
  Routes.db (snd (Routes.post_jobs body env w)) = Routes.db w
  \/ exists job,
       jobs (Routes.db (snd (Routes.post_jobs body env w))) = jobs (Routes.db w) ++ [job]
       /\ dlq (Routes.db (snd (Routes.post_jobs body env w))) = dlq (Routes.db w)
       /\ Job.retryCount job = 0 /\ Job.maxRetries job = 3
       /\ forall r, r ∈ jobs (Routes.db w) -> Job.id r <> Job.id job.
Proof.
  unfold Routes.post_jobs.
  destruct (_ || _); [by left|].
  destruct (Routes.tenantId body) as [t|]; [|by left].
  destruct (Routes.payload body) as [p|]; [|by left].
  unfold Routes.admit_and_submit.
  destruct (RateLimiter.checkRateLimit _ _ _ _ _) as [ok redis'].
  destruct (negb ok); [by left|].
  destruct (negb _); [by left|].
  destruct (JobService.submitJob _ _ _ _ _ _ _) as [[job db']|e] eqn:E; [|by left].
  simpl. apply submitJob_Ok in E as [[-> _]|(-> & Hjobs & Hdlq & Hfresh)]; [by left|].
  right. eexists. repeat split; [exact Hjobs|exact Hdlq|done|done|exact Hfresh].
Qed.

Lemma invariant_init : invariant Runtime.init.
Proof.
  split; simpl.
  - unfold pkey_ok. simpl. constructor.
  - intros j Hj. by apply elem_of_nil in Hj.
  - intros w job Hw. by rewrite lookup_empty in Hw.
  - intros e He. by apply elem_of_nil in He.
Qed.

Lemma rows_kept_replaced db db' j u :
  replaced (jobs db) j u (jobs db') -> same_identity j u -> rows_kept db db'.
Proof. intros Hrep Hid r Hr. by eapply replaced_keeps_identity. Qed.

Lemma rows_kept_app db db' x :
  jobs db' = jobs db ++ [x] -> rows_kept db db'.
Proof.
  intros Hjobs r Hr. exists r. split; [|apply same_identity_refl].
  rewrite Hjobs. apply elem_of_app. by left.
Qed.

Lemma held_kept db db' (job : Job.t) :
  rows_kept db db' ->
  (exists r, r ∈ jobs db /\ same_identity r job) ->
  exists r', r' ∈ jobs db' /\ same_identity r' job.
Proof.
  intros Hk (r & Hr & Hid). destruct (Hk r Hr) as (r' & Hr' & Hid').
  exists r'. split; [done|].
  eapply same_identity_trans; [by apply same_identity_sym|done].
Qed.

Lemma dlq_kept db db' (e : DLQ.t) :
  rows_kept db db' ->
  (exists r, r ∈ jobs db /\ Job.id r = DLQ.jobId e
             /\ Job.traceId r = DLQ.traceId e /\ Job.payload r = DLQ.payload e) ->
  exists r', r' ∈ jobs db' /\ Job.id r' = DLQ.jobId e
             /\ Job.traceId r' = DLQ.traceId e /\ Job.payload r' = DLQ.payload e.
Proof.
  intros Hk (r & Hr & H1 & H2 & H3).
  destruct (Hk r Hr) as (r' & Hr' & (?&?&?&?&?&?)).
  exists r'. repeat split; congruence.
Qed.

Lemma invariant_post body env s :
  invariant s -> invariant (Runtime.step (Runtime.Post body env) s).
Proof.
  intros [Hpk Hrc Hheld Hdlq]. simpl.
  destruct (post_jobs_db body env (Runtime.world s))
    as [Heq|(job & Hjobs & Hd & Hrc0 & Hmax & Hfresh)].
  - split; simpl; rewrite Heq; done.
  - assert (rows_kept (Routes.db (Runtime.world s))
              (Routes.db (snd (Routes.post_jobs body env (Runtime.world s))))) as Hk
      by by eapply rows_kept_app.
    split; simpl.
    + unfold pkey_ok in *. rewrite Hjobs, fmap_app. apply NoDup_app.
      split; [done|]. split; [|apply NoDup_singleton].
      intros x (r & -> & Hr)%list_elem_of_fmap Hx.
      apply list_elem_of_singleton in Hx. by apply (Hfresh r Hr).
    + intros j Hj. rewrite Hjobs in Hj.
      apply elem_of_app in Hj as [Hj|Hj]; [by apply Hrc|].
      apply list_elem_of_singleton in Hj as ->. lia.
    + intros w job' Hw. destruct (Hheld w job' Hw) as [Hr Hex].
      split; [done|]. by eapply held_kept.
    + intros e He. rewrite Hd in He. eapply dlq_kept; [done|]. by apply Hdlq.
Qed.

Lemma invariant_poll w clk s :
  invariant s -> invariant (Runtime.step (Runtime.Poll w clk) s).
Proof.
  intros Hinv. pose proof Hinv as [Hpk Hrc Hheld Hdlq]. simpl.
  destruct (Runtime.held s !! w) as [?|] eqn:Hw; [done|].
  pose proof (acquireLease_cases w clk (Routes.db (Runtime.world s)) Hpk) as H.
  destruct (WorkerService.acquireLease w clk (Routes.db (Runtime.world s)))
    as [[u|] db']; [|done].
  destruct H as (j & Hin & _ & _ & Hu & Hrep & Hd).
  assert (same_identity j u) as Hid by (rewrite Hu; apply lease_data_identity).
  assert (rows_kept (Routes.db (Runtime.world s)) db') as Hk
    by by eapply rows_kept_replaced.
  assert (Job.retryCount u = Job.retryCount j) as Hrcu by by rewrite Hu.
  split; simpl.
  - unfold pkey_ok in *. erewrite replaced_ids; [done|exact Hrep|]. by destruct Hid.
  - intros r' Hr'. destruct (replaced_backward _ _ _ _ _ Hrep Hr') as [->|Hr].
    + destruct Hid as (_&_&_&_&Hmax&_). rewrite Hrcu, Hmax. by apply Hrc.
    + by apply Hrc.
  - intros w' job' Hw'. apply lookup_insert_Some in Hw' as [[<- <-]|[Hne Hw']].
    + split.
      * destruct Hid as (_&_&_&_&Hmax&_). rewrite Hrcu, Hmax. by apply Hrc.
      * exists u. split; [by apply (replaced_mem _ _ _ _ Hrep)|apply same_identity_refl].
    + destruct (Hheld w' job' Hw') as [Hr Hex]. split; [done|]. by eapply held_kept.
  - intros e He. rewrite Hd in He. eapply dlq_kept; [done|]. by apply Hdlq.
Qed.

Lemma invariant_finish w work env s :
  invariant s -> invariant (Runtime.step (Runtime.Finish w work env) s).
Proof.
  intros Hinv. pose proof Hinv as [Hpk Hrc Hheld Hdlq]. simpl.
  destruct (Runtime.held s !! w) as [job|] eqn:Hw; [|done].
  destruct (Hheld w job Hw) as [Hjob (r0 & Hr0 & Hid0)].
  destruct (WorkerService.processJob job work env (Routes.db (Runtime.world s)))
    as [db'|e] eqn:E.
  - pose proof (processJob_Ok _ _ _ _ _ E) as Hout.
    destruct (outcome_replaced _ _ _ _ _ Hout)
      as (r & u & Hr & Hidr & Hrep & Hid & _ & Hrcu).
    assert (r0 = r) as ->.
    { apply (pkey_unique (jobs (Routes.db (Runtime.world s)))); try done.
      destruct Hid0 as (H0&_). congruence. }
    assert (rows_kept (Routes.db (Runtime.world s)) db') as Hk
      by by eapply rows_kept_replaced.
    split; simpl.
    + unfold pkey_ok in *. erewrite replaced_ids; [done|exact Hrep|]. by destruct Hid.
    + intros r' Hr'. destruct (replaced_backward _ _ _ _ _ Hrep Hr') as [->|Hr'']; [|by apply Hrc].
      destruct Hid as (_&_&_&_&Hmax&_). destruct Hid0 as (_&_&_&_&Hmax0&_).
      specialize (Hrc r Hr). destruct Hrcu as [->|[-> Hlt]]; lia.
    + intros w' job' Hw'. apply lookup_delete_Some in Hw' as [Hne Hw'].
      destruct (Hheld w' job' Hw') as [? Hex]. split; [done|]. by eapply held_kept.
    + intros e0 He0.
      assert (e0 ∈ dlq (Routes.db (Runtime.world s))
              \/ e0 = dead_letter_of job
                        match work with Raised m => m | Returned => EmptyString end env) as [He| ->].
      { inversion Hout as [? ? ? ? Hd|? ? ? ? ? ? Hd|? ? ? ? ? ? Hd ?]; subst;
          rewrite Hd in He0; [by left|by left|].
        apply elem_of_app in He0 as [?|Hx%list_elem_of_singleton]; [by left|right; by subst]. }
      * eapply dlq_kept; [done|]. by apply Hdlq.
      * exists u. split; [by apply (replaced_mem _ _ _ _ Hrep)|]. simpl.
        destruct Hid as (?&?&?&?&?&?). destruct Hid0 as (?&?&?&?&?&?).
        repeat split; congruence.
  - split; simpl; try done.
    intros w' job' Hw'. apply lookup_delete_Some in Hw' as [Hne Hw'].
    exact (Hheld w' job' Hw').
Qed.

Lemma invariant_step e s : invariant s -> invariant (Runtime.step e s).
Proof.
  destruct e; [apply invariant_post|apply invariant_poll|apply invariant_finish].
Qed.

Lemma reachable_invariant s : Runtime.reachable s -> invariant s.
Proof.
  induction 1 as [|e s _ IH]; [apply invariant_init|by apply invariant_step].
Qed.

Lemma reachable_run events s :
  Runtime.reachable s -> Runtime.reachable (Runtime.run events s).
Proof.
  revert s. induction events as [|e rest IH]; intros s Hs; [done|].
  simpl. apply IH. by constructor.
Qed.

(** * Retry *)

Lemma backoffMs_eq rc :
  WorkerService.backoffMs rc = Z.min (30000 * 2 ^ rc) 600000.
Proof. reflexivity. Qed.

(** The retry branch, for a job whose row is in the table. *)
Lemma retryJob_retries job msg env db r :
  pkey_ok db -> r ∈ jobs db -> Job.id r = Job.id job ->
  Job.retryCount job < Job.maxRetries job ->
  exists db',
    WorkerService.retryJob job msg env db = Prisma.Ok db'
    /\ replaced (jobs db) r
         (WorkerService.retry_data job msg (WorkerService.retry_now env) r) (jobs db')
    /\ dlq db' = dlq db.
Proof.
  intros Hpk Hr Hid Hlt. unfold WorkerService.retryJob.
  destruct (Z.leb_spec (Job.maxRetries job) (Job.retryCount job)) as [?|_]; [lia|].
  unfold Prisma.job_update.
  destruct (update_rows_at (Job.id job)
              (WorkerService.retry_data job msg (WorkerService.retry_now env))
              (jobs db) r Hpk Hr Hid) as (l1 & l2 & Hrows & ->).
  eexists. split; [done|]. split; [|done]. by exists l1, l2.
Qed.

(** C4, counterexample.  [retryJob] computes the new [retry_count] and the
    backoff from the job object the worker was given by its lease, not
    from the row.  Worker-1 leased the job when its row had
    [retry_count 0] and was slow; meanwhile worker-2 took the job over and
    failed twice, so the row has [retry_count 2].  When the handler of
    worker-1 throws at 408000, the row's [retry_count] goes from 2 to 1,
    and [created_at] is the clock plus 30000, not plus 120000. *)
Lemma stale_retry_lowers_retry_count :
  Runtime.reachable Scenario2.twice_retried_by_second
  /\ Runtime.reachable Scenario2.late_retry
  /\ exists job r u,
       Runtime.held Scenario2.twice_retried_by_second !! "worker-1" = Some job
       /\ jobs (Routes.db (Runtime.world Scenario2.twice_retried_by_second)) = [r]
       /\ WorkerService.processJob job (Raised "late")
            (Scenario.process_env 408000 "dlq-1")
            (Routes.db (Runtime.world Scenario2.twice_retried_by_second))
          = Prisma.Ok (Routes.db (Runtime.world Scenario2.late_retry))
       /\ jobs (Routes.db (Runtime.world Scenario2.late_retry)) = [u]
       /\ Job.id r = Job.id job /\ Job.id u = Job.id job
       /\ Job.retryCount job = 0
       /\ Job.retryCount r = 2
       /\ Job.status u = pending
       /\ Job.retryCount u = 1
       /\ Job.retryCount u <> Job.retryCount r + 1
       /\ Job.createdAt u = 408000 + 30000
       /\ Job.createdAt u <> 408000 + Z.min (30000 * 2 ^ Job.retryCount r) 600000.
Proof.
  split; [|split].
  - apply reachable_run, Runtime.reachable_init.
  - unfold Scenario2.late_retry. apply reachable_run.
    apply reachable_run, Runtime.reachable_init.
  - eexists _, _, _.
    repeat (split; [vm_compute; first [reflexivity | discriminate]|]).
    vm_compute. discriminate.
Qed.

(** C4, amended.  In every state the system reaches, every row has
    [0 <= retry_count <= max_retries]; and when the handler of a job a
    worker holds throws while the [retry_count] of the held job object
    is below its [max_retries], [processJob] rewrites the job's row to
    [pending] with [retry_count] one more than the held object's, no
    worker, no lease, the error's message, and [created_at] the clock
    reading plus [min(30000 * 2^c, 600000)] for [c] the held object's
    [retry_count]; when the row is still as the lease wrote it, that is
    the row's [retry_count] plus one.  The dead-letter table and the
    other columns are untouched, and the new [retry_count] is again at
    most [max_retries]. *)
Theorem retry_postcondition (s : Runtime.State) :
  Runtime.reachable s ->
  (forall j, j ∈ jobs (Routes.db (Runtime.world s)) ->
             0 <= Job.retryCount j <= Job.maxRetries j)
  /\ forall w job message env,
       Runtime.held s !! w = Some job ->
       Job.retryCount job < Job.maxRetries job ->
       exists r u db',
         r ∈ jobs (Routes.db (Runtime.world s))
         /\ Job.id r = Job.id job
         /\ WorkerService.processJob job (Raised message) env
              (Routes.db (Runtime.world s)) = Prisma.Ok db'
         /\ replaced (jobs (Routes.db (Runtime.world s))) r u (jobs db')
         /\ dlq db' = dlq (Routes.db (Runtime.world s))
         /\ Job.status u = pending
         /\ Job.retryCount u = Job.retryCount job + 1
         /\ (r = job -> Job.retryCount u = Job.retryCount r + 1)
         /\ Job.workerId u = None
         /\ Job.leaseExpiresAt u = None
         /\ Job.errorMessage u = Some message
         /\ Job.createdAt u
            = WorkerService.retry_now env
              + Z.min (30000 * 2 ^ Job.retryCount job) 600000
         /\ Job.startedAt u = Job.startedAt r
         /\ Job.completedAt u = Job.completedAt r
         /\ same_identity r u
         /\ 0 <= Job.retryCount u <= Job.maxRetries u.
Proof.
  intros Hreach. pose proof (reachable_invariant s Hreach) as [Hpk Hrc Hheld Hdlq].
  split; [exact Hrc|].
  intros w job msg env Hw Hlt.
  destruct (Hheld w job Hw) as [Hjob (r & Hr & Hid)].
  pose proof Hid as (Hid1 & _ & _ & _ & Hmax & _).
  destruct (retryJob_retries job msg env _ r Hpk Hr (eq_sym Hid1) Hlt)
    as (db' & Hrun & Hrep & Hd).
  exists r, (WorkerService.retry_data job msg (WorkerService.retry_now env) r), db'.
  simpl. repeat split; try done; try lia.
  intros ->. done.
Qed.

Lemma retry_postcondition_witness :
  exists r u db',
    r ∈ jobs (Routes.db (Runtime.world Scenario.leased))
    /\ Job.id r = Job.id Scenario.leased_job
    /\ WorkerService.processJob Scenario.leased_job (Raised "e1")
         (Scenario.process_env 5000 "dlq-1")
         (Routes.db (Runtime.world Scenario.leased)) = Prisma.Ok db'
    /\ replaced (jobs (Routes.db (Runtime.world Scenario.leased))) r u (jobs db')
    /\ dlq db' = dlq (Routes.db (Runtime.world Scenario.leased))
    /\ Job.status u = pending
    /\ Job.retryCount u = Job.retryCount Scenario.leased_job + 1
    /\ (r = Scenario.leased_job -> Job.retryCount u = Job.retryCount r + 1)
    /\ Job.workerId u = None
    /\ Job.leaseExpiresAt u = None
    /\ Job.errorMessage u = Some "e1"
    /\ Job.createdAt u
       = WorkerService.retry_now (Scenario.process_env 5000 "dlq-1")
         + Z.min (30000 * 2 ^ Job.retryCount Scenario.leased_job) 600000
    /\ Job.startedAt u = Job.startedAt r
    /\ Job.completedAt u = Job.completedAt r
    /\ same_identity r u
    /\ 0 <= Job.retryCount u <= Job.maxRetries u.
Proof.
  refine (proj2 (retry_postcondition Scenario.leased _)
            "worker-1" Scenario.leased_job "e1" (Scenario.process_env 5000 "dlq-1") _ _).
  - apply reachable_run, Runtime.reachable_init.
  - vm_compute. reflexivity.
  - vm_compute. reflexivity.
Defined.

(** * [started_at] *)

(** C6, counterexample.  The job was leased at 2000 ([started_at = 2000])
    and returned to [pending] by a retry; the next lease, at 6000, writes
    [started_at = 6000] over it. *)
Lemma lease_after_retry_overwrites_startedAt :
  exists j j',
    jobs (Routes.db (Runtime.world Scenario.retried)) = [j]
    /\ jobs (Routes.db (Runtime.world Scenario.leased_again)) = [j']
    /\ Job.id j' = Job.id j
    /\ Job.status j = pending
    /\ Job.startedAt j = Some 2000
    /\ Job.startedAt j' = Some 6000.
Proof. vm_compute. eexists _, _. repeat split. Qed.

Lemma outcome_startedAt job env db db' work r' :
  outcome job env db db' work -> r' ∈ jobs db' ->
  exists r, r ∈ jobs db /\ Job.id r = Job.id r' /\ Job.startedAt r' = Job.startedAt r.
Proof.
  intros Hout Hr'.
  destruct (outcome_replaced _ _ _ _ _ Hout) as (r & u & Hr & _ & Hrep & Hid & Hst & _).
  destruct (replaced_backward _ _ _ _ _ Hrep Hr') as [->|Hin].
  - exists r. destruct Hid as (Hid & _). by repeat split.
  - by exists r'.
Qed.

(** C6, amended.  The lease update sets [started_at] to the clock reading
    whenever the job it claims is [pending] (whatever [started_at] held)
    and keeps [started_at] when it takes over a [running] job; a
    [processJob] that commits (acknowledgement, retry or dead-lettering)
    and a submission leave the [started_at] of every existing row as it
    was, a new row starting with none. *)
Theorem startedAt_follows_status
    (w : string) (clk : WorkerService.LeaseClock) (db : Db) (Hpk : pkey_ok db) :
  match WorkerService.acquireLease w clk db with
  | (Some u, db') =>
      exists j, j ∈ jobs db /\ Job.id j = Job.id u
        /\ replaced (jobs db) j u (jobs db')
        /\ (Job.status j = pending ->
            Job.startedAt u = Some (WorkerService.at_start clk))
        /\ (Job.status j = running -> Job.startedAt u = Job.startedAt j)
  | (None, db') => db' = db
  end
  /\ (forall job work env db' r',
        WorkerService.processJob job work env db = Prisma.Ok db' ->
        r' ∈ jobs db' ->
        exists r, r ∈ jobs db /\ Job.id r = Job.id r'
                  /\ Job.startedAt r' = Job.startedAt r)
  /\ (forall tr new_id now t p k job db',
        JobService.submitJob tr new_id now t p k db = Prisma.Ok (job, db') ->
        db' = db \/ (jobs db' = jobs db ++ [job] /\ Job.startedAt job = None)).
Proof.
  split; [|split].
  - pose proof (acquireLease_cases w clk db Hpk) as H.
    destruct (WorkerService.acquireLease w clk db) as [[u|] db']; [|by destruct H].
    destruct H as (j & Hin & _ & _ & -> & Hrep & _).
    exists j. repeat split; try done; simpl; by intros ->.
  - intros job work env db' r' Hrun Hr'.
    eapply outcome_startedAt; [by apply processJob_Ok in Hrun|done].
  - intros tr new_id now t p k job db' Hsub.
    apply submitJob_Ok in Hsub as [[-> _]|(-> & Hjobs & _)]; [by left|by right].
Qed.

Lemma startedAt_follows_status_witness :
  match WorkerService.acquireLease "worker-1" (Scenario.clock 6000)
          (Routes.db (Runtime.world Scenario.retried)) with
  | (Some u, db') =>
      exists j, j ∈ jobs (Routes.db (Runtime.world Scenario.retried))
        /\ Job.id j = Job.id u
        /\ replaced (jobs (Routes.db (Runtime.world Scenario.retried))) j u (jobs db')
        /\ (Job.status j = pending ->
            Job.startedAt u = Some (WorkerService.at_start (Scenario.clock 6000)))
        /\ (Job.status j = running -> Job.startedAt u = Job.startedAt j)
  | (None, db') => db' = Routes.db (Runtime.world Scenario.retried)
  end.
Proof.
  refine (proj1 (startedAt_follows_status "worker-1" (Scenario.clock 6000)
                   (Routes.db (Runtime.world Scenario.retried)) _)).
  unfold pkey_ok. vm_compute. apply NoDup_singleton.
Defined.

(** * Lease fields after the job left [running] *)

(** C3, the code at the failing inputs.  The acknowledgement update and
    the update of the dead-letter transaction write neither [worker_id]
    nor [lease_expires_at]: a job acknowledged at 5000 is [completed] and
    still carries the worker and the lease of its run, and a job
    dead-lettered after its fourth failure is [failed] and still carries
    them too.  (The retry update, in the same class, clears both.) *)
Theorem finished_jobs_keep_lease_fields :
  (forall now j,
     Job.workerId (WorkerService.ack_data now j) = Job.workerId j
     /\ Job.leaseExpiresAt (WorkerService.ack_data now j) = Job.leaseExpiresAt j)
  /\ (forall message j,
        Job.workerId (WorkerService.failed_data message j) = Job.workerId j
        /\ Job.leaseExpiresAt (WorkerService.failed_data message j)
           = Job.leaseExpiresAt j)
  /\ (exists j,
        jobs (Routes.db (Runtime.world Scenario.completed_run)) = [j]
        /\ Job.status j = completed
        /\ Job.workerId j = Some "worker-1"
        /\ Job.leaseExpiresAt j = Some 302000)
  /\ (exists j,
        jobs (Routes.db (Runtime.world Scenario.exhausted_run)) = [j]
        /\ Job.status j = failed
        /\ Job.workerId j = Some "worker-1"
        /\ Job.leaseExpiresAt j = Some 314000).
Proof.
  split; [done|]. split; [done|].
  split; vm_compute; eexists; repeat split.
Qed.

(** The sibling path: the retry update clears both lease fields. *)
Lemma retry_clears_lease_fields job message now j :
  Job.status (WorkerService.retry_data job message now j) = pending
  /\ Job.workerId (WorkerService.retry_data job message now j) = None
  /\ Job.leaseExpiresAt (WorkerService.retry_data job message now j) = None.
Proof. done. Qed.

(** * Dead letters *)

(** C5, counterexample.  After three retries worker-1 leases the job a
    fourth time and is slow; the lease runs out, worker-2 takes the job
    over, fails and dead-letters it; then the handler of worker-1 returns
    and its acknowledgement, which asks neither for the lease holder nor
    for the status, rewrites the row: the dead-letter entry is there and
    its job is [completed]. *)
Lemma dead_lettered_job_is_acknowledged_later :
  Runtime.reachable Scenario.late_acknowledgement
  /\ exists e j,
       dlq (Routes.db (Runtime.world Scenario.late_acknowledgement)) = [e]
       /\ jobs (Routes.db (Runtime.world Scenario.late_acknowledgement)) = [j]
       /\ DLQ.jobId e = Job.id j
       /\ Job.status j = completed
       /\ Job.status j <> failed.
Proof.
  split.
  - unfold Scenario.late_acknowledgement, Scenario.dead_lettered_by_second.
    do 2 apply reachable_run. apply Runtime.reachable_init.
  - vm_compute. eexists _, _. repeat split. discriminate.
Qed.

(** The test [retryCount >= maxRetries] of [processJob] reads the job
    object of the lease, not the row.  Worker-1 holds the job with
    [retry_count 2]; worker-2 took the job over and failed, so the row has
    [retry_count 3 = max_retries]; the handler of worker-1 throws: the
    fourth failure of the job is retried, and no dead letter is written. *)
Example stale_failure_at_max_is_retried :
  Runtime.reachable Scenario2.fourth_failure_of_first
  /\ exists job r u,
       Runtime.held Scenario2.third_retry_by_second !! "worker-1" = Some job
       /\ jobs (Routes.db (Runtime.world Scenario2.third_retry_by_second)) = [r]
       /\ jobs (Routes.db (Runtime.world Scenario2.fourth_failure_of_first)) = [u]
       /\ Job.id r = Job.id job /\ Job.id u = Job.id job
       /\ Job.retryCount job = 2
       /\ Job.retryCount r = 3 /\ Job.maxRetries r = 3
       /\ Job.status u = pending /\ Job.retryCount u = 3
       /\ dlq (Routes.db (Runtime.world Scenario2.fourth_failure_of_first)) = [].
Proof.
  split.
  - unfold Scenario2.fourth_failure_of_first. apply reachable_run.
    apply reachable_run, Runtime.reachable_init.
  - vm_compute. eexists _, _, _. repeat split.
Qed.

(** The other way round.  Worker-2 holds the job with [retry_count 3];
    the late retry of worker-1 has put the row back to [retry_count 1];
    the handler of worker-2 throws: the job is dead-lettered, and its row
    is [failed] with [retry_count 1]. *)
Example dead_lettered_below_max :
  Runtime.reachable Scenario2.dead_lettered_after_late_retry
  /\ exists e u,
       dlq (Routes.db (Runtime.world Scenario2.dead_lettered_after_late_retry)) = [e]
       /\ jobs (Routes.db (Runtime.world Scenario2.dead_lettered_after_late_retry)) = [u]
       /\ DLQ.jobId e = Job.id u /\ DLQ.finalError e = "e4"
       /\ Job.status u = failed
       /\ Job.retryCount u = 1 /\ Job.maxRetries u = 3.
Proof.
  split.
  - unfold Scenario2.dead_lettered_after_late_retry. apply reachable_run.
    apply reachable_run, Runtime.reachable_init.
  - vm_compute. eexists _, _. repeat split.
Qed.

(** The dead-letter transaction for a job whose row is in the table: it
    commits, or it throws on one of the two unique indexes of [dlq]. *)
Lemma moveToDeadLetterQueue_cases job msg env db r :
  pkey_ok db -> r ∈ jobs db -> Job.id r = Job.id job ->
  match WorkerService.moveToDeadLetterQueue job msg env db with
  | Prisma.Ok db' =>
      replaced (jobs db) r (WorkerService.failed_data msg r) (jobs db')
      /\ dlq db' = dlq db ++ [dead_letter_of job msg env]
      /\ (forall e, e ∈ dlq db -> DLQ.jobId e <> Job.id job)
  | Prisma.Throw _ =>
      (exists e, e ∈ dlq db /\ DLQ.jobId e = Job.id job)
      \/ (exists e, e ∈ dlq db /\ DLQ.id e = WorkerService.dlq_id env)
  end.
Proof.
  intros Hpk Hr Hid.
  destruct (WorkerService.moveToDeadLetterQueue job msg env db) as [db'|e] eqn:E.
  - apply moveToDeadLetterQueue_Ok in E as (r0 & Hr0 & Hid0 & Hrep & Hd & Hfresh).
    assert (r0 = r) as -> by (apply (pkey_unique (jobs db)); [done..|congruence]).
    done.
  - revert E. unfold WorkerService.moveToDeadLetterQueue, Prisma.dlq_create.
    destruct (existsb (fun e0 => String.eqb (DLQ.id e0) _) (dlq db)) eqn:E1.
    { intros _. right. apply existsb_true_exists in E1 as (x & Hx & Heq).
      exists x. split; [done|]. by apply String.eqb_eq. }
    destruct (existsb (fun e0 => String.eqb (DLQ.jobId e0) _) (dlq db)) eqn:E2.
    { intros _. left. apply existsb_true_exists in E2 as (x & Hx & Heq).
      exists x. split; [done|]. by apply String.eqb_eq. }
    destruct (existsb _ (jobs db)) eqn:E3; simpl.
    + unfold Prisma.job_update. simpl.
      destruct (update_rows_at (Job.id job) (WorkerService.failed_data msg)
                  (jobs db) r Hpk Hr Hid) as (l1 & l2 & _ & ->).
      discriminate.
    + apply (existsb_false_forall _ _ E3) in Hr.
      apply String.eqb_neq in Hr. done.
Qed.

(** The acknowledgement of a job whose row is in the table commits and
    writes no dead letter. *)
Lemma acknowledge_present job env db r :
  pkey_ok db -> r ∈ jobs db -> Job.id r = Job.id job ->
  exists db',
    WorkerService.processJob job Returned env db = Prisma.Ok db'
    /\ replaced (jobs db) r
         (WorkerService.ack_data (WorkerService.ack_now env) r) (jobs db')
    /\ dlq db' = dlq db.
Proof.
  intros Hpk Hr Hid.
  unfold WorkerService.processJob, WorkerService.acknowledgeJob, Prisma.job_update.
  destruct (update_rows_at (Job.id job)
              (WorkerService.ack_data (WorkerService.ack_now env))
              (jobs db) r Hpk Hr Hid) as (l1 & l2 & Hrows & ->).
  eexists. split; [done|]. split; [|done]. by exists l1, l2.
Qed.

(** C5, amended.  In every state the system reaches, every dead-letter
    entry has a job row with its [job_id], the same [trace_id] and the
    same payload.  For a job object a worker holds: a handler that returns
    writes no dead letter; a handler that throws writes one exactly when
    the [retry_count] of the held object equals its [max_retries] (unless
    the job has an entry already, or the generated key is taken, in which
    case the transaction throws and writes nothing), and then the one
    transaction appends the entry with the job's id, payload and trace id
    and the error's message, and rewrites the job's row to [failed] with
    that message.  The row's own [retry_count] is not read. *)
Theorem dead_letter_policy (s : Runtime.State) :
  Runtime.reachable s ->
  (forall e, e ∈ dlq (Routes.db (Runtime.world s)) ->
     exists r, r ∈ jobs (Routes.db (Runtime.world s))
               /\ Job.id r = DLQ.jobId e
               /\ Job.traceId r = DLQ.traceId e
               /\ Job.payload r = DLQ.payload e)
  /\ forall w job env,
       Runtime.held s !! w = Some job ->
       (exists db',
          WorkerService.processJob job Returned env (Routes.db (Runtime.world s))
          = Prisma.Ok db'
          /\ dlq db' = dlq (Routes.db (Runtime.world s)))
       /\ forall message,
            match WorkerService.processJob job (Raised message) env
                    (Routes.db (Runtime.world s)) with
            | Prisma.Ok db' =>
                (Job.retryCount job < Job.maxRetries job
                 /\ dlq db' = dlq (Routes.db (Runtime.world s)))
                \/ (Job.retryCount job = Job.maxRetries job
                    /\ dlq db' = dlq (Routes.db (Runtime.world s))
                                 ++ [dead_letter_of job message env]
                    /\ (forall e, e ∈ dlq (Routes.db (Runtime.world s)) ->
                                  DLQ.jobId e <> Job.id job)
                    /\ exists r u,
                         r ∈ jobs (Routes.db (Runtime.world s))
                         /\ Job.id r = Job.id job
                         /\ replaced (jobs (Routes.db (Runtime.world s))) r u (jobs db')
                         /\ Job.status u = failed
                         /\ Job.errorMessage u = Some message
                         /\ Job.traceId u = Job.traceId job
                         /\ Job.payload u = Job.payload job
                         /\ same_identity r u)
            | Prisma.Throw _ =>
                Job.retryCount job = Job.maxRetries job
                /\ ((exists e, e ∈ dlq (Routes.db (Runtime.world s))
                               /\ DLQ.jobId e = Job.id job)
                    \/ (exists e, e ∈ dlq (Routes.db (Runtime.world s))
                                  /\ DLQ.id e = WorkerService.dlq_id env))
            end.
Proof.
  intros Hreach. pose proof (reachable_invariant s Hreach) as [Hpk Hrc Hheld Hdlq].
  split; [exact Hdlq|].
  intros w job env Hw.
  destruct (Hheld w job Hw) as [Hjob (r & Hr & Hid)].
  pose proof Hid as (Hid1 & _ & Hpay & _ & _ & Htr).
  split.
  - destruct (acknowledge_present job env _ r Hpk Hr (eq_sym Hid1)) as (db' & ? & _ & ?).
    by exists db'.
  - intros msg. simpl. unfold WorkerService.retryJob.
    destruct (Z.leb_spec (Job.maxRetries job) (Job.retryCount job)) as [Hge|Hlt].
    + pose proof (moveToDeadLetterQueue_cases job msg env _ r Hpk Hr (eq_sym Hid1)) as H.
      destruct (WorkerService.moveToDeadLetterQueue job msg env _) as [db'|e].
      * right. destruct H as (Hrep & Hd & Hfresh).
        split; [lia|]. split; [done|]. split; [done|].
        exists r, (WorkerService.failed_data msg r). simpl.
        repeat split; try done; congruence.
      * split; [lia|done].
    + destruct (retryJob_retries job msg env _ r Hpk Hr (eq_sym Hid1) Hlt)
        as (db' & Hrun & _ & Hd).
      unfold WorkerService.retryJob in Hrun.
      destruct (Z.leb_spec (Job.maxRetries job) (Job.retryCount job)); [lia|].
      rewrite Hrun. left. by split.
Qed.

Lemma dead_letter_policy_witness :
  (exists db',
     WorkerService.processJob Scenario2.fourth_job Returned
       (Scenario.process_env 17000 "dlq-1") (Routes.db (Runtime.world Scenario2.fourth_lease))
     = Prisma.Ok db'
     /\ dlq db' = dlq (Routes.db (Runtime.world Scenario2.fourth_lease)))
  /\ forall message,
       match WorkerService.processJob Scenario2.fourth_job (Raised message)
               (Scenario.process_env 17000 "dlq-1")
               (Routes.db (Runtime.world Scenario2.fourth_lease)) with
       | Prisma.Ok db' =>
           (Job.retryCount Scenario2.fourth_job < Job.maxRetries Scenario2.fourth_job
            /\ dlq db' = dlq (Routes.db (Runtime.world Scenario2.fourth_lease)))
           \/ (Job.retryCount Scenario2.fourth_job = Job.maxRetries Scenario2.fourth_job
               /\ dlq db' = dlq (Routes.db (Runtime.world Scenario2.fourth_lease))
                            ++ [dead_letter_of Scenario2.fourth_job message
                                  (Scenario.process_env 17000 "dlq-1")]
               /\ (forall e, e ∈ dlq (Routes.db (Runtime.world Scenario2.fourth_lease)) ->
                             DLQ.jobId e <> Job.id Scenario2.fourth_job)
               /\ exists r u,
                    r ∈ jobs (Routes.db (Runtime.world Scenario2.fourth_lease))
                    /\ Job.id r = Job.id Scenario2.fourth_job
                    /\ replaced (jobs (Routes.db (Runtime.world Scenario2.fourth_lease)))
                         r u (jobs db')
                    /\ Job.status u = failed
                    /\ Job.errorMessage u = Some message
                    /\ Job.traceId u = Job.traceId Scenario2.fourth_job
                    /\ Job.payload u = Job.payload Scenario2.fourth_job
                    /\ same_identity r u)
       | Prisma.Throw _ =>
           Job.retryCount Scenario2.fourth_job = Job.maxRetries Scenario2.fourth_job
           /\ ((exists e, e ∈ dlq (Routes.db (Runtime.world Scenario2.fourth_lease))
                          /\ DLQ.jobId e = Job.id Scenario2.fourth_job)
               \/ (exists e, e ∈ dlq (Routes.db (Runtime.world Scenario2.fourth_lease))
                             /\ DLQ.id e
                                = WorkerService.dlq_id (Scenario.process_env 17000 "dlq-1")))
       end.
Proof.
  refine (proj2 (dead_letter_policy Scenario2.fourth_lease _)
            "worker-1" Scenario2.fourth_job (Scenario.process_env 17000 "dlq-1") _).
  - apply reachable_run, Runtime.reachable_init.
  - vm_compute. reflexivity.
Defined.

(** With the default [max_retries = 3]: three failures leave the job
    [pending] with [retry_count = 3] and no dead letter; the fourth
    failure writes the dead letter, with the fourth error. *)
Example fourth_failure_dead_letters :
  (exists j,
     jobs (Routes.db (Runtime.world
       (Runtime.run (Scenario.first_post :: Scenario.failed_attempt 2000 "e1"
                       ++ Scenario.failed_attempt 6000 "e2"
                       ++ Scenario.failed_attempt 10000 "e3") Runtime.init))) = [j]
     /\ Job.status j = pending /\ Job.retryCount j = 3)
  /\ dlq (Routes.db (Runtime.world
       (Runtime.run (Scenario.first_post :: Scenario.failed_attempt 2000 "e1"
                       ++ Scenario.failed_attempt 6000 "e2"
                       ++ Scenario.failed_attempt 10000 "e3") Runtime.init))) = []
  /\ exists e j,
       dlq (Routes.db (Runtime.world Scenario.exhausted_run)) = [e]
       /\ jobs (Routes.db (Runtime.world Scenario.exhausted_run)) = [j]
       /\ DLQ.jobId e = Job.id j /\ DLQ.finalError e = "e4"
       /\ DLQ.payload e = Job.payload j /\ DLQ.traceId e = Job.traceId j
       /\ Job.status j = failed /\ Job.errorMessage j = Some "e4"
       /\ Job.retryCount j = 3.
Proof.
  split; [|split].
  - vm_compute. eexists. repeat split.
  - vm_compute. reflexivity.
  - vm_compute. eexists _, _. repeat split.
Qed.

(** * The rate gate *)

Lemma live_lookup_ne now key (s : gmap string Redis.ZKey) k :
  k <> key -> Redis.live now key s !! k = s !! k.
Proof.
  intros Hne. unfold Redis.live.
  destruct (s !! key) as [zk|]; [|done].
  destruct (Redis.expireAt zk) as [t|]; [|done].
  destruct (t <? now); [|done]. by rewrite lookup_delete_ne.
Qed.

(** A key that is there after the expiry check was there before, its time
    to live has not run out, and the check changed nothing. *)
Lemma live_lookup_Some now key (s : gmap string Redis.ZKey) zk :
  Redis.live now key s !! key = Some zk ->
  s !! key = Some zk
  /\ Redis.live now key s = s
  /\ match Redis.expireAt zk with Some t => (t <? now) = false | None => True end.
Proof.
  unfold Redis.live. destruct (s !! key) as [zk0|] eqn:E; [|by rewrite E].
  destruct (Redis.expireAt zk0) as [t|] eqn:Et.
  - destruct (t <? now) eqn:Hlt.
    + by rewrite lookup_delete_eq.
    + rewrite E. intros [= <-]. by rewrite Et.
  - rewrite E. intros [= <-]. by rewrite Et.
Qed.

Lemma live_lookup_None now key (s : gmap string Redis.ZKey) :
  Redis.live now key s !! key = None ->
  Redis.live now key (Redis.live now key s) = Redis.live now key s.
Proof. intros H. unfold Redis.live at 1. by rewrite H. Qed.

Lemma live_stable now key (s : gmap string Redis.ZKey) zk :
  s !! key = Some zk ->
  match Redis.expireAt zk with Some t => (t <? now) = false | None => True end ->
  Redis.live now key s = s.
Proof.
  intros E Ht. unfold Redis.live. rewrite E.
  destruct (Redis.expireAt zk) as [t|]; [|done]. by rewrite Ht.
Qed.

Lemma live_absent now key (s : gmap string Redis.ZKey) :
  s !! key = None -> Redis.live now key s = s.
Proof. intros E. unfold Redis.live. by rewrite E. Qed.

(** The store after the eviction, spelled out. *)
Lemma zRemRangeByScore_live now key lo hi (s : gmap string Redis.ZKey) :
  Redis.live now key (Redis.zRemRangeByScore now key lo hi s)
  = Redis.zRemRangeByScore now key lo hi s.
Proof.
  unfold Redis.zRemRangeByScore.
  destruct (Redis.live now key s !! key) as [zk|] eqn:E.
  - apply live_lookup_Some in E as (_ & _ & Ht).
    case_bool_decide.
    + apply live_absent. by rewrite lookup_delete_eq.
    + eapply live_stable; [by rewrite lookup_insert_eq|done].
  - by apply live_lookup_None.
Qed.

Lemma zCard_after_eviction now t (s : gmap string Redis.ZKey) :
  Redis.zCard now (RateLimiter.rate_key t)
    (Redis.zRemRangeByScore now (RateLimiter.rate_key t) 0 (now - 60000) s)
  = Z.of_nat (size (window_after now t s)).
Proof.
  unfold Redis.zCard. rewrite zRemRangeByScore_live.
  unfold Redis.zRemRangeByScore, window_after.
  destruct (Redis.live now _ s !! _) as [zk|] eqn:E.
  - case_bool_decide as Hk.
    + rewrite lookup_delete_eq, Hk. by rewrite map_size_empty.
    + by rewrite lookup_insert_eq.
  - rewrite E. by rewrite map_size_empty.
Qed.

(** [checkRateLimit], command by command. *)
Lemma checkRateLimit_try_unfold fault now rnd t (s : gmap string Redis.ZKey) :
  RateLimiter.checkRateLimit_try fault now rnd t s =
  let key := RateLimiter.rate_key t in
  if fault Redis.ZREMRANGEBYSCORE then (None, s)
  else
    let s1 := Redis.zRemRangeByScore now key 0 (now - 60000) s in
    if fault Redis.ZCARD then (None, s1)
    else if 10 <=? Redis.zCard now key s1 then (Some false, s1)
    else if fault Redis.ZADD then (None, s1)
    else
      let s2 := Redis.zAdd now key now (RateLimiter.entry_value now rnd) s1 in
      if fault Redis.EXPIRE then (None, s2)
      else (Some true, Redis.expire now key 60 s2).
Proof.
  unfold RateLimiter.checkRateLimit_try, Redis.bind, Redis.call, Redis.ret.
  destruct (fault Redis.ZREMRANGEBYSCORE); [done|].
  destruct (fault Redis.ZCARD); [done|]. simpl.
  destruct (10 <=? _); [done|].
  destruct (fault Redis.ZADD); [done|].
  destruct (fault Redis.EXPIRE); done.
Qed.

Lemma zRemRangeByScore_lookup_ne now key lo hi (s : gmap string Redis.ZKey) k :
  k <> key -> Redis.zRemRangeByScore now key lo hi s !! k = s !! k.
Proof.
  intros Hne. unfold Redis.zRemRangeByScore.
  destruct (Redis.live now key s !! key) as [zk|].
  - case_bool_decide.
    + by rewrite lookup_delete_ne, live_lookup_ne.
    + by rewrite lookup_insert_ne, live_lookup_ne.
  - by apply live_lookup_ne.
Qed.

(** The tenant's key after the eviction: gone when nothing is left,
    otherwise it holds the window that is left and its time to live is
    the one it had. *)
Lemma zRemRangeByScore_lookup now t (s : gmap string Redis.ZKey) :
  let key := RateLimiter.rate_key t in
  let s1 := Redis.zRemRangeByScore now key 0 (now - 60000) s in
  (window_after now t s = ∅ /\ s1 !! key = None)
  \/ (exists zk,
        s !! key = Some zk
        /\ Redis.live now key s = s
        /\ window_after now t s
           = filter (fun kv => negb (Redis.in_range 0 (now - 60000) (snd kv)))
               (Redis.members zk)
        /\ window_after now t s <> ∅
        /\ s1 !! key = Some {| Redis.members := window_after now t s;
                               Redis.expireAt := Redis.expireAt zk |}
        /\ match Redis.expireAt zk with
           | Some d => (d <? now) = false
           | None => True
           end).
Proof.
  simpl. unfold Redis.zRemRangeByScore, window_after.
  destruct (Redis.live now _ s !! _) as [zk|] eqn:E.
  - case_bool_decide as Hk.
    + left. split; [done|]. by rewrite lookup_delete_eq.
    + right. exists zk. apply live_lookup_Some in E as (Hs & Hl & Ht).
      repeat split; try done. by rewrite lookup_insert_eq.
  - left. by rewrite E.
Qed.

(** The store an admitted call leaves: the tenant's key holds the window
    with the new entry and expires sixty seconds from now; the other keys
    are as they were. *)
Lemma admitted_store now rnd t (s : gmap string Redis.ZKey) :
  let key := RateLimiter.rate_key t in
  let s' := Redis.expire now key 60
              (Redis.zAdd now key now (RateLimiter.entry_value now rnd)
                 (Redis.zRemRangeByScore now key 0 (now - 60000) s)) in
  s' !! key
  = Some {| Redis.members := <[RateLimiter.entry_value now rnd := now]>
                               (window_after now t s);
            Redis.expireAt := Some (now + 60 * 1000) |}
  /\ forall k, k <> key -> s' !! k = s !! k.
Proof.
  simpl. set (key := RateLimiter.rate_key t).
  set (s1 := Redis.zRemRangeByScore now key 0 (now - 60000) s).
  assert (Redis.live now key s1 = s1) as Hl1 by apply zRemRangeByScore_live.
  assert (forall k, k <> key -> s1 !! k = s !! k) as Hne1
    by (intros; by apply zRemRangeByScore_lookup_ne).
  unfold Redis.zAdd. rewrite Hl1.
  destruct (zRemRangeByScore_lookup now t s)
    as [[Hw E]|(zk & _ & _ & _ & _ & E & Ht)]; fold key in E; fold s1 in E; rewrite E.
  - rewrite Hw. unfold Redis.expire.
    erewrite live_stable; [|by rewrite lookup_insert_eq|done].
    rewrite lookup_insert_eq. split.
    + rewrite lookup_insert_eq. simpl. by rewrite insert_empty.
    + intros k Hk. by rewrite !lookup_insert_ne, Hne1.
  - unfold Redis.expire.
    erewrite live_stable; [|by rewrite lookup_insert_eq|done].
    rewrite lookup_insert_eq. split.
    + by rewrite lookup_insert_eq.
    + intros k Hk. by rewrite !lookup_insert_ne, Hne1.
Qed.

Lemma in_range_false lo hi sc :
  Is_true (negb (Redis.in_range lo hi sc)) <-> ~ (lo <= sc <= hi).
Proof.
  rewrite Is_true_true. unfold Redis.in_range.
  rewrite negb_true_iff, andb_false_iff, !Z.leb_gt. lia.
Qed.

(** C7, counterexample.  Tenant A was admitted once at 40000 and nine
    times at 50000.  At 100000 the entry of 40000 is exactly 60000 old,
    not older: ten entries are not older than the window, yet the call
    evicts that entry too ([ZREMRANGEBYSCORE] includes its upper bound),
    counts nine and allows. *)
Lemma entry_at_window_edge_is_evicted :
  size (not_older_than_window 100000 "A" Scenario.full_window) = 10%nat
  /\ size (window_after 100000 "A" Scenario.full_window) = 9%nat
  /\ fst (RateLimiter.checkRateLimit Scenario.no_fault 100000 "1.0" "A"
            Scenario.full_window) = true.
Proof. vm_compute. repeat split. Qed.

(** C7, amended.  [checkRateLimit] first evicts the entries of the
    tenant's window whose score lies in [0, now - 60000], the bound
    included; it denies if and only if the two commands ran without an
    error and at least 10 entries are left; when fewer are left and no
    command fails it allows, and the key then holds the entries left plus
    one entry scored [now] (one more entry when its name is new) and
    expires 60 seconds from now, the other keys untouched; and whenever a
    command throws, the call returns allow. *)
Theorem checkRateLimit_gate
    (fault : Redis.Cmd -> bool) (now : Z) (rnd t : string)
    (s : gmap string Redis.ZKey) :
  (forall m sc,
     window_after now t s !! m = Some sc <->
     exists zk,
       Redis.live now (RateLimiter.rate_key t) s !! RateLimiter.rate_key t = Some zk
       /\ Redis.members zk !! m = Some sc
       /\ ~ (0 <= sc <= now - 60000))
  /\ (fst (RateLimiter.checkRateLimit fault now rnd t s) = false <->
      fault Redis.ZREMRANGEBYSCORE = false
      /\ fault Redis.ZCARD = false
      /\ 10 <= Z.of_nat (size (window_after now t s)))
  /\ ((forall c, fault c = false) ->
      Z.of_nat (size (window_after now t s)) < 10 ->
      fst (RateLimiter.checkRateLimit fault now rnd t s) = true
      /\ snd (RateLimiter.checkRateLimit fault now rnd t s) !! RateLimiter.rate_key t
         = Some {| Redis.members := <[RateLimiter.entry_value now rnd := now]>
                                      (window_after now t s);
                   Redis.expireAt := Some (now + 60 * 1000) |}
      /\ (forall k, k <> RateLimiter.rate_key t ->
            snd (RateLimiter.checkRateLimit fault now rnd t s) !! k = s !! k)
      /\ (window_after now t s !! RateLimiter.entry_value now rnd = None ->
          size (<[RateLimiter.entry_value now rnd := now]> (window_after now t s))
          = S (size (window_after now t s))))
  /\ (forall s',
        RateLimiter.checkRateLimit_try fault now rnd t s = (None, s') ->
        RateLimiter.checkRateLimit fault now rnd t s = (true, s')).
Proof.
  split; [|split; [|split]].
  - intros m sc. unfold window_after.
    destruct (Redis.live now _ s !! _) as [zk|].
    + rewrite map_lookup_filter_Some. simpl. rewrite in_range_false. split.
      * intros [H1 H2]. by exists zk.
      * intros (zk' & [= <-] & H1 & H2). done.
    + rewrite lookup_empty. split; [done|]. by intros (zk' & [=] & _).
  - unfold RateLimiter.checkRateLimit, Redis.try_or.
    rewrite checkRateLimit_try_unfold. simpl.
    rewrite zCard_after_eviction.
    destruct (fault Redis.ZREMRANGEBYSCORE); [simpl; split; [done|by intros [? _]]|].
    destruct (fault Redis.ZCARD); [simpl; split; [done|by intros (_ & ? & _)]|].
    destruct (Z.leb_spec 10 (Z.of_nat (size (window_after now t s)))) as [Hge|Hlt].
    + simpl. by split.
    + destruct (fault Redis.ZADD); [simpl; split; [done|intros (_ & _ & ?); lia]|].
      destruct (fault Redis.EXPIRE); simpl; (split; [done|intros (_ & _ & ?); lia]).
  - intros Hok Hlt.
    unfold RateLimiter.checkRateLimit, Redis.try_or.
    rewrite checkRateLimit_try_unfold. simpl.
    rewrite zCard_after_eviction, !Hok.
    destruct (Z.leb_spec 10 (Z.of_nat (size (window_after now t s)))); [lia|].
    simpl. destruct (admitted_store now rnd t s) as [Hkey Hother].
    repeat split; try done. intros Hnew. by apply map_size_insert_None.
  - intros s' Htry. unfold RateLimiter.checkRateLimit, Redis.try_or. by rewrite Htry.
Qed.

Lemma checkRateLimit_gate_witness :
  fst (RateLimiter.checkRateLimit Scenario.no_fault 40000 "0.0" "A" ∅) = true
  /\ snd (RateLimiter.checkRateLimit Scenario.no_fault 40000 "0.0" "A" ∅)
       !! RateLimiter.rate_key "A"
     = Some {| Redis.members := <[RateLimiter.entry_value 40000 "0.0" := 40000]>
                                  (window_after 40000 "A" ∅);
               Redis.expireAt := Some (40000 + 60 * 1000) |}
  /\ (forall k, k <> RateLimiter.rate_key "A" ->
        snd (RateLimiter.checkRateLimit Scenario.no_fault 40000 "0.0" "A" ∅) !! k
        = (∅ : gmap string Redis.ZKey) !! k)
  /\ (window_after 40000 "A" ∅ !! RateLimiter.entry_value 40000 "0.0" = None ->
      size (<[RateLimiter.entry_value 40000 "0.0" := 40000]> (window_after 40000 "A" ∅))
      = S (size (window_after 40000 "A" ∅))).
Proof.
  refine (proj1 (proj2 (proj2 (checkRateLimit_gate Scenario.no_fault 40000 "0.0" "A" ∅)))
            _ _).
  - intros c. reflexivity.
  - vm_compute. reflexivity.
Defined.

(** C10.  When [checkRateLimit] denies, the tenant's key was there and
    had not expired; afterwards it holds the entries it held minus those
    with a score in [0, now - 60000], at least ten of them, and has the
    time to live it had; no entry is new and every other key is as it
    was. *)
Theorem denied_call_only_evicts
    (fault : Redis.Cmd -> bool) (now : Z) (rnd t : string)
    (s s' : gmap string Redis.ZKey) :
  RateLimiter.checkRateLimit fault now rnd t s = (false, s') ->
  exists zk zk',
    s !! RateLimiter.rate_key t = Some zk
    /\ s' !! RateLimiter.rate_key t = Some zk'
    /\ Redis.expireAt zk' = Redis.expireAt zk
    /\ Redis.members zk'
       = filter (fun kv => negb (Redis.in_range 0 (now - 60000) (snd kv)))
           (Redis.members zk)
    /\ (forall m sc, Redis.members zk' !! m = Some sc ->
                     Redis.members zk !! m = Some sc)
    /\ (forall m sc, Redis.members zk !! m = Some sc ->
                     Redis.members zk' !! m = None -> 0 <= sc <= now - 60000)
    /\ (10 <= size (Redis.members zk'))%nat
    /\ (forall k, k <> RateLimiter.rate_key t -> s' !! k = s !! k).
Proof.
  unfold RateLimiter.checkRateLimit, Redis.try_or.
  rewrite checkRateLimit_try_unfold. simpl.
  rewrite zCard_after_eviction.
  destruct (fault Redis.ZREMRANGEBYSCORE); [discriminate|].
  destruct (fault Redis.ZCARD); [discriminate|].
  destruct (Z.leb_spec 10 (Z.of_nat (size (window_after now t s)))) as [Hge|Hlt].
  - intros [= <-].
    destruct (zRemRangeByScore_lookup now t s)
      as [[Hw _]|(zk & Hs & _ & Hw & _ & Hs1 & _)].
    { rewrite Hw, map_size_empty in Hge. lia. }
    simpl in Hs1. eexists zk, _. split; [done|]. split; [exact Hs1|]. simpl.
    split; [done|]. split; [done|]. rewrite Hw. split; [|split; [|split]].
    + intros m sc [H _]%map_lookup_filter_Some. done.
    + intros m sc Hm Hnone.
      apply map_lookup_filter_None in Hnone as [Hnone|Hnone]; [congruence|].
      specialize (Hnone sc Hm). simpl in Hnone.
      rewrite in_range_false in Hnone. lia.
    + rewrite <- Hw. lia.
    + intros k Hk. by apply zRemRangeByScore_lookup_ne.
  - destruct (fault Redis.ZADD); [discriminate|].
    destruct (fault Redis.EXPIRE); discriminate.
Qed.

Lemma denied_call_only_evicts_witness :
  exists zk zk',
    Scenario.full_window !! RateLimiter.rate_key "A" = Some zk
    /\ snd (RateLimiter.checkRateLimit Scenario.no_fault 60000 "1.0" "A"
              Scenario.full_window) !! RateLimiter.rate_key "A" = Some zk'
    /\ Redis.expireAt zk' = Redis.expireAt zk
    /\ Redis.members zk'
       = filter (fun kv => negb (Redis.in_range 0 (60000 - 60000) (snd kv)))
           (Redis.members zk)
    /\ (forall m sc, Redis.members zk' !! m = Some sc ->
                     Redis.members zk !! m = Some sc)
    /\ (forall m sc, Redis.members zk !! m = Some sc ->
                     Redis.members zk' !! m = None -> 0 <= sc <= 60000 - 60000)
    /\ (10 <= size (Redis.members zk'))%nat
    /\ (forall k, k <> RateLimiter.rate_key "A" ->
          snd (RateLimiter.checkRateLimit Scenario.no_fault 60000 "1.0" "A"
                 Scenario.full_window) !! k
          = Scenario.full_window !! k).
Proof.
  apply (denied_call_only_evicts Scenario.no_fault 60000 "1.0" "A"
           Scenario.full_window
           (snd (RateLimiter.checkRateLimit Scenario.no_fault 60000 "1.0" "A"
                   Scenario.full_window))).
  vm_compute. reflexivity.
Defined.

(** * The submission route *)





Lemma truthy_string_false f :
  Json.truthy_string f = false <-> f = None \/ f = Some EmptyString.
Proof.
  destruct f as [s|]; simpl.
  - rewrite negb_false_iff, String.eqb_eq. split; [intros ->; by right|].
    by intros [?|[= ->]].
  - split; [by left|done].
Qed.


(** Past the guard: with a non-empty tenant and a truthy payload the
    handler is its admission part. *)
Lemma post_jobs_admits body env w t p :
  Routes.tenantId body = Some t -> t <> EmptyString ->
  Routes.payload body = Some p -> Json.truthy p = true ->
  Routes.post_jobs body env w
  = Routes.admit_and_submit t p (Routes.idempotencyKey body) env w.
Proof.
  intros Ht Hne Hp Htr. unfold Routes.post_jobs. rewrite Ht, Hp. simpl.
  apply String.eqb_neq in Hne. by rewrite Hne, Htr.
Qed.

(** On a body whose identifiers are strings the handler is the one that
    takes them at their string type. *)
Lemma post_jobs_raw_of to_string string_filter body env w :
  Routes.post_jobs_raw to_string string_filter (raw_of body) env w = Routes.post_jobs body env w.
Proof.
  unfold Routes.post_jobs_raw, Routes.post_jobs, raw_of. simpl.
  destruct (Routes.tenantId body) as [t|]; simpl; [|done].
  destruct (negb (negb _) || _); [done|].
  destruct (Routes.payload body) as [p|]; [|done].
  by destruct (Routes.idempotencyKey body).
Qed.




(** A tenant that is an object the client reads as a condition passes the
    guard and both gates; with the idempotency key of a stored job the
    answer is that job, and nothing is written to the job table. *)
Example object_tenant_gets_the_stored_job :
  fst (Routes.post_jobs_raw Scenario2.to_string Scenario2.string_filter
         Scenario2.raw_object_tenant Scenario.second_env
         (Runtime.world Scenario.submitted))
  = Routes.Created "job-1" pending "trace-1"
  /\ Routes.db (snd (Routes.post_jobs_raw Scenario2.to_string Scenario2.string_filter
                       Scenario2.raw_object_tenant Scenario.second_env
                       (Runtime.world Scenario.submitted)))
     = Routes.db (Runtime.world Scenario.submitted).
Proof. vm_compute. split; reflexivity. Qed.

(** * Idempotent submission *)

(** C1, counterexample.  A job with key K exists.  The same request
    again is answered with that job (its id, its original trace id) and
    writes no row, but it went through the rate gate first: the tenant's
    window holds one entry before the request and two after it.  And when
    the window is full, the same request again is not answered with the
    job at all but with 429. *)
Lemma duplicate_request_passes_the_rate_gate :
  (exists j,
     jobs (Routes.db (Runtime.world Scenario.submitted)) = [j]
     /\ Job.id j = "job-1" /\ Job.traceId j = "trace-1"
     /\ Job.idempotencyKey j = Some "K")
  /\ fst (Routes.post_jobs Scenario.body_K Scenario.second_env
            (Runtime.world Scenario.submitted))
     = Routes.Created "job-1" pending "trace-1"
  /\ Routes.db (snd (Routes.post_jobs Scenario.body_K Scenario.second_env
                       (Runtime.world Scenario.submitted)))
     = Routes.db (Runtime.world Scenario.submitted)
  /\ Redis.zCard 1500 (RateLimiter.rate_key "A")
       (Routes.redis (Runtime.world Scenario.submitted)) = 1
  /\ Redis.zCard 1500 (RateLimiter.rate_key "A")
       (Routes.redis (snd (Routes.post_jobs Scenario.body_K Scenario.second_env
                             (Runtime.world Scenario.submitted)))) = 2
  /\ (exists j,
        JobService.getJobStatus "job-1" (Routes.db (Runtime.world Scenario.busy_tenant))
        = Some j
        /\ Job.idempotencyKey j = Some "K")
  /\ fst (Routes.post_jobs Scenario.body_K
            (Scenario.request_env 60000 "0.77" "trace-11" "job-11")
            (Runtime.world Scenario.busy_tenant))
     = Routes.TooManyRequests "Rate limit exceeded" "Maximum 10 jobs per minute allowed".
Proof.
  vm_compute. repeat split; eexists; repeat split.
Qed.

Lemma count_find (f : Job.t -> bool) (rows : list Job.t) :
  Prisma.count f rows <> 0%nat ->
  exists j, find f rows = Some j /\ j ∈ rows /\ f j = true.
Proof.
  unfold Prisma.count. intros Hc.
  destruct (find f rows) as [j|] eqn:E.
  - exists j. split; [done|]. by apply find_some_elem.
  - exfalso. apply Hc.
    assert (List.filter f rows = []) as ->; [|done].
    clear Hc. induction rows as [|a rest IH]; [done|]. simpl in *.
    destruct (f a); [discriminate|]. by apply IH.
Qed.

(** C1, amended.  When exactly one job carries the non-empty key [k],
    [submitJob] with that key returns this job as it is stored (its id
    and its own trace id, not the one drawn for the call) and writes
    nothing, so exactly one row carries [k] afterwards.  The route calls
    [submitJob] only after its two admission checks: the duplicate request
    runs the rate gate as any request does (an admitted one adds its
    entry to the tenant's window); it is answered 429 when the rate gate
    or the concurrency check denies, and with the existing job
    otherwise. *)
Theorem duplicate_submission
    (k : string) (db : Db) :
  k <> EmptyString ->
  Prisma.count (Prisma.has_key k) (jobs db) = 1%nat ->
  exists j,
    j ∈ jobs db /\ Job.idempotencyKey j = Some k
    /\ (forall tr new_id now t p,
          JobService.submitJob tr new_id now t p (Some k) db = Prisma.Ok (j, db))
    /\ (forall body env redis t p,
          Routes.tenantId body = Some t -> t <> EmptyString ->
          Routes.payload body = Some p -> Json.truthy p = true ->
          Routes.idempotencyKey body = Some k ->
          let gate := RateLimiter.checkRateLimit (Routes.redis_fault env)
                        (Routes.rate_now env) (Routes.rate_rnd env) t redis in
          Routes.post_jobs body env {| Routes.db := db; Routes.redis := redis |}
          = (if negb (fst gate)
             then Routes.TooManyRequests "Rate limit exceeded"
                    "Maximum 10 jobs per minute allowed"
             else if negb (RateLimiter.checkConcurrentLimit t
                             (JobService.getRunningJobCount t db))
             then Routes.TooManyRequests "Concurrent job limit exceeded"
                    "Maximum 5 concurrent jobs allowed"
             else Routes.Created (Job.id j) (Job.status j) (Job.traceId j),
             {| Routes.db := db; Routes.redis := snd gate |})).
Proof.
  intros Hk Hcount.
  destruct (count_find (Prisma.has_key k) (jobs db)) as (j & Hfind & Hj & Hkey); [lia|].
  exists j. split; [done|]. split; [by apply has_key_true|].
  assert (forall tr new_id now t p,
            JobService.submitJob tr new_id now t p (Some k) db = Prisma.Ok (j, db)) as Hsub.
  { intros. unfold JobService.submitJob. simpl.
    apply String.eqb_neq in Hk. rewrite Hk. simpl.
    unfold Prisma.findUnique_key. by rewrite Hfind. }
  split; [done|].
  intros body env redis t p Ht Hne Hp Htr Hbk.
  rewrite (post_jobs_admits body env _ t p Ht Hne Hp Htr), Hbk.
  unfold Routes.admit_and_submit. simpl.
  destruct (RateLimiter.checkRateLimit _ _ _ _ _) as [ok redis']. simpl.
  destruct (negb ok); [done|]. destruct (negb _); [done|].
  by rewrite Hsub.
Qed.

Lemma duplicate_submission_witness :
  exists j,
    j ∈ jobs (Routes.db (Runtime.world Scenario.submitted))
    /\ Job.idempotencyKey j = Some "K"
    /\ (forall tr new_id now t p,
          JobService.submitJob tr new_id now t p (Some "K")
            (Routes.db (Runtime.world Scenario.submitted))
          = Prisma.Ok (j, Routes.db (Runtime.world Scenario.submitted)))
    /\ (forall body env redis t p,
          Routes.tenantId body = Some t -> t <> EmptyString ->
          Routes.payload body = Some p -> Json.truthy p = true ->
          Routes.idempotencyKey body = Some "K" ->
          let gate := RateLimiter.checkRateLimit (Routes.redis_fault env)
                        (Routes.rate_now env) (Routes.rate_rnd env) t redis in
          Routes.post_jobs body env
            {| Routes.db := Routes.db (Runtime.world Scenario.submitted);
               Routes.redis := redis |}
          = (if negb (fst gate)
             then Routes.TooManyRequests "Rate limit exceeded"
                    "Maximum 10 jobs per minute allowed"
             else if negb (RateLimiter.checkConcurrentLimit t
                             (JobService.getRunningJobCount t
                                (Routes.db (Runtime.world Scenario.submitted))))
             then Routes.TooManyRequests "Concurrent job limit exceeded"
                    "Maximum 5 concurrent jobs allowed"
             else Routes.Created (Job.id j) (Job.status j) (Job.traceId j),
             {| Routes.db := Routes.db (Runtime.world Scenario.submitted);
                Routes.redis := snd gate |})).
Proof.
  apply (duplicate_submission "K" (Routes.db (Runtime.world Scenario.submitted))).
  - discriminate.
  - vm_compute. reflexivity.
Defined.

(** * Metrics *)

(** C8, counterexample.  The store holds one job of tenant A and one of
    tenant B with its dead letter, and none of a tenant with the empty
    id.  Asked for the empty tenant id, [getMetrics] reports both jobs and
    the dead letter: the test [tenantId ? ... : ...] takes the empty
    string for no tenant. *)
Lemma empty_tenant_metrics_are_not_scoped :
  Prisma.count (fun j => String.eqb (Job.tenantId j) EmptyString)
    (jobs Scenario.two_tenants) = 0%nat
  /\ Prisma.dlq_count_tenant EmptyString Scenario.two_tenants = 0%nat
  /\ jobs_total (JobService.getMetrics (Some EmptyString) Scenario.two_tenants) = 2%nat
  /\ dlq_size (JobService.getMetrics (Some EmptyString) Scenario.two_tenants) = 1%nat
  /\ jobs_by_status (JobService.getMetrics (Some EmptyString) Scenario.two_tenants)
       !! "pending" = Some 1%nat
  /\ jobs_by_status (JobService.getMetrics (Some EmptyString) Scenario.two_tenants)
       !! "failed" = Some 1%nat.
Proof. vm_compute. repeat split. Qed.

(** The second copy of [getMetrics] settles to a rejection whatever it is
    asked. *)
Example second_getMetrics_rejects (tenantId : option string) (db : Db) :
  exists reason, JobService2.getMetrics tenantId db = JobService2.Rejected reason.
Proof. by eexists. Qed.

(** For a non-empty tenant id the total, every one of the four buckets
    and the dead-letter count of services/jobService.ts are those of the
    tenant's jobs, a status without jobs being reported as 0. *)
Lemma getMetrics_scoped (t : string) (db : Db) :
  t <> EmptyString ->
  jobs_total (JobService.getMetrics (Some t) db)
  = Prisma.count (fun j => String.eqb (Job.tenantId j) t) (jobs db)
  /\ (forall st,
        jobs_by_status (JobService.getMetrics (Some t) db) !! status_name st
        = Some (Prisma.count
                  (fun j => String.eqb (Job.tenantId j) t
                            && JobStatus_eqb (Job.status j) st) (jobs db)))
  /\ dlq_size (JobService.getMetrics (Some t) db)
     = length (List.filter
                 (fun e => match Prisma.findUnique_id (DLQ.jobId e) (jobs db) with
                           | Some j => String.eqb (Job.tenantId j) t
                           | None => false
                           end) (dlq db)).
Proof.
  intros Hne. apply String.eqb_neq in Hne.
  unfold JobService.getMetrics, JobService.whereJob. simpl. rewrite Hne. simpl.
  split; [done|]. split; [|done].
  unfold Prisma.groupBy_status, all_statuses. simpl.
  set (c st := Prisma.count
                 (fun j => String.eqb (Job.tenantId j) t
                           && JobStatus_eqb (Job.status j) st) (jobs db)).
  fold (c pending) (c running) (c completed) (c failed).
  intros st. fold (c st).
  destruct (Nat.eqb_spec (c pending) 0) as [E1|E1];
    destruct (Nat.eqb_spec (c running) 0) as [E2|E2];
    destruct (Nat.eqb_spec (c completed) 0) as [E3|E3];
    destruct (Nat.eqb_spec (c failed) 0) as [E4|E4];
    destruct st; simpl;
    repeat (rewrite lookup_insert_eq || (rewrite lookup_insert_ne by discriminate));
    congruence.
Qed.

(** C8, amended.  For every store and every non-empty tenant id,
    [getMetrics(tenantId)] of services/jobService.ts returns the number of
    the tenant's jobs as [jobs_total], under each of the four status
    labels the number of the tenant's jobs of that status (0 when there
    are none), and as [dlq_size] the number of dead-letter entries whose
    parent job belongs to the tenant. *)
Theorem getMetrics_scoped_to_tenant (t : string) (db : Db) :
  t <> EmptyString ->
  jobs_total (JobService.getMetrics (Some t) db)
  = Prisma.count (fun j => String.eqb (Job.tenantId j) t) (jobs db)
  /\ (forall st,
        jobs_by_status (JobService.getMetrics (Some t) db) !! status_name st
        = Some (Prisma.count
                  (fun j => String.eqb (Job.tenantId j) t
                            && JobStatus_eqb (Job.status j) st) (jobs db)))
  /\ dlq_size (JobService.getMetrics (Some t) db)
     = length (List.filter
                 (fun e => match Prisma.findUnique_id (DLQ.jobId e) (jobs db) with
                           | Some j => String.eqb (Job.tenantId j) t
                           | None => false
                           end) (dlq db)).
Proof. intros Hne. exact (getMetrics_scoped t db Hne). Qed.

Lemma getMetrics_scoped_to_tenant_witness :
  jobs_total (JobService.getMetrics (Some "B") Scenario.two_tenants)
  = Prisma.count (fun j => String.eqb (Job.tenantId j) "B") (jobs Scenario.two_tenants)
  /\ (forall st,
        jobs_by_status (JobService.getMetrics (Some "B") Scenario.two_tenants)
          !! status_name st
        = Some (Prisma.count
                  (fun j => String.eqb (Job.tenantId j) "B"
                            && JobStatus_eqb (Job.status j) st)
                  (jobs Scenario.two_tenants)))
  /\ dlq_size (JobService.getMetrics (Some "B") Scenario.two_tenants)
     = length (List.filter
                 (fun e => match Prisma.findUnique_id (DLQ.jobId e)
                                   (jobs Scenario.two_tenants) with
                           | Some j => String.eqb (Job.tenantId j) "B"
                           | None => false
                           end) (dlq Scenario.two_tenants)).
Proof. apply (getMetrics_scoped_to_tenant "B" Scenario.two_tenants). discriminate. Defined.

(** * Further properties of the worker *)

(** X1.  For a non-negative [retryCount] the backoff lies between 30
    seconds and 10 minutes, doubles from 30 seconds for counts 0 to 4, is
    the 10-minute cap from count 5 on, and never decreases when the count
    grows. *)
Theorem backoffMs_bounds (rc : Z) :
  0 <= rc ->
  30000 <= WorkerService.backoffMs rc <= 600000
  /\ (rc <= 4 -> WorkerService.backoffMs rc = 30000 * 2 ^ rc)
  /\ (5 <= rc -> WorkerService.backoffMs rc = 600000)
  /\ (forall rc', rc <= rc' ->
        WorkerService.backoffMs rc <= WorkerService.backoffMs rc').
Proof.
  intros Hrc. unfold WorkerService.backoffMs.
  assert (1 <= 2 ^ rc) as Hpos by (apply (Z.pow_le_mono_r 2 0 rc); lia).
  split; [lia|]. split; [|split].
  - intros Hle. assert (2 ^ rc <= 2 ^ 4) by (apply Z.pow_le_mono_r; lia).
    change (2 ^ 4) with 16 in *. lia.
  - intros Hge. assert (2 ^ 5 <= 2 ^ rc) by (apply Z.pow_le_mono_r; lia).
    change (2 ^ 5) with 32 in *. lia.
  - intros rc' Hle. assert (2 ^ rc <= 2 ^ rc') by (apply Z.pow_le_mono_r; lia).
    lia.
Qed.

Lemma backoffMs_bounds_witness :
  30000 <= WorkerService.backoffMs 2 <= 600000
  /\ (2 <= 4 -> WorkerService.backoffMs 2 = 30000 * 2 ^ 2)
  /\ (5 <= 2 -> WorkerService.backoffMs 2 = 600000)
  /\ (forall rc', 2 <= rc' ->
        WorkerService.backoffMs 2 <= WorkerService.backoffMs rc').
Proof. apply (backoffMs_bounds 2). lia. Defined.

Lemma replaced_pkey db db' j u :
  pkey_ok db -> replaced (jobs db) j u (jobs db') -> Job.id u = Job.id j ->
  pkey_ok db'.
Proof.
  unfold pkey_ok. intros Hpk Hrep Hid. by erewrite replaced_ids.
Qed.

(** X2.  A row that is [running] with a lease until [t] is eligible for
    the lease query exactly from the first millisecond after [t]; so a
    lease transaction that finds the row so, whoever runs it, returns the
    row's job only when its query clock is past [t].  (This is a property
    of one transaction on the rows as it finds them.) *)
Theorem running_row_is_leased_only_after_expiry
    (w' : string) (clk' : WorkerService.LeaseClock) (db : Db) (u : Job.t) (t : Z) :
  pkey_ok db ->
  u ∈ jobs db ->
  Job.status u = running ->
  Job.leaseExpiresAt u = Some t ->
  (forall now, eligible now u <-> t < now)
  /\ forall u' db',
       WorkerService.acquireLease w' clk' db = (Some u', db') ->
       Job.id u' = Job.id u ->
       t < WorkerService.at_query clk'.
Proof.
  intros Hpk Hin Hst Hlease.
  assert (forall now, eligible now u <-> t < now) as Hel.
  { intros now. unfold eligible. rewrite Hst, Hlease. split.
    - intros [?|[_ (t' & [= <-] & ?)]]; [discriminate|done].
    - intros ?. right. split; [done|]. by eexists. }
  split; [done|].
  intros u' db' Hacq Hid.
  pose proof (acquireLease_cases w' clk' db Hpk) as H. rewrite Hacq in H.
  destruct H as (j & Hj & Helj & _ & Hu' & _).
  assert (j = u) as ->.
  { apply (pkey_unique (jobs db)); [done|done|done|]. rewrite <- Hid, Hu'. done. }
  by apply Hel.
Qed.

Lemma running_row_is_leased_only_after_expiry_witness :
  (forall now, eligible now Scenario.leased_job <-> 302000 < now)
  /\ forall u' db',
       WorkerService.acquireLease "worker-2" (Scenario.clock 400000)
         (Routes.db (Runtime.world Scenario.leased)) = (Some u', db') ->
       Job.id u' = Job.id Scenario.leased_job ->
       302000 < WorkerService.at_query (Scenario.clock 400000).
Proof.
  apply (running_row_is_leased_only_after_expiry "worker-2" (Scenario.clock 400000)
           (Routes.db (Runtime.world Scenario.leased)) Scenario.leased_job 302000).
  - unfold pkey_ok. vm_compute. apply NoDup_singleton.
  - vm_compute. apply list_elem_of_here.
  - reflexivity.
  - reflexivity.
Defined.

(** The lease does not exclude other workers for its whole length: a
    retry asks neither for the lease holder nor for the status.  Worker-2
    holds the job with a lease until 700000; the late retry of worker-1
    at 401000 puts the row back to [pending], and worker-3 leases the job
    at 402000, while worker-2 is still at work on it. *)
Example late_retry_releases_a_live_lease :
  Runtime.reachable Scenario2.leased_during_lease
  /\ exists r j2 j3,
       jobs (Routes.db (Runtime.world Scenario2.taken_over)) = [r]
       /\ Job.workerId r = Some "worker-2"
       /\ Job.leaseExpiresAt r = Some 700000
       /\ Runtime.held Scenario2.leased_during_lease !! "worker-2" = Some j2
       /\ Runtime.held Scenario2.leased_during_lease !! "worker-3" = Some j3
       /\ Job.id j2 = Job.id r /\ Job.id j3 = Job.id r
       /\ Job.startedAt j3 = Some 402000.
Proof.
  split.
  - unfold Scenario2.leased_during_lease. apply reachable_run.
    apply reachable_run, Runtime.reachable_init.
  - vm_compute. eexists _, _, _. repeat split.
Qed.

(** X3.  Lease, then a handler that returns: the acknowledgement that
    follows a lease commits; it rewrites the leased row to [completed]
    with [completed_at] the clock reading, keeps [retry_count] and
    [started_at], and writes no dead letter. *)
Theorem lease_then_acknowledge
    (w : string) (clk : WorkerService.LeaseClock) (env : WorkerService.ProcessEnv)
    (db db1 : Db) (u : Job.t) :
  pkey_ok db ->
  WorkerService.acquireLease w clk db = (Some u, db1) ->
  exists c db2,
    WorkerService.processJob u Returned env db1 = Prisma.Ok db2
    /\ replaced (jobs db1) u c (jobs db2)
    /\ Job.status c = completed
    /\ Job.completedAt c = Some (WorkerService.ack_now env)
    /\ Job.retryCount c = Job.retryCount u
    /\ Job.startedAt c = Job.startedAt u
    /\ Job.errorMessage c = Job.errorMessage u
    /\ same_identity u c
    /\ dlq db2 = dlq db.
Proof.
  intros Hpk Hacq.
  pose proof (acquireLease_cases w clk db Hpk) as H. rewrite Hacq in H.
  destruct H as (j & Hj & _ & _ & Hu & Hrep & Hd).
  assert (pkey_ok db1) as Hpk1.
  { eapply replaced_pkey; [done|done|]. by rewrite Hu. }
  destruct (acknowledge_present u env db1 u Hpk1) as (db2 & Hrun & Hrep2 & Hd2);
    [by apply (replaced_mem _ _ _ _ Hrep)|done|].
  exists (WorkerService.ack_data (WorkerService.ack_now env) u), db2.
  repeat split; try done. congruence.
Qed.

Lemma lease_then_acknowledge_witness :
  exists c db2,
    WorkerService.processJob Scenario.leased_job Returned
      (Scenario.process_env 5000 "dlq-1") (Routes.db (Runtime.world Scenario.leased))
    = Prisma.Ok db2
    /\ replaced (jobs (Routes.db (Runtime.world Scenario.leased)))
         Scenario.leased_job c (jobs db2)
    /\ Job.status c = completed
    /\ Job.completedAt c
       = Some (WorkerService.ack_now (Scenario.process_env 5000 "dlq-1"))
    /\ Job.retryCount c = Job.retryCount Scenario.leased_job
    /\ Job.startedAt c = Job.startedAt Scenario.leased_job
    /\ Job.errorMessage c = Job.errorMessage Scenario.leased_job
    /\ same_identity Scenario.leased_job c
    /\ dlq db2 = dlq (Routes.db (Runtime.world Scenario.submitted)).
Proof.
  apply (lease_then_acknowledge "worker-1" (Scenario.clock 2000)
           (Scenario.process_env 5000 "dlq-1")
           (Routes.db (Runtime.world Scenario.submitted))
           (Routes.db (Runtime.world Scenario.leased)) Scenario.leased_job).
  - unfold pkey_ok. vm_compute. apply NoDup_singleton.
  - vm_compute. reflexivity.
Defined.

(** * Further invariants of the running system *)

Lemma job_create_key_fresh new_id now t p k tr db job db' k0 :
  Prisma.job_create new_id now t p k tr db = Prisma.Ok (job, db') ->
  k = Some k0 ->
  forall r, r ∈ jobs db -> Job.idempotencyKey r <> Some k0.
Proof.
  unfold Prisma.job_create. intros H ->.
  destruct (existsb _ (jobs db)); [discriminate|].
  destruct (existsb (Prisma.has_key k0) (jobs db)) eqn:E; [discriminate|].
  intros r Hr Hkey. apply (existsb_false_forall _ _ E) in Hr.
  apply has_key_true in Hkey. congruence.
Qed.

(** What a request does to the two stores: the rate gate may have run,
    and at most one new pending row is appended. *)
Lemma post_jobs_effect body env w :
  (Routes.redis (snd (Routes.post_jobs body env w)) = Routes.redis w
   \/ exists t,
        Routes.redis (snd (Routes.post_jobs body env w))
        = snd (RateLimiter.checkRateLimit (Routes.redis_fault env)
                 (Routes.rate_now env) (Routes.rate_rnd env) t (Routes.redis w)))
  /\ (Routes.db (snd (Routes.post_jobs body env w)) = Routes.db w
      \/ exists t p k,
           let job := Prisma.new_job (Routes.new_id env) (Routes.db_now env)
                        t p k (Routes.trace_id env) in
           jobs (Routes.db (snd (Routes.post_jobs body env w)))
           = jobs (Routes.db w) ++ [job]
           /\ dlq (Routes.db (snd (Routes.post_jobs body env w))) = dlq (Routes.db w)
           /\ (forall r, r ∈ jobs (Routes.db w) -> Job.id r <> Routes.new_id env)
           /\ (forall k0, k = Some k0 ->
                 forall r, r ∈ jobs (Routes.db w) -> Job.idempotencyKey r <> Some k0)).
Proof.
  unfold Routes.post_jobs.
  destruct (_ || _); [split; by left|].
  destruct (Routes.tenantId body) as [t|]; [|split; by left].
  destruct (Routes.payload body) as [p|]; [|split; by left].
  unfold Routes.admit_and_submit.
  destruct (RateLimiter.checkRateLimit _ _ _ _ _) as [ok redis'] eqn:Eg.
  assert (redis' = snd (RateLimiter.checkRateLimit (Routes.redis_fault env)
                          (Routes.rate_now env) (Routes.rate_rnd env) t (Routes.redis w)))
    as Hr by by rewrite Eg.
  destruct (negb ok); [split; [right; by exists t|by left]|].
  destruct (negb _); [split; [right; by exists t|by left]|].
  destruct (JobService.submitJob _ _ _ _ _ _ _) as [[job db']|e] eqn:E;
    (split; [right; by exists t|]); [|by left].
  simpl. unfold JobService.submitJob in E.
  destruct (match Routes.idempotencyKey body with Some _ => _ | None => _ end)
    as [existing|].
  - injection E as <- <-. by left.
  - right. exists t, p, (Routes.idempotencyKey body).
    pose proof (job_create_Ok _ _ _ _ _ _ _ _ _ E) as (-> & Hjobs & Hd & Hfresh).
    simpl. repeat split; try done.
    intros k0 Hk0. by eapply job_create_key_fresh.
Qed.

Lemma replaced_keys rows j u rows' :
  replaced rows j u rows' -> Job.idempotencyKey u = Job.idempotencyKey j ->
  omap Job.idempotencyKey rows' = omap Job.idempotencyKey rows.
Proof.
  intros (l1 & l2 & -> & ->) Hk. rewrite !omap_app. simpl. by rewrite Hk.
Qed.

Lemma elem_of_omap_key (rows : list Job.t) k :
  k ∈ omap Job.idempotencyKey rows ->
  exists r, r ∈ rows /\ Job.idempotencyKey r = Some k.
Proof. intros (r & Hr & Hk)%list_elem_of_omap. by exists r. Qed.

Lemma live_bounded now key (s : gmap string Redis.ZKey) :
  window_bounded s -> window_bounded (Redis.live now key s).
Proof.
  intros Hb k zk Hk. apply (Hb k zk).
  destruct (decide (k = key)) as [->|Hne].
  - by apply live_lookup_Some in Hk as (? & _).
  - by rewrite live_lookup_ne in Hk.
Qed.

Lemma zRemRangeByScore_bounded now key lo hi (s : gmap string Redis.ZKey) :
  window_bounded s -> window_bounded (Redis.zRemRangeByScore now key lo hi s).
Proof.
  intros Hb%(live_bounded now key). unfold Redis.zRemRangeByScore.
  destruct (Redis.live now key s !! key) as [zk|] eqn:E; [|done].
  specialize (Hb key zk E) as Hzk.
  case_bool_decide as Hk.
  - intros k zk' Hk'. apply lookup_delete_Some in Hk' as [_ Hk']. by apply (Hb k).
  - intros k zk' Hk'. apply lookup_insert_Some in Hk' as [[<- <-]|[_ Hk']];
      [|by apply (Hb k)].
    simpl. split.
    + apply map_size_non_empty_iff in Hk. lia.
    + etrans; [apply map_size_filter|lia].
Qed.

Lemma zAdd_bounded now key score value (s : gmap string Redis.ZKey) :
  window_bounded s -> Redis.zCard now key s < 10 ->
  window_bounded (Redis.zAdd now key score value s).
Proof.
  intros Hb%(live_bounded now key) Hc. unfold Redis.zAdd, Redis.zCard in *.
  destruct (Redis.live now key s !! key) as [zk|] eqn:E.
  - specialize (Hb key zk E) as Hzk.
    intros k zk' Hk'. apply lookup_insert_Some in Hk' as [[<- <-]|[_ Hk']];
      [|by apply (Hb k)].
    simpl. rewrite map_size_insert. destruct (Redis.members zk !! value); simpl; lia.
  - intros k zk' Hk'. apply lookup_insert_Some in Hk' as [[<- <-]|[_ Hk']];
      [|by apply (Hb k)].
    simpl. rewrite map_size_singleton. lia.
Qed.

Lemma expire_bounded now key seconds (s : gmap string Redis.ZKey) :
  window_bounded s -> window_bounded (Redis.expire now key seconds s).
Proof.
  intros Hb%(live_bounded now key). unfold Redis.expire.
  destruct (Redis.live now key s !! key) as [zk|] eqn:E; [|done].
  intros k zk' Hk'. apply lookup_insert_Some in Hk' as [[<- <-]|[_ Hk']];
    [|by apply (Hb k)].
  simpl. by apply (Hb key).
Qed.

(** Whatever the client's faults, a call of the rate gate keeps every
    sorted set between 1 and 10 entries. *)
Lemma checkRateLimit_bounded fault now rnd t (s : gmap string Redis.ZKey) :
  window_bounded s ->
  window_bounded (snd (RateLimiter.checkRateLimit fault now rnd t s)).
Proof.
  intros Hb. unfold RateLimiter.checkRateLimit, Redis.try_or.
  rewrite checkRateLimit_try_unfold. simpl.
  pose proof (zRemRangeByScore_bounded now (RateLimiter.rate_key t) 0 (now - 60000) s Hb)
    as Hb1.
  destruct (fault Redis.ZREMRANGEBYSCORE); [done|].
  destruct (fault Redis.ZCARD); [done|].
  destruct (Z.leb_spec 10 (Redis.zCard now (RateLimiter.rate_key t)
              (Redis.zRemRangeByScore now (RateLimiter.rate_key t) 0 (now - 60000) s)))
    as [Hge|Hlt]; [done|].
  destruct (fault Redis.ZADD); [done|].
  pose proof (zAdd_bounded now (RateLimiter.rate_key t) now
                (RateLimiter.entry_value now rnd) _ Hb1 Hlt) as Hb2.
  destruct (fault Redis.EXPIRE); [done|].
  simpl. by apply expire_bounded.
Qed.

Lemma status_ok_dlq_grows db db' j :
  (forall e, e ∈ dlq db -> e ∈ dlq db') -> status_ok db j -> status_ok db' j.
Proof.
  intros Hsub. unfold status_ok. destruct (Job.status j); try done.
  intros [Herr (e & He & Hid)]. split; [done|]. exists e. split; [by apply Hsub|done].
Qed.

Lemma invariant2_init : invariant2 Runtime.init.
Proof.
  split; simpl.
  - constructor.
  - constructor.
  - intros j Hj. by apply elem_of_nil in Hj.
  - intros k zk Hk. by rewrite lookup_empty in Hk.
Qed.

Lemma invariant2_post body env s :
  invariant2 s -> invariant2 (Runtime.step (Runtime.Post body env) s).
Proof.
  intros [Huk Hdl Hst Hwin]. simpl.
  destruct (post_jobs_effect body env (Runtime.world s)) as [Hredis Hdb].
  assert (window_bounded
            (Routes.redis (snd (Routes.post_jobs body env (Runtime.world s))))) as Hwin'.
  { destruct Hredis as [->|[t ->]]; [done|by apply checkRateLimit_bounded]. }
  destruct Hdb as [Heq|(t & p & k & Hjobs & Hd & _ & Hkfresh)].
  - split; simpl; [by rewrite Heq..|done].
  - simpl in Hjobs, Hkfresh. split; simpl; [| |  |done].
    + unfold ukey_ok in *. rewrite Hjobs, omap_app. simpl.
      destruct k as [k0|]; simpl; [|by rewrite app_nil_r].
      apply NoDup_app. split; [done|]. split; [|apply NoDup_singleton].
      intros x Hx Hx'. apply list_elem_of_singleton in Hx' as ->.
      apply elem_of_omap_key in Hx as (r & Hr & Hkey).
      by apply (Hkfresh k0 eq_refl r Hr).
    + unfold dlq_ok in *. by rewrite Hd.
    + intros j Hj. rewrite Hjobs in Hj.
      apply elem_of_app in Hj as [Hj|Hj].
      * eapply status_ok_dlq_grows; [|by apply Hst]. intros e He. by rewrite Hd.
      * apply list_elem_of_singleton in Hj as ->. by unfold status_ok.
Qed.

Lemma invariant2_poll w clk s :
  invariant s -> invariant2 s ->
  invariant2 (Runtime.step (Runtime.Poll w clk) s).
Proof.
  intros [Hpk _ _ _] Hinv. pose proof Hinv as [Huk Hdl Hst Hwin]. simpl.
  destruct (Runtime.held s !! w) as [?|] eqn:Hw; [done|].
  pose proof (acquireLease_cases w clk (Routes.db (Runtime.world s)) Hpk) as H.
  destruct (WorkerService.acquireLease w clk (Routes.db (Runtime.world s)))
    as [[u|] db']; [|done].
  destruct H as (j & Hin & Hel & _ & Hu & Hrep & Hd).
  split; simpl; [| | |done].
  - unfold ukey_ok in *. erewrite replaced_keys; [done|exact Hrep|]. by rewrite Hu.
  - unfold dlq_ok in *. by rewrite Hd.
  - intros r' Hr'. destruct (replaced_backward _ _ _ _ _ Hrep Hr') as [->|Hr].
    + rewrite Hu. unfold status_ok. simpl.
      split; [done|]. split; [done|].
      destruct Hel as [->|[Hrun _]]; [done|]. rewrite Hrun. simpl.
      specialize (Hst j Hin). unfold status_ok in Hst. rewrite Hrun in Hst.
      by destruct Hst as (_ & _ & ?).
    + eapply status_ok_dlq_grows; [|by apply Hst]. intros e He. by rewrite Hd.
Qed.

Lemma invariant2_finish w work env s :
  invariant2 s -> invariant2 (Runtime.step (Runtime.Finish w work env) s).
Proof.
  intros Hinv. pose proof Hinv as [Huk Hdl Hst Hwin]. simpl.
  destruct (Runtime.held s !! w) as [job|] eqn:Hw; [|done].
  destruct (WorkerService.processJob job work env (Routes.db (Runtime.world s)))
    as [db'|e] eqn:E; [|by split].
  pose proof (processJob_Ok _ _ _ _ _ E) as Hout.
  destruct (outcome_replaced _ _ _ _ _ Hout)
    as (r & u & Hr & Hidr & Hrep & Hid & _ & _).
  assert (forall e, e ∈ dlq (Routes.db (Runtime.world s)) -> e ∈ dlq db') as Hgrow.
  { intros e0 He0.
    inversion Hout as [? ? ? ? Hd|? ? ? ? ? ? Hd|? ? ? ? ? ? Hd ?]; subst;
      rewrite Hd; [done|done|]. apply elem_of_app. by left. }
  split; simpl; [| | |done].
  - unfold ukey_ok in *. erewrite replaced_keys; [done|exact Hrep|].
    by destruct Hid as (_&_&_&?&_).
  - unfold dlq_ok in *.
    inversion Hout as [? ? ? ? Hd|? ? ? ? ? ? Hd|? ? ? ? ? ? Hd Hfresh]; subst;
      rewrite Hd; [done|done|].
    rewrite fmap_app. apply NoDup_app. split; [done|]. split; [|apply NoDup_singleton].
    intros x (e0 & -> & He0)%list_elem_of_fmap Hx.
    apply list_elem_of_singleton in Hx. simpl in Hx. by apply (Hfresh e0 He0).
  - intros r' Hr'.
    inversion Hout as [r0 Hr0 Hid0 Hrep0 Hd|msg r0 Hlt Hr0 Hid0 Hrep0 Hd
                      |msg r0 Hge Hr0 Hid0 Hrep0 Hd Hfresh]; subst;
      (destruct (replaced_backward _ _ _ _ _ Hrep0 Hr') as [->|Hold];
       [|by eapply status_ok_dlq_grows; [|apply Hst]]); unfold status_ok; simpl.
    + done.
    + done.
    + split; [done|]. eexists. split; [rewrite Hd; apply elem_of_app; right; by left|].
      simpl. done.
Qed.

Lemma reachable_invariant2 s : Runtime.reachable s -> invariant2 s.
Proof.
  induction 1 as [|e s Hs IH]; [apply invariant2_init|].
  destruct e; [by apply invariant2_post| |by apply invariant2_finish].
  apply invariant2_poll; [by apply reachable_invariant|done].
Qed.

(** X4.  In every state the system reaches: a [pending] job has neither a
    worker nor a lease; a [running] job has a worker, a lease and a
    [started_at]; a [completed] job has a [completed_at]; a [failed] job
    has an error message and a dead-letter entry. *)
Theorem status_columns_invariant (s : Runtime.State) (j : Job.t) :
  Runtime.reachable s ->
  j ∈ jobs (Routes.db (Runtime.world s)) ->
  (Job.status j = pending ->
   Job.workerId j = None /\ Job.leaseExpiresAt j = None)
  /\ (Job.status j = running ->
      is_Some (Job.workerId j) /\ is_Some (Job.leaseExpiresAt j)
      /\ is_Some (Job.startedAt j))
  /\ (Job.status j = completed -> is_Some (Job.completedAt j))
  /\ (Job.status j = failed ->
      is_Some (Job.errorMessage j)
      /\ exists e, e ∈ dlq (Routes.db (Runtime.world s)) /\ DLQ.jobId e = Job.id j).
Proof.
  intros Hreach Hj.
  pose proof (inv2_status s (reachable_invariant2 s Hreach) j Hj) as H.
  unfold status_ok in H.
  destruct (Job.status j); repeat split; intros; try discriminate; tauto.
Qed.

Lemma status_columns_invariant_witness :
  (Job.status Scenario.leased_job = pending ->
   Job.workerId Scenario.leased_job = None
   /\ Job.leaseExpiresAt Scenario.leased_job = None)
  /\ (Job.status Scenario.leased_job = running ->
      is_Some (Job.workerId Scenario.leased_job)
      /\ is_Some (Job.leaseExpiresAt Scenario.leased_job)
      /\ is_Some (Job.startedAt Scenario.leased_job))
  /\ (Job.status Scenario.leased_job = completed ->
      is_Some (Job.completedAt Scenario.leased_job))
  /\ (Job.status Scenario.leased_job = failed ->
      is_Some (Job.errorMessage Scenario.leased_job)
      /\ exists e, e ∈ dlq (Routes.db (Runtime.world Scenario.leased))
                   /\ DLQ.jobId e = Job.id Scenario.leased_job).
Proof.
  apply (status_columns_invariant Scenario.leased Scenario.leased_job).
  - apply reachable_run, Runtime.reachable_init.
  - vm_compute. apply list_elem_of_here.
Defined.





(** X6.  One call of [checkRateLimit] whose four commands reach the
    store with no other command in between: if every sorted set of the
    store holds between 1 and 10 entries before the call, so it is after
    it, whichever of the commands failed; and after a call that ran
    without a failure the tenant's set counts at most 10. *)
Theorem checkRateLimit_keeps_window_bounded
    (fault : Redis.Cmd -> bool) (now : Z) (rnd t : string)
    (s : gmap string Redis.ZKey) :
  window_bounded s ->
  window_bounded (snd (RateLimiter.checkRateLimit fault now rnd t s))
  /\ 0 <= Redis.zCard now (RateLimiter.rate_key t)
            (snd (RateLimiter.checkRateLimit fault now rnd t s)) <= 10.
Proof.
  intros Hb. pose proof (checkRateLimit_bounded fault now rnd t s Hb) as Hb'.
  split; [done|].
  pose proof (live_bounded now (RateLimiter.rate_key t) _ Hb') as Hl.
  unfold Redis.zCard.
  destruct (Redis.live now _ _ !! _) as [zk|] eqn:E; [|lia].
  apply Hl in E. lia.
Qed.

Lemma checkRateLimit_keeps_window_bounded_witness :
  window_bounded
    (snd (RateLimiter.checkRateLimit Scenario.no_fault 51000 "0.a" "A"
            Scenario2.nine_entries))
  /\ 0 <= Redis.zCard 51000 (RateLimiter.rate_key "A")
            (snd (RateLimiter.checkRateLimit Scenario.no_fault 51000 "0.a" "A"
                    Scenario2.nine_entries)) <= 10.
Proof.
  apply (checkRateLimit_keeps_window_bounded Scenario.no_fault 51000 "0.a" "A"
           Scenario2.nine_entries).
  unfold Scenario2.nine_entries, Scenario.nine_rnds. cbn [fold_left].
  repeat apply checkRateLimit_bounded.
  intros k zk Hk. by rewrite lookup_empty in Hk.
Defined.

(** The four commands of a call are sent one by one, and the commands of
    two calls can reach the store in turn.  With nine entries in the
    window, two calls that both count before either inserts both read 9
    and both insert: the set then holds 11 entries. *)
Example interleaved_calls_exceed_ten :
  Redis.zCard 51000 (RateLimiter.rate_key "A") Scenario2.both_evicted = 9
  /\ Redis.zCard 51001 (RateLimiter.rate_key "A") Scenario2.both_evicted = 9
  /\ Redis.zCard 51002 (RateLimiter.rate_key "A") Scenario2.both_added = 11
  /\ ~ window_bounded Scenario2.both_added.
Proof.
  split; [by vm_compute|]. split; [by vm_compute|]. split; [by vm_compute|].
  intros Hb.
  assert (0 <= Redis.zCard 51002 (RateLimiter.rate_key "A") Scenario2.both_added <= 10)
    as Hc.
  { pose proof (live_bounded 51002 (RateLimiter.rate_key "A") _ Hb) as Hl.
    unfold Redis.zCard.
    destruct (Redis.live 51002 _ _ !! _) as [zk|] eqn:E; [|lia].
    apply Hl in E. lia. }
  assert (Redis.zCard 51002 (RateLimiter.rate_key "A") Scenario2.both_added = 11)
    as Heq by (by vm_compute).
  rewrite Heq in Hc. lia.
Qed.

(** * Nothing is deleted *)

Lemma extends_refl {A : Type} (l : list A) : extends l l.
Proof. exists []. by rewrite app_nil_r. Qed.

Lemma extends_trans {A : Type} (a b c : list A) :
  extends a b -> extends b c -> extends a c.
Proof. intros [m1 ->] [m2 ->]. exists (m1 ++ m2). by rewrite app_assoc. Qed.

Lemma rows_kept_refl db : rows_kept db db.
Proof. intros r Hr. exists r. split; [done|apply same_identity_refl]. Qed.

Lemma rows_kept_trans a b c : rows_kept a b -> rows_kept b c -> rows_kept a c.
Proof.
  intros Hab Hbc r Hr. destruct (Hab r Hr) as (r1 & Hr1 & H1).
  destruct (Hbc r1 Hr1) as (r2 & Hr2 & H2). exists r2. split; [done|].
  by eapply same_identity_trans.
Qed.

(** One step keeps every job (its id in place, its identity columns) and
    every dead-letter entry. *)
Lemma step_keeps_rows e s :
  invariant s ->
  extends (Job.id <$> jobs (Routes.db (Runtime.world s)))
          (Job.id <$> jobs (Routes.db (Runtime.world (Runtime.step e s))))
  /\ extends (dlq (Routes.db (Runtime.world s)))
             (dlq (Routes.db (Runtime.world (Runtime.step e s))))
  /\ rows_kept (Routes.db (Runtime.world s))
               (Routes.db (Runtime.world (Runtime.step e s))).
Proof.
  intros [Hpk _ _ _].
  assert (forall db', db' = Routes.db (Runtime.world s) ->
            extends (Job.id <$> jobs (Routes.db (Runtime.world s))) (Job.id <$> jobs db')
            /\ extends (dlq (Routes.db (Runtime.world s))) (dlq db')
            /\ rows_kept (Routes.db (Runtime.world s)) db') as Hsame.
  { intros db' ->. split; [apply extends_refl|]. split; [apply extends_refl|].
    apply rows_kept_refl. }
  destruct e as [body env|w clk|w work env]; simpl.
  - destruct (post_jobs_db body env (Runtime.world s))
      as [Heq|(job & Hjobs & Hd & _)]; [by apply Hsame|].
    split; [|split].
    + rewrite Hjobs, fmap_app. by eexists.
    + rewrite Hd. apply extends_refl.
    + by eapply rows_kept_app.
  - destruct (Runtime.held s !! w); [by apply Hsame|].
    pose proof (acquireLease_cases w clk (Routes.db (Runtime.world s)) Hpk) as H.
    destruct (WorkerService.acquireLease w clk (Routes.db (Runtime.world s)))
      as [[u|] db']; [|by apply Hsame].
    destruct H as (j & _ & _ & _ & Hu & Hrep & Hd). simpl.
    assert (same_identity j u) as Hid by (rewrite Hu; apply lease_data_identity).
    split; [|split].
    + rewrite (replaced_ids _ _ _ _ Hrep) by (by destruct Hid). apply extends_refl.
    + rewrite Hd. apply extends_refl.
    + by eapply rows_kept_replaced.
  - destruct (Runtime.held s !! w) as [job|]; [|by apply Hsame].
    destruct (WorkerService.processJob job work env (Routes.db (Runtime.world s)))
      as [db'|err] eqn:E; [|by apply Hsame].
    simpl. pose proof (processJob_Ok _ _ _ _ _ E) as Hout.
    destruct (outcome_replaced _ _ _ _ _ Hout) as (r & u & _ & _ & Hrep & Hid & _ & _).
    split; [|split].
    + rewrite (replaced_ids _ _ _ _ Hrep) by (by destruct Hid). apply extends_refl.
    + inversion Hout as [? ? ? ? Hd|? ? ? ? ? ? Hd|? ? ? ? ? ? Hd ?]; subst;
        rewrite Hd; [apply extends_refl|apply extends_refl|by eexists].
    + by eapply rows_kept_replaced.
Qed.

(** X7.  Nothing the system does deletes or re-identifies a job or
    touches a dead-letter entry: after any further events the ids of the
    jobs are those of before, in place, followed by those of new jobs;
    every job of before is still there with the same id, tenant, payload,
    idempotency key, [max_retries] and trace id; and the dead-letter
    entries of before are there unchanged, followed by new ones. *)
Theorem jobs_and_dead_letters_are_kept (s : Runtime.State) (events : list Runtime.Event) :
  Runtime.reachable s ->
  extends (Job.id <$> jobs (Routes.db (Runtime.world s)))
          (Job.id <$> jobs (Routes.db (Runtime.world (Runtime.run events s))))
  /\ extends (dlq (Routes.db (Runtime.world s)))
             (dlq (Routes.db (Runtime.world (Runtime.run events s))))
  /\ forall r, r ∈ jobs (Routes.db (Runtime.world s)) ->
       exists r', r' ∈ jobs (Routes.db (Runtime.world (Runtime.run events s)))
                  /\ same_identity r r'.
Proof.
  revert s. induction events as [|e rest IH]; intros s Hreach.
  - simpl. split; [apply extends_refl|]. split; [apply extends_refl|].
    apply rows_kept_refl.
  - simpl.
    destruct (step_keeps_rows e s (reachable_invariant s Hreach)) as (H1 & H2 & H3).
    destruct (IH (Runtime.step e s) (Runtime.reachable_step e s Hreach))
      as (G1 & G2 & G3).
    split; [by eapply extends_trans|]. split; [by eapply extends_trans|].
    by apply (rows_kept_trans _ _ _ H3 G3).
Qed.

Lemma jobs_and_dead_letters_are_kept_witness :
  extends (Job.id <$> jobs (Routes.db (Runtime.world Scenario.dead_lettered_by_second)))
          (Job.id <$> jobs (Routes.db (Runtime.world Scenario.late_acknowledgement)))
  /\ extends (dlq (Routes.db (Runtime.world Scenario.dead_lettered_by_second)))
             (dlq (Routes.db (Runtime.world Scenario.late_acknowledgement)))
  /\ forall r, r ∈ jobs (Routes.db (Runtime.world Scenario.dead_lettered_by_second)) ->
       exists r', r' ∈ jobs (Routes.db (Runtime.world Scenario.late_acknowledgement))
                  /\ same_identity r r'.
Proof.
  apply (jobs_and_dead_letters_are_kept Scenario.dead_lettered_by_second
           [Runtime.Finish "worker-1" Returned (Scenario.process_env 404000 "dlq-2")]).
  apply reachable_run, Runtime.reachable_init.
Defined.

(** * Reading a job back *)

Lemma findUnique_id_pkey (rows : list Job.t) (j : Job.t) :
  NoDup (Job.id <$> rows) -> j ∈ rows ->
  Prisma.findUnique_id (Job.id j) rows = Some j.
Proof.
  unfold Prisma.findUnique_id.
  induction rows as [|x rest IH]; intros Hnd Hj; [by apply elem_of_nil in Hj|].
  rewrite fmap_cons in Hnd. apply NoDup_cons in Hnd as [Hx Hnd]. simpl.
  apply elem_of_cons in Hj as [->|Hj]; [by rewrite String.eqb_refl|].
  destruct (String.eqb_spec (Job.id x) (Job.id j)) as [Heq|_]; [|by apply IH].
  exfalso. apply Hx. rewrite Heq. by apply list_elem_of_fmap_2.
Qed.

Lemma findUnique_id_Some jid rows j :
  Prisma.findUnique_id jid rows = Some j -> j ∈ rows /\ Job.id j = jid.
Proof.
  intros [Hj Hid]%find_some_elem. split; [done|]. by apply String.eqb_eq.
Qed.

Lemma findUnique_id_None jid rows :
  Prisma.findUnique_id jid rows = None -> forall r, r ∈ rows -> Job.id r <> jid.
Proof.
  intros Hnone r Hr Hid. apply list_elem_of_In in Hr.
  pose proof (find_none _ _ Hnone r Hr) as H. simpl in H.
  apply String.eqb_neq in H. done.
Qed.

(** X8.  [GET /jobs/:jobId] answers 404 exactly when no job has that id;
    otherwise it answers 200 with the id, status, trace id, timestamps,
    retry count and error message of a job of the table that has that
    id. *)
Theorem get_job_found_or_absent (jobId : string) (db : Db) :
  match ReadRoutes.get_job jobId db with
  | ReadRoutes.NotFound _ => forall r, r ∈ jobs db -> Job.id r <> jobId
  | ReadRoutes.Found v =>
      exists r, r ∈ jobs db /\ Job.id r = jobId
        /\ ReadRoutes.jobId v = jobId
        /\ ReadRoutes.status v = Job.status r
        /\ ReadRoutes.traceId v = Job.traceId r
        /\ ReadRoutes.createdAt v = Job.createdAt r
        /\ ReadRoutes.startedAt v = Job.startedAt r
        /\ ReadRoutes.completedAt v = Job.completedAt r
        /\ ReadRoutes.retryCount v = Job.retryCount r
        /\ ReadRoutes.errorMessage v = Job.errorMessage r
  end.
Proof.
  unfold ReadRoutes.get_job, JobService.getJobStatus.
  destruct (Prisma.findUnique_id jobId (jobs db)) as [job|] eqn:E.
  - apply findUnique_id_Some in E as [Hj Hid]. exists job. by repeat split.
  - by apply findUnique_id_None.
Qed.

(** X9.  Submit, then read: whenever [POST /jobs] answers 201 with a job
    id, a status and a trace id, [GET /jobs/:jobId] for that id on the
    store the request left answers 200 with that id, status and trace
    id. *)
Theorem get_job_after_post
    (body : Routes.Body) (env : Routes.RequestEnv) (w : Routes.World)
    (jid : string) (st : JobStatus) (tr : string) :
  pkey_ok (Routes.db w) ->
  fst (Routes.post_jobs body env w) = Routes.Created jid st tr ->
  exists v,
    ReadRoutes.get_job jid (Routes.db (snd (Routes.post_jobs body env w)))
    = ReadRoutes.Found v
    /\ ReadRoutes.jobId v = jid
    /\ ReadRoutes.status v = st
    /\ ReadRoutes.traceId v = tr.
Proof.
  intros Hpk. unfold Routes.post_jobs.
  destruct (_ || _); [discriminate|].
  destruct (Routes.tenantId body) as [t|]; [|discriminate].
  destruct (Routes.payload body) as [p|]; [|discriminate].
  unfold Routes.admit_and_submit.
  destruct (RateLimiter.checkRateLimit _ _ _ _ _) as [ok redis'].
  destruct (negb ok); [discriminate|].
  destruct (negb _); [discriminate|].
  destruct (JobService.submitJob _ _ _ _ _ _ _) as [[job db']|e] eqn:E; [|discriminate].
  simpl. intros [= <- <- <-].
  assert (Prisma.findUnique_id (Job.id job) (jobs db') = Some job) as Hfind.
  { apply submitJob_Ok in E as [[-> Hj]|(Hjob & Hjobs & _ & Hfresh)].
    - by apply findUnique_id_pkey.
    - apply findUnique_id_pkey.
      + rewrite Hjobs, fmap_app. apply NoDup_app. split; [done|].
        split; [|apply NoDup_singleton].
        intros x (r & -> & Hr)%list_elem_of_fmap Hx.
        apply list_elem_of_singleton in Hx. rewrite Hjob in Hx. simpl in Hx.
        by apply (Hfresh r Hr).
      + rewrite Hjobs. apply elem_of_app. right. by left. }
  unfold ReadRoutes.get_job, JobService.getJobStatus. rewrite Hfind.
  eexists. by repeat split.
Qed.

Lemma get_job_after_post_witness :
  exists v,
    ReadRoutes.get_job "job-1"
      (Routes.db (snd (Routes.post_jobs Scenario.body_K Scenario.second_env
                         (Runtime.world Scenario.submitted))))
    = ReadRoutes.Found v
    /\ ReadRoutes.jobId v = "job-1"
    /\ ReadRoutes.status v = pending
    /\ ReadRoutes.traceId v = "trace-1".
Proof.
  apply (get_job_after_post Scenario.body_K Scenario.second_env
           (Runtime.world Scenario.submitted) "job-1" pending "trace-1").
  - unfold pkey_ok. vm_compute. apply NoDup_singleton.
  - vm_compute. reflexivity.
Defined.

(** * The running count *)

Lemma count_replaced (f : Job.t -> bool) rows j u rows' :
  replaced rows j u rows' ->
  (Prisma.count f rows' + (if f j then 1 else 0)
   = Prisma.count f rows + (if f u then 1 else 0))%nat.
Proof.
  intros (l1 & l2 & -> & ->). unfold Prisma.count.
  rewrite !List.filter_app, !length_app. simpl.
  destruct (f j), (f u); simpl; lia.
Qed.

(** X10.  A lease raises the running count of the claimed job's tenant by
    one when the job was pending and leaves it as it was when a running
    job was taken over; no other tenant's count changes. *)
Theorem lease_and_running_count
    (w : string) (clk : WorkerService.LeaseClock) (db db' : Db) (u : Job.t) :
  pkey_ok db ->
  WorkerService.acquireLease w clk db = (Some u, db') ->
  exists j,
    j ∈ jobs db /\ Job.id j = Job.id u /\ Job.tenantId j = Job.tenantId u
    /\ (Job.status j = pending \/ Job.status j = running)
    /\ forall t,
         JobService.getRunningJobCount t db'
         = (JobService.getRunningJobCount t db
            + if String.eqb (Job.tenantId j) t && JobStatus_eqb (Job.status j) pending
              then 1 else 0)%nat.
Proof.
  intros Hpk Hacq.
  pose proof (acquireLease_cases w clk db Hpk) as H. rewrite Hacq in H.
  destruct H as (j & Hj & Hel & _ & Hu & Hrep & _).
  exists j. rewrite Hu. simpl. repeat split; try done.
  { destruct Hel as [?|[? _]]; [by left|by right]. }
  intros t. unfold JobService.getRunningJobCount.
  pose proof (count_replaced
                (fun j0 => String.eqb (Job.tenantId j0) t
                           && JobStatus_eqb (Job.status j0) running)
                _ _ _ _ Hrep) as Hc.
  rewrite Hu in Hc. simpl in Hc.
  destruct (String.eqb (Job.tenantId j) t); simpl in *; [|lia].
  destruct Hel as [Hs|[Hs _]]; rewrite Hs in *; simpl in *; lia.
Qed.

Lemma lease_and_running_count_witness :
  exists j,
    j ∈ jobs (Routes.db (Runtime.world Scenario.submitted))
    /\ Job.id j = Job.id Scenario.leased_job
    /\ Job.tenantId j = Job.tenantId Scenario.leased_job
    /\ (Job.status j = pending \/ Job.status j = running)
    /\ forall t,
         JobService.getRunningJobCount t (Routes.db (Runtime.world Scenario.leased))
         = (JobService.getRunningJobCount t (Routes.db (Runtime.world Scenario.submitted))
            + if String.eqb (Job.tenantId j) t && JobStatus_eqb (Job.status j) pending
              then 1 else 0)%nat.
Proof.
  apply (lease_and_running_count "worker-1" (Scenario.clock 2000)
           (Routes.db (Runtime.world Scenario.submitted))
           (Routes.db (Runtime.world Scenario.leased)) Scenario.leased_job).
  - unfold pkey_ok. vm_compute. apply NoDup_singleton.
  - vm_compute. reflexivity.
Defined.

(** * Admission *)

Lemma checkRateLimit_admits fault now rnd t (s : gmap string Redis.ZKey) :
  (forall c, fault c = false) ->
  Z.of_nat (size (window_after now t s)) < 10 ->
  RateLimiter.checkRateLimit fault now rnd t s
  = (true,
     Redis.expire now (RateLimiter.rate_key t) 60
       (Redis.zAdd now (RateLimiter.rate_key t) now (RateLimiter.entry_value now rnd)
          (Redis.zRemRangeByScore now (RateLimiter.rate_key t) 0 (now - 60000) s))).
Proof.
  intros Hok Hlt. unfold RateLimiter.checkRateLimit, Redis.try_or.
  rewrite checkRateLimit_try_unfold. simpl.
  rewrite zCard_after_eviction, !Hok.
  by destruct (Z.leb_spec 10 (Z.of_nat (size (window_after now t s)))); [lia|].
Qed.

Lemma checkRateLimit_denies fault now rnd t (s : gmap string Redis.ZKey) :
  fault Redis.ZREMRANGEBYSCORE = false -> fault Redis.ZCARD = false ->
  10 <= Z.of_nat (size (window_after now t s)) ->
  RateLimiter.checkRateLimit fault now rnd t s
  = (false, Redis.zRemRangeByScore now (RateLimiter.rate_key t) 0 (now - 60000) s).
Proof.
  intros H1 H2 Hge. unfold RateLimiter.checkRateLimit, Redis.try_or.
  rewrite checkRateLimit_try_unfold. simpl.
  rewrite zCard_after_eviction, H1, H2.
  by destruct (Z.leb_spec 10 (Z.of_nat (size (window_after now t s)))); [|lia].
Qed.

(** X11.  A request that passes the rate gate and is then refused by the
    concurrency check (five or more running jobs of the tenant) is
    answered 429 with the concurrency message and writes no job, but its
    entry stays in the tenant's rate window: the refused request has used
    one of the ten slots of the minute. *)
Theorem concurrency_refusal_uses_a_rate_slot
    (body : Routes.Body) (env : Routes.RequestEnv) (w : Routes.World)
    (t : string) (p : Json.t) :
  Routes.tenantId body = Some t -> t <> EmptyString ->
  Routes.payload body = Some p -> Json.truthy p = true ->
  (forall c, Routes.redis_fault env c = false) ->
  Z.of_nat (size (window_after (Routes.rate_now env) t (Routes.redis w))) < 10 ->
  (5 <= JobService.getRunningJobCount t (Routes.db w))%nat ->
  fst (Routes.post_jobs body env w)
  = Routes.TooManyRequests "Concurrent job limit exceeded"
      "Maximum 5 concurrent jobs allowed"
  /\ Routes.db (snd (Routes.post_jobs body env w)) = Routes.db w
  /\ Routes.redis (snd (Routes.post_jobs body env w)) !! RateLimiter.rate_key t
     = Some {| Redis.members :=
                 <[RateLimiter.entry_value (Routes.rate_now env) (Routes.rate_rnd env)
                   := Routes.rate_now env]>
                   (window_after (Routes.rate_now env) t (Routes.redis w));
               Redis.expireAt := Some (Routes.rate_now env + 60 * 1000) |}.
Proof.
  intros Ht Hne Hp Htr Hok Hlt Hrun.
  rewrite (post_jobs_admits body env w t p Ht Hne Hp Htr).
  unfold Routes.admit_and_submit.
  rewrite (checkRateLimit_admits _ _ _ _ _ Hok Hlt). simpl.
  unfold RateLimiter.checkConcurrentLimit.
  destruct (Nat.leb_spec 5 (JobService.getRunningJobCount t (Routes.db w))); [|lia].
  simpl. repeat split.
  by destruct (admitted_store (Routes.rate_now env) (Routes.rate_rnd env) t (Routes.redis w)).
Qed.

Lemma concurrency_refusal_uses_a_rate_slot_witness :
  fst (Routes.post_jobs Scenario.body_plain Scenario2.sixth_env
         (Runtime.world Scenario2.five_running))
  = Routes.TooManyRequests "Concurrent job limit exceeded"
      "Maximum 5 concurrent jobs allowed"
  /\ Routes.db (snd (Routes.post_jobs Scenario.body_plain Scenario2.sixth_env
                       (Runtime.world Scenario2.five_running)))
     = Routes.db (Runtime.world Scenario2.five_running)
  /\ Routes.redis (snd (Routes.post_jobs Scenario.body_plain Scenario2.sixth_env
                          (Runtime.world Scenario2.five_running)))
       !! RateLimiter.rate_key "A"
     = Some {| Redis.members :=
                 <[RateLimiter.entry_value (Routes.rate_now Scenario2.sixth_env)
                     (Routes.rate_rnd Scenario2.sixth_env)
                   := Routes.rate_now Scenario2.sixth_env]>
                   (window_after (Routes.rate_now Scenario2.sixth_env) "A"
                      (Routes.redis (Runtime.world Scenario2.five_running)));
               Redis.expireAt := Some (Routes.rate_now Scenario2.sixth_env + 60 * 1000) |}.
Proof.
  apply (concurrency_refusal_uses_a_rate_slot Scenario.body_plain Scenario2.sixth_env
           (Runtime.world Scenario2.five_running) "A"
           (Json.JObj [("task", Json.JStr "y")])).
  - reflexivity.
  - discriminate.
  - reflexivity.
  - reflexivity.
  - intros c. reflexivity.
  - vm_compute. reflexivity.
  - vm_compute. lia.
Defined.

(** X12.  A request refused by the rate gate (ten entries left in the
    window, the two commands answered) is answered 429 with the rate
    message, whatever the running count is, and writes no job; the keyed
    store is the one the eviction left. *)
Theorem rate_refusal_comes_first
    (body : Routes.Body) (env : Routes.RequestEnv) (w : Routes.World)
    (t : string) (p : Json.t) :
  Routes.tenantId body = Some t -> t <> EmptyString ->
  Routes.payload body = Some p -> Json.truthy p = true ->
  Routes.redis_fault env Redis.ZREMRANGEBYSCORE = false ->
  Routes.redis_fault env Redis.ZCARD = false ->
  10 <= Z.of_nat (size (window_after (Routes.rate_now env) t (Routes.redis w))) ->
  Routes.post_jobs body env w
  = (Routes.TooManyRequests "Rate limit exceeded" "Maximum 10 jobs per minute allowed",
     {| Routes.db := Routes.db w;
        Routes.redis :=
          Redis.zRemRangeByScore (Routes.rate_now env) (RateLimiter.rate_key t) 0
            (Routes.rate_now env - 60000) (Routes.redis w) |}).
Proof.
  intros Ht Hne Hp Htr H1 H2 Hge.
  rewrite (post_jobs_admits body env w t p Ht Hne Hp Htr).
  unfold Routes.admit_and_submit.
  by rewrite (checkRateLimit_denies _ _ _ _ _ H1 H2 Hge).
Qed.

Lemma rate_refusal_comes_first_witness :
  Routes.post_jobs Scenario.body_K
    (Scenario.request_env 60000 "0.77" "trace-11" "job-11")
    (Runtime.world Scenario.busy_tenant)
  = (Routes.TooManyRequests "Rate limit exceeded" "Maximum 10 jobs per minute allowed",
     {| Routes.db := Routes.db (Runtime.world Scenario.busy_tenant);
        Routes.redis :=
          Redis.zRemRangeByScore 60000 (RateLimiter.rate_key "A") 0 (60000 - 60000)
            (Routes.redis (Runtime.world Scenario.busy_tenant)) |}).
Proof.
  apply (rate_refusal_comes_first Scenario.body_K
           (Scenario.request_env 60000 "0.77" "trace-11" "job-11")
           (Runtime.world Scenario.busy_tenant) "A"
           (Json.JObj [("task", Json.JStr "x")])).
  - reflexivity.
  - discriminate.
  - reflexivity.
  - reflexivity.
  - reflexivity.
  - reflexivity.
  - vm_compute. discriminate.
Defined.

(** X13.  When the keyed store is down (the first command fails), no
    request is refused by the rate gate, however many submissions the
    tenant made, and the keyed store is left as it was: only the
    concurrency check still limits the tenant. *)
Theorem redis_down_disables_the_rate_gate
    (body : Routes.Body) (env : Routes.RequestEnv) (w : Routes.World) :
  Routes.redis_fault env Redis.ZREMRANGEBYSCORE = true ->
  Routes.redis (snd (Routes.post_jobs body env w)) = Routes.redis w
  /\ fst (Routes.post_jobs body env w)
     <> Routes.TooManyRequests "Rate limit exceeded" "Maximum 10 jobs per minute allowed".
Proof.
  intros Hdown. unfold Routes.post_jobs.
  destruct (_ || _); [by split|].
  destruct (Routes.tenantId body) as [t|]; [|by split].
  destruct (Routes.payload body) as [p|]; [|by split].
  unfold Routes.admit_and_submit, RateLimiter.checkRateLimit, Redis.try_or.
  rewrite checkRateLimit_try_unfold, Hdown. simpl.
  destruct (negb _); [by split|].
  destruct (JobService.submitJob _ _ _ _ _ _ _) as [[job db']|e]; by split.
Qed.

Lemma redis_down_disables_the_rate_gate_witness :
  Routes.redis (snd (Routes.post_jobs Scenario.body_K Scenario2.down_env
                       (Runtime.world Scenario.busy_tenant)))
  = Routes.redis (Runtime.world Scenario.busy_tenant)
  /\ fst (Routes.post_jobs Scenario.body_K Scenario2.down_env
            (Runtime.world Scenario.busy_tenant))
     <> Routes.TooManyRequests "Rate limit exceeded" "Maximum 10 jobs per minute allowed".
Proof.
  apply (redis_down_disables_the_rate_gate Scenario.body_K Scenario2.down_env
           (Runtime.world Scenario.busy_tenant)).
  reflexivity.
Defined.

(** X14.  After a quiet minute the tenant starts a fresh window: when
    every entry of the tenant's key is at least 60000 ms old and no
    command fails, the call allows however many entries there were, and
    the key then holds the new entry alone, expiring 60 seconds from
    now. *)
Theorem quiet_minute_gives_a_fresh_window
    (fault : Redis.Cmd -> bool) (now : Z) (rnd t : string)
    (s : gmap string Redis.ZKey) (zk : Redis.ZKey) :
  (forall c, fault c = false) ->
  s !! RateLimiter.rate_key t = Some zk ->
  (forall m sc, Redis.members zk !! m = Some sc -> 0 <= sc <= now - 60000) ->
  fst (RateLimiter.checkRateLimit fault now rnd t s) = true
  /\ snd (RateLimiter.checkRateLimit fault now rnd t s) !! RateLimiter.rate_key t
     = Some {| Redis.members := {[ RateLimiter.entry_value now rnd := now ]};
               Redis.expireAt := Some (now + 60 * 1000) |}.
Proof.
  intros Hok Hs Hold.
  assert (window_after now t s = ∅) as Hw.
  { unfold window_after.
    destruct (Redis.live now _ s !! _) as [zk'|] eqn:E; [|done].
    apply live_lookup_Some in E as (E & _). rewrite Hs in E. injection E as <-.
    apply map_empty. intros m. apply map_lookup_filter_None. right.
    intros sc Hm. simpl. rewrite in_range_false. specialize (Hold m sc Hm). lia. }
  rewrite (checkRateLimit_admits fault now rnd t s Hok)
    by (rewrite Hw, map_size_empty; lia).
  simpl. split; [done|].
  destruct (admitted_store now rnd t s) as [-> _]. by rewrite Hw, insert_empty.
Qed.

Lemma quiet_minute_gives_a_fresh_window_witness :
  fst (RateLimiter.checkRateLimit Scenario.no_fault 61000 "0.5" "A"
         (Routes.redis (Runtime.world Scenario.submitted))) = true
  /\ snd (RateLimiter.checkRateLimit Scenario.no_fault 61000 "0.5" "A"
            (Routes.redis (Runtime.world Scenario.submitted)))
       !! RateLimiter.rate_key "A"
     = Some {| Redis.members := {[ RateLimiter.entry_value 61000 "0.5" := 61000 ]};
               Redis.expireAt := Some (61000 + 60 * 1000) |}.
Proof.
  apply (quiet_minute_gives_a_fresh_window Scenario.no_fault 61000 "0.5" "A"
           (Routes.redis (Runtime.world Scenario.submitted))
           {| Redis.members := {[ "1000-0.11" := 1000 ]};
              Redis.expireAt := Some 61000 |}).
  - intros c. reflexivity.
  - vm_compute. reflexivity.
  - intros m sc Hm. simpl in Hm. apply lookup_singleton_Some in Hm as [_ <-]. lia.
Defined.

(** X15.  The empty string is not a usable idempotency key: the lookup
    is skipped for it (it is falsy) but the insert stores it, so once a
    job carries the empty key, every further submission with the empty
    key throws on the unique index and the route never answers 201 to
    it. *)
Theorem empty_idempotency_key_collides (db : Db) :
  (exists r, r ∈ jobs db /\ Job.idempotencyKey r = Some EmptyString) ->
  (forall tr new_id now t p,
     JobService.submitJob tr new_id now t p (Some EmptyString) db
     = Prisma.Throw Prisma.UniqueConstraintViolation)
  /\ (forall body env redis,
        Routes.idempotencyKey body = Some EmptyString ->
        Routes.status_code
          (fst (Routes.post_jobs body env {| Routes.db := db; Routes.redis := redis |}))
        <> 201).
Proof.
  intros (r & Hr & Hk).
  assert (forall tr new_id now t p,
            JobService.submitJob tr new_id now t p (Some EmptyString) db
            = Prisma.Throw Prisma.UniqueConstraintViolation) as Hsub.
  { intros. unfold JobService.submitJob, Prisma.job_create. simpl.
    destruct (existsb _ (jobs db)); [done|].
    assert (existsb (Prisma.has_key EmptyString) (jobs db) = true) as ->; [|done].
    apply existsb_exists. exists r. split; [by apply list_elem_of_In|].
    by apply has_key_true. }
  split; [done|].
  intros body env redis Hbk. unfold Routes.post_jobs.
  destruct (_ || _); [done|].
  destruct (Routes.tenantId body) as [t|]; [|done].
  destruct (Routes.payload body) as [p|]; [|done].
  unfold Routes.admit_and_submit. simpl.
  destruct (RateLimiter.checkRateLimit _ _ _ _ _) as [ok redis'].
  destruct (negb ok); [done|]. destruct (negb _); [done|].
  by rewrite Hbk, Hsub.
Qed.

Lemma empty_idempotency_key_collides_witness :
  (forall tr new_id now t p,
     JobService.submitJob tr new_id now t p (Some EmptyString)
       (Routes.db (Runtime.world Scenario2.empty_key_stored))
     = Prisma.Throw Prisma.UniqueConstraintViolation)
  /\ (forall body env redis,
        Routes.idempotencyKey body = Some EmptyString ->
        Routes.status_code
          (fst (Routes.post_jobs body env
                  {| Routes.db := Routes.db (Runtime.world Scenario2.empty_key_stored);
                     Routes.redis := redis |}))
        <> 201).
Proof.
  apply (empty_idempotency_key_collides
           (Routes.db (Runtime.world Scenario2.empty_key_stored))).
  vm_compute. eexists. split; [apply list_elem_of_here|reflexivity].
Defined.

(** * Listing jobs *)








(** * Metrics *)

(** Every bucket of the copy in services/jobService.ts, for any tenant
    argument: the number of jobs that pass the filter and have the
    status. *)
Lemma getMetrics_bucket (tenantId : option string) (db : Db) (st : JobStatus) :
  jobs_by_status (JobService.getMetrics tenantId db) !! status_name st
  = Some (Prisma.count
            (fun j => JobService.whereJob tenantId j && JobStatus_eqb (Job.status j) st)
            (jobs db)).
Proof.
  unfold JobService.getMetrics. simpl.
  unfold Prisma.groupBy_status, all_statuses. simpl.
  set (c s := Prisma.count
                (fun j => JobService.whereJob tenantId j
                          && JobStatus_eqb (Job.status j) s) (jobs db)).
  fold (c pending) (c running) (c completed) (c failed) (c st).
  destruct (Nat.eqb_spec (c pending) 0) as [E1|E1];
    destruct (Nat.eqb_spec (c running) 0) as [E2|E2];
    destruct (Nat.eqb_spec (c completed) 0) as [E3|E3];
    destruct (Nat.eqb_spec (c failed) 0) as [E4|E4];
    destruct st; simpl;
    repeat (rewrite lookup_insert_eq || (rewrite lookup_insert_ne by discriminate));
    congruence.
Qed.

Lemma count_by_status (f : Job.t -> bool) (rows : list Job.t) :
  Prisma.count f rows
  = (Prisma.count (fun j => f j && JobStatus_eqb (Job.status j) pending) rows
     + Prisma.count (fun j => f j && JobStatus_eqb (Job.status j) running) rows
     + Prisma.count (fun j => f j && JobStatus_eqb (Job.status j) completed) rows
     + Prisma.count (fun j => f j && JobStatus_eqb (Job.status j) failed) rows)%nat.
Proof.
  unfold Prisma.count. induction rows as [|j rest IH]; [done|]. simpl.
  destruct (f j); simpl; [|done].
  destruct (Job.status j); simpl; lia.
Qed.

(** X17.  In the metrics of services/jobService.ts the total is the sum
    of the four buckets, for a tenant as for the whole table. *)
Theorem metrics_total_is_sum_of_buckets (tenantId : option string) (db : Db) :
  exists p r c f,
    jobs_by_status (JobService.getMetrics tenantId db) !! "pending" = Some p
    /\ jobs_by_status (JobService.getMetrics tenantId db) !! "running" = Some r
    /\ jobs_by_status (JobService.getMetrics tenantId db) !! "completed" = Some c
    /\ jobs_by_status (JobService.getMetrics tenantId db) !! "failed" = Some f
    /\ jobs_total (JobService.getMetrics tenantId db) = (p + r + c + f)%nat.
Proof.
  eexists _, _, _, _.
  split; [exact (getMetrics_bucket tenantId db pending)|].
  split; [exact (getMetrics_bucket tenantId db running)|].
  split; [exact (getMetrics_bucket tenantId db completed)|].
  split; [exact (getMetrics_bucket tenantId db failed)|].
  apply (count_by_status (JobService.whereJob tenantId)).
Qed.

Lemma count_all (rows : list Job.t) : Prisma.count (fun _ => true) rows = length rows.
Proof.
  unfold Prisma.count. induction rows as [|j rest IH]; [done|]. simpl. by rewrite IH.
Qed.

(** X18.  An empty tenant id is no tenant id: [getMetrics] with the empty
    string returns what it returns without a tenant, the figures of the
    whole table: the number of all jobs and of all dead-letter entries. *)
Theorem metrics_of_empty_tenant_are_global (db : Db) :
  JobService.getMetrics (Some EmptyString) db = JobService.getMetrics None db
  /\ jobs_total (JobService.getMetrics (Some EmptyString) db) = length (jobs db)
  /\ dlq_size (JobService.getMetrics (Some EmptyString) db) = length (dlq db).
Proof.
  split; [done|]. split; [|done].
  unfold JobService.getMetrics. simpl. apply count_all.
Qed.

Lemma count_or_zero_groupBy (f : Job.t -> bool) (rows : list Job.t) (st : JobStatus) :
  Dashboard.count_or_zero st (Prisma.groupBy_status f rows)
  = Prisma.count (fun j => f j && JobStatus_eqb (Job.status j) st) rows.
Proof.
  unfold Prisma.groupBy_status, all_statuses. simpl.
  set (c s := Prisma.count (fun j => f j && JobStatus_eqb (Job.status j) s) rows).
  fold (c pending) (c running) (c completed) (c failed) (c st).
  unfold Dashboard.count_or_zero.
  destruct (Nat.eqb_spec (c pending) 0) as [E1|E1];
    destruct (Nat.eqb_spec (c running) 0) as [E2|E2];
    destruct (Nat.eqb_spec (c completed) 0) as [E3|E3];
    destruct (Nat.eqb_spec (c failed) 0) as [E4|E4];
    destruct st; simpl; try done;
    repeat match goal with
           | |- context [Nat.eqb ?x 0] => destruct (Nat.eqb_spec x 0); try done
           end.
Qed.

(** X19.  The dashboard's own metrics count, for each of the four
    statuses, the tenant's jobs of that status (0 when there are none),
    and for a non-empty tenant id they are the four buckets that
    [JobService.getMetrics] reports for that tenant. *)
Theorem dashboard_metrics_agree (t : string) (db : Db) :
  (let count st :=
     Prisma.count (fun j => String.eqb (Job.tenantId j) t
                            && JobStatus_eqb (Job.status j) st) (jobs db) in
   Dashboard.pending_count (Dashboard.getMetrics t db) = count pending
   /\ Dashboard.running_count (Dashboard.getMetrics t db) = count running
   /\ Dashboard.completed_count (Dashboard.getMetrics t db) = count completed
   /\ Dashboard.failed_count (Dashboard.getMetrics t db) = count failed)
  /\ (t <> EmptyString ->
      jobs_by_status (JobService.getMetrics (Some t) db) !! "pending"
      = Some (Dashboard.pending_count (Dashboard.getMetrics t db))
      /\ jobs_by_status (JobService.getMetrics (Some t) db) !! "running"
         = Some (Dashboard.running_count (Dashboard.getMetrics t db))
      /\ jobs_by_status (JobService.getMetrics (Some t) db) !! "completed"
         = Some (Dashboard.completed_count (Dashboard.getMetrics t db))
      /\ jobs_by_status (JobService.getMetrics (Some t) db) !! "failed"
         = Some (Dashboard.failed_count (Dashboard.getMetrics t db))).
Proof.
  split.
  - simpl. unfold Dashboard.getMetrics. simpl.
    rewrite !count_or_zero_groupBy. done.
  - intros Hne. destruct (getMetrics_scoped t db Hne) as (_ & Hb & _).
    repeat split.
    + etrans; [exact (Hb pending)|]. f_equal. symmetry. apply count_or_zero_groupBy.
    + etrans; [exact (Hb running)|]. f_equal. symmetry. apply count_or_zero_groupBy.
    + etrans; [exact (Hb completed)|]. f_equal. symmetry. apply count_or_zero_groupBy.
    + etrans; [exact (Hb failed)|]. f_equal. symmetry. apply count_or_zero_groupBy.
Qed.

Lemma dashboard_metrics_agree_witness :
  jobs_by_status (JobService.getMetrics (Some "A") Scenario.two_tenants) !! "pending"
  = Some (Dashboard.pending_count (Dashboard.getMetrics "A" Scenario.two_tenants))
  /\ jobs_by_status (JobService.getMetrics (Some "A") Scenario.two_tenants) !! "running"
     = Some (Dashboard.running_count (Dashboard.getMetrics "A" Scenario.two_tenants))
  /\ jobs_by_status (JobService.getMetrics (Some "A") Scenario.two_tenants) !! "completed"
     = Some (Dashboard.completed_count (Dashboard.getMetrics "A" Scenario.two_tenants))
  /\ jobs_by_status (JobService.getMetrics (Some "A") Scenario.two_tenants) !! "failed"
     = Some (Dashboard.failed_count (Dashboard.getMetrics "A" Scenario.two_tenants)).
Proof.
  apply (proj2 (dashboard_metrics_agree "A" Scenario.two_tenants)). discriminate.
Defined.

(** * An accepted submission *)

Lemma existsb_none {A : Type} (f : A -> bool) (l : list A) :
  (forall x, x ∈ l -> f x = false) -> existsb f l = false.
Proof.
  intros H. destruct (existsb f l) eqn:E; [|done].
  apply existsb_true_exists in E as (x & Hx & Hf). rewrite (H x Hx) in Hf. done.
Qed.

Lemma find_none_elem {A : Type} (f : A -> bool) (l : list A) :
  (forall x, x ∈ l -> f x = false) -> find f l = None.
Proof.
  intros H. destruct (find f l) as [x|] eqn:E; [|done].
  apply find_some_elem in E as [Hx Hf]. rewrite (H x Hx) in Hf. done.
Qed.

(** A payload is a JSON value: the order in which an object's keys are
    written is no part of it, and of a key written twice the last value
    counts. *)
Example object_keys_have_no_order :
  Json.JObj [("bb", Json.JBool true); ("a", Json.JStr "x")]
  = Json.JObj [("a", Json.JStr "x"); ("bb", Json.JBool true)]
  /\ Json.JObj [("a", Json.JNull); ("a", Json.JStr "x")]
     = Json.JObj [("a", Json.JStr "x")].
Proof. split; by vm_compute. Qed.

(** X20.  A request with a non-empty tenant and a truthy payload that
    passes both admission checks, whose generated id is new and whose
    idempotency key (if any) no job carries, is answered 201 with the new
    id, status [pending] and the trace id drawn for the request; exactly
    one row is appended to the table: pending, [retry_count 0],
    [max_retries 3], created at the database's clock, with the tenant
    and key of the request and, as a JSON value, its payload; the dead
    letters are untouched. *)
Theorem accepted_submission
    (body : Routes.Body) (env : Routes.RequestEnv) (w : Routes.World)
    (t : string) (p : Json.t) :
  Routes.tenantId body = Some t -> t <> EmptyString ->
  Routes.payload body = Some p -> Json.truthy p = true ->
  (forall c, Routes.redis_fault env c = false) ->
  Z.of_nat (size (window_after (Routes.rate_now env) t (Routes.redis w))) < 10 ->
  (JobService.getRunningJobCount t (Routes.db w) < 5)%nat ->
  (forall r, r ∈ jobs (Routes.db w) -> Job.id r <> Routes.new_id env) ->
  (forall k r, Routes.idempotencyKey body = Some k -> r ∈ jobs (Routes.db w) ->
               Job.idempotencyKey r <> Some k) ->
  fst (Routes.post_jobs body env w)
  = Routes.Created (Routes.new_id env) pending (Routes.trace_id env)
  /\ jobs (Routes.db (snd (Routes.post_jobs body env w)))
     = jobs (Routes.db w)
       ++ [{| Job.id := Routes.new_id env;
              Job.tenantId := t;
              Job.status := pending;
              Job.payload := p;
              Job.idempotencyKey := Routes.idempotencyKey body;
              Job.retryCount := 0;
              Job.maxRetries := 3;
              Job.leaseExpiresAt := None;
              Job.workerId := None;
              Job.createdAt := Routes.db_now env;
              Job.startedAt := None;
              Job.completedAt := None;
              Job.errorMessage := None;
              Job.traceId := Routes.trace_id env |}]
  /\ dlq (Routes.db (snd (Routes.post_jobs body env w))) = dlq (Routes.db w).
Proof.
  intros Ht Hne Hp Htr Hok Hlt Hrun Hid Hkey.
  rewrite (post_jobs_admits body env w t p Ht Hne Hp Htr).
  unfold Routes.admit_and_submit.
  rewrite (checkRateLimit_admits _ _ _ _ _ Hok Hlt). simpl.
  unfold RateLimiter.checkConcurrentLimit.
  destruct (Nat.leb_spec 5 (JobService.getRunningJobCount t (Routes.db w))); [lia|].
  simpl.
  assert (JobService.submitJob (Routes.trace_id env) (Routes.new_id env)
            (Routes.db_now env) t p (Routes.idempotencyKey body) (Routes.db w)
          = Prisma.Ok
              (Prisma.new_job (Routes.new_id env) (Routes.db_now env) t p
                 (Routes.idempotencyKey body) (Routes.trace_id env),
               {| jobs := jobs (Routes.db w)
                          ++ [Prisma.new_job (Routes.new_id env) (Routes.db_now env) t p
                                (Routes.idempotencyKey body) (Routes.trace_id env)];
                  dlq := dlq (Routes.db w) |})) as ->; [|done].
  unfold JobService.submitJob, Prisma.job_create.
  assert (existsb (fun j => String.eqb (Job.id j) (Routes.new_id env))
            (jobs (Routes.db w)) = false) as ->.
  { apply existsb_none. intros r Hr. apply String.eqb_neq. by apply Hid. }
  destruct (Routes.idempotencyKey body) as [k|] eqn:Ek; [|done].
  assert (forall r, r ∈ jobs (Routes.db w) -> Prisma.has_key k r = false) as Hno.
  { intros r Hr. destruct (Prisma.has_key k r) eqn:E; [|done].
    apply has_key_true in E. by destruct (Hkey k r eq_refl Hr). }
  rewrite (existsb_none _ _ Hno).
  unfold Prisma.findUnique_key. rewrite (find_none_elem _ _ Hno).
  by destruct (Json.truthy_string (Some k)).
Qed.

Lemma accepted_submission_witness :
  fst (Routes.post_jobs Scenario.body_plain Scenario.second_env
         (Runtime.world Scenario.submitted))
  = Routes.Created (Routes.new_id Scenario.second_env) pending
      (Routes.trace_id Scenario.second_env)
  /\ jobs (Routes.db (snd (Routes.post_jobs Scenario.body_plain Scenario.second_env
                             (Runtime.world Scenario.submitted))))
     = jobs (Routes.db (Runtime.world Scenario.submitted))
       ++ [{| Job.id := Routes.new_id Scenario.second_env;
              Job.tenantId := "A";
              Job.status := pending;
              Job.payload := Json.JObj [("task", Json.JStr "y")];
              Job.idempotencyKey := Routes.idempotencyKey Scenario.body_plain;
              Job.retryCount := 0;
              Job.maxRetries := 3;
              Job.leaseExpiresAt := None;
              Job.workerId := None;
              Job.createdAt := Routes.db_now Scenario.second_env;
              Job.startedAt := None;
              Job.completedAt := None;
              Job.errorMessage := None;
              Job.traceId := Routes.trace_id Scenario.second_env |}]
  /\ dlq (Routes.db (snd (Routes.post_jobs Scenario.body_plain Scenario.second_env
                            (Runtime.world Scenario.submitted))))
     = dlq (Routes.db (Runtime.world Scenario.submitted)).
Proof.
  apply (accepted_submission Scenario.body_plain Scenario.second_env
           (Runtime.world Scenario.submitted) "A"
           (Json.JObj [("task", Json.JStr "y")])).
  - reflexivity.
  - discriminate.
  - reflexivity.
  - reflexivity.
  - intros c. reflexivity.
  - vm_compute. reflexivity.
  - vm_compute. lia.
  - vm_compute. intros r Hr.
    apply list_elem_of_singleton in Hr as ->. discriminate.
  - intros k r Hk. discriminate Hk.
Defined.

(** * A retried job goes to the back *)

(** X21.  A retry moves the job behind the jobs that are waiting: after
    the retry update, as long as some other job is eligible whose
    [created_at] lies before the retried job's new [created_at] (the
    retry's clock reading plus the backoff), no lease query returns the
    retried job. *)
Theorem retried_job_goes_behind
    (job other r : Job.t) (message : string) (env : WorkerService.ProcessEnv)
    (db : Db) :
  pkey_ok db ->
  r ∈ jobs db -> Job.id r = Job.id job ->
  Job.retryCount job < Job.maxRetries job ->
  other ∈ jobs db -> Job.id other <> Job.id job ->
  Job.createdAt other
  < WorkerService.retry_now env + WorkerService.backoffMs (Job.retryCount job) ->
  exists db1,
    WorkerService.retryJob job message env db = Prisma.Ok db1
    /\ forall w clk u db2,
         eligible (WorkerService.at_query clk) other ->
         WorkerService.acquireLease w clk db1 = (Some u, db2) ->
         Job.id u <> Job.id job.
Proof.
  intros Hpk Hr Hid Hlt Ho Hne Hbefore.
  destruct (retryJob_retries job message env db r Hpk Hr Hid Hlt)
    as (db1 & Hrun & Hrep & _).
  exists db1. split; [done|].
  intros w clk u db2 Hel Hacq.
  assert (pkey_ok db1) as Hpk1 by (eapply replaced_pkey; done).
  pose proof (acquireLease_cases w clk db1 Hpk1) as H. rewrite Hacq in H.
  destruct H as (j & Hj & _ & Hmin & Hu & _).
  assert (other ∈ jobs db1) as Ho1.
  { destruct (replaced_forward _ _ _ _ _ Hrep Ho) as [->|?]; [|done].
    by destruct Hne. }
  specialize (Hmin other Ho1 Hel).
  intros Hidu. rewrite Hu in Hidu. simpl in Hidu.
  assert (j = WorkerService.retry_data job message (WorkerService.retry_now env) r) as ->.
  { apply (pkey_unique (jobs db1)); [done|done|by apply (replaced_mem _ _ _ _ Hrep)|].
    simpl. congruence. }
  simpl in Hmin. lia.
Qed.

Lemma retried_job_goes_behind_witness :
  exists db1,
    WorkerService.retryJob Scenario.leased_job "e1" (Scenario.process_env 5000 "dlq-1")
      (Routes.db (Runtime.world Scenario2.second_waiting)) = Prisma.Ok db1
    /\ forall w clk u db2,
         eligible (WorkerService.at_query clk) Scenario2.second_job ->
         WorkerService.acquireLease w clk db1 = (Some u, db2) ->
         Job.id u <> Job.id Scenario.leased_job.
Proof.
  apply (retried_job_goes_behind Scenario.leased_job Scenario2.second_job
           Scenario.leased_job "e1" (Scenario.process_env 5000 "dlq-1")
           (Routes.db (Runtime.world Scenario2.second_waiting))).
  - unfold pkey_ok. vm_compute. apply NoDup_cons. split; [|apply NoDup_singleton].
    intros H. apply list_elem_of_singleton in H. discriminate H.
  - vm_compute. apply list_elem_of_here.
  - reflexivity.
  - vm_compute. reflexivity.
  - vm_compute. apply list_elem_of_further, list_elem_of_here.
  - discriminate.
  - vm_compute. reflexivity.
Defined.
